(** * Turn accounting and session registry of the live voice agent

  A shallow embedding of [app/cost_tracker.py], [app/latency_tracker.py]
  and [app/session_manager.py], and of the code that drives them: the
  playback tool of [app/tools.py], the handlers of [app/agent.py] and the
  endpoints and text pipeline of [app/main.py].

  - Python [float] is IEEE binary64, embedded as Rocq's primitive [float]
    (same format, round to nearest even), so that every arithmetic
    expression below evaluates to the very double CPython computes.
  - Python [int] is unbounded, embedded as [Z].
  - Objects that the code mutates through several references (the turns of
    a tracker, the sessions of the registry) live in a store indexed by
    reference; lists and dicts hold references, as in Python.
  - [time.time()] and [datetime.utcnow()] are inputs: every method takes
    the readings it would obtain from the clock as arguments.
  - [structlog] output is returned as a list of log records.
  - Coroutines run in a state and exception monad over the outside world;
    what the event loop runs on shared state during an [await] is an
    explicit argument. *)

From Stdlib Require Import ZArith Floats.
From stdpp Require Import base option list strings functions.

Set Warnings "-inexact-float,-register-all".
Set Default Proof Using "Type".

(** ** Python values and builtins used by the three modules *)

Module Py.

(** A reference to a heap object. *)
Definition ref := nat.

(** [bool(x)] for a float: false exactly for [0.0] and [-0.0]
    ([nan] is truthy). *)
Definition float_truthy (x : float) : bool := negb (x =? 0)%float.

(** [float(n)] for an int: the nearest double, ties to even. *)
Definition float_of_Z (n : Z) : float :=
  SF2Prim (binary_normalize prec emax n 0 false).

(** An int as an unrounded binary float with exponent [0]. *)
Definition exact_of_Z (n : Z) : spec_float :=
  match n with
  | Z0 => S754_zero false
  | Z.pos p => S754_finite false p 0
  | Z.neg p => S754_finite true p 0
  end.

(** [a / b] on two ints (true division): the exact quotient, rounded once to
    the nearest double.  Every divisor below is a non-zero constant, so
    [ZeroDivisionError] does not arise. *)
Definition int_truediv (a b : Z) : float :=
  SF2Prim (SFdiv prec emax (exact_of_Z a) (exact_of_Z b)).

(** [sum(xs)] over floats, left to right.  Python starts from the int [0];
    every use below adds a float to the result or divides it, so starting
    from [0.0] yields the same double.  (CPython 3.12 and later compensate
    the rounding error of the running sum; on lists of at most two elements,
    which is all that is evaluated below, the result is the same double.) *)
Definition sum (xs : list float) : float :=
  fold_left PrimFloat.add xs 0%float.

(** [len(xs)] as the float it becomes when a float is divided by it. *)
Definition float_len {A} (xs : list A) : float :=
  float_of_Z (Z.of_nat (length xs)).

(** [round(x, ndigits)] for a float and [ndigits >= 0]: the exact binary
    value of [x] is rounded half-to-even at [ndigits] decimals and the
    decimal result is converted back to the nearest double; zeros,
    infinities and [nan] are returned as they are. *)
Definition round (x : float) (ndigits : N) : float :=
  match Prim2SF x with
  | S754_finite s m e =>
      let p := (10 ^ Z.of_N ndigits)%Z in
      let num := (if 0 <=? e then Z.pos m * 2 ^ e * p else Z.pos m * p)%Z in
      let den := (if 0 <=? e then 1 else 2 ^ (- e))%Z in
      let q := (num / den)%Z in
      let r := (num mod den)%Z in
      let n := match (2 * r ?= den)%Z with
               | Lt => q
               | Gt => (q + 1)%Z
               | Eq => if Z.even q then q else (q + 1)%Z
               end in
      if (n =? 0)%Z then (if s then neg_zero else zero)
      else int_truediv (if s then - n else n) p
  | _ => x
  end.

(** JSON-like values: what the snapshot dicts and the log records hold. *)
Inductive value :=
| VNone
| VBool (b : bool)
| VInt (n : Z)
| VFloat (x : float)
| VStr (s : string)
| VDict (items : list (string * value)).

(** [d[k]] on a [VDict]; [None] stands for [KeyError] / not a dict. *)
Definition getitem (d : value) (k : string) : option value :=
  match d with
  | VDict items => snd <$> List.find (fun kv => String.eqb (fst kv) k) items
  | _ => None
  end.

(** [bool(v)]: [None], [False], zeros, the empty string and the empty
    dict are falsy. *)
Definition truthy (v : value) : bool :=
  match v with
  | VNone => false
  | VBool b => b
  | VInt n => negb (n =? 0)%Z
  | VFloat x => float_truthy x
  | VStr s => negb (String.eqb s "")
  | VDict items => match items with [] => false | _ => true end
  end.

(** [k in d] on a [VDict]. *)
Definition has_key (d : value) (k : string) : bool :=
  match getitem d k with
  | Some _ => true
  | None => false
  end.

(** [round(x, nd) if x else None] for an [Optional[float]]. *)
Definition round_or_none (o : option float) (nd : N) : value :=
  match o with
  | Some x => if float_truthy x then VFloat (round x nd) else VNone
  | None => VNone
  end.

(** One call to [logger.info] / [logger.warning]. *)
Record log_record := LogRecord {
  level : string;
  event : string;
  fields : list (string * value)
}.

(** An insertion-ordered [dict] with string keys. *)
Section dict.
Context {V : Type}.

Definition dict := list (string * V).

Definition dict_get (d : dict) (k : string) : option V :=
  snd <$> List.find (fun kv => String.eqb (fst kv) k) d.

(** [d[k] = v]: a present key keeps its position, a new key goes last. *)
Fixpoint dict_set (d : dict) (k : string) (v : V) : dict :=
  match d with
  | [] => [(k, v)]
  | (k', v') :: d' =>
      if String.eqb k' k then (k', v) :: d' else (k', v') :: dict_set d' k v
  end.

(** [d.pop(k, None)]. *)
Definition dict_pop (d : dict) (k : string) : option V * dict :=
  (dict_get d k, List.filter (fun kv => negb (String.eqb (fst kv) k)) d).

Definition dict_values (d : dict) : list V := snd <$> d.
Definition dict_keys (d : dict) : list string := fst <$> d.
End dict.
Global Arguments dict : clear implicits.

End Py.

(** ** [app/cost_tracker.py] *)

Module cost_tracker.
Import Py.

(** [@dataclass class TurnCost]. *)
Record TurnCost := mkTurnCost {
  turn_id : Z;
  stt_cost : float;
  llm_input_cost : float;
  llm_output_cost : float;
  tts_cost : float;
  timestamp : float
}.

(** [TurnCost(turn_id=n)]; [timestamp] defaults to [time.time()]. *)
Definition new_TurnCost (n : Z) (now : float) : TurnCost :=
  mkTurnCost n 0 0 0 0 now.

Definition llm_cost (t : TurnCost) : float :=
  (llm_input_cost t + llm_output_cost t)%float.

Definition total (t : TurnCost) : float :=
  (stt_cost t + llm_cost t + tts_cost t)%float.

(** Pricing constants (USD). *)
Definition SONIOX_COST_PER_MINUTE : float := 0.002.
Definition GROQ_INPUT_COST_PER_MILLION : float := 0.59.
Definition GROQ_OUTPUT_COST_PER_MILLION : float := 0.79.
Definition ELEVENLABS_COST_PER_1K_CHARS : float := 0.24.

(** [class CostTracker].  [heap] holds the [TurnCost] objects this tracker
    has allocated, [next_ref] is the next free reference; [turns] and
    [_current_turn] are references into [heap]. *)
Record CostTracker := mkCostTracker {
  session_id : string;
  heap : ref -> TurnCost;
  next_ref : ref;
  turns : list ref;
  _current_turn : ref;
  _turn_counter : Z
}.

(** [CostTracker(session_id)]. *)
Definition init (sid : string) (now : float) : CostTracker :=
  {| session_id := sid;
     heap := fun _ => new_TurnCost 0 now;
     next_ref := 1;
     turns := [];
     _current_turn := 0;
     _turn_counter := 0 |}.

(** The object behind [self._current_turn], and in-place updates of it. *)
Definition current (ct : CostTracker) : TurnCost :=
  heap ct (_current_turn ct).

Definition update_current (f : TurnCost -> TurnCost) (ct : CostTracker)
  : CostTracker :=
  {| session_id := session_id ct;
     heap := <[_current_turn ct := f (current ct)]> (heap ct);
     next_ref := next_ref ct;
     turns := turns ct;
     _current_turn := _current_turn ct;
     _turn_counter := _turn_counter ct |}.

(** The objects behind [self.turns], in list order. *)
Definition history (ct : CostTracker) : list TurnCost :=
  heap ct <$> turns ct.

Definition add_stt_cost (audio_duration_seconds : float) (ct : CostTracker)
  : CostTracker :=
  let minutes := (audio_duration_seconds / 60)%float in
  update_current
    (fun t => mkTurnCost (turn_id t)
                (stt_cost t + minutes * SONIOX_COST_PER_MINUTE)%float
                (llm_input_cost t) (llm_output_cost t) (tts_cost t)
                (timestamp t))
    ct.

Definition add_llm_cost (input_tokens output_tokens : Z) (ct : CostTracker)
  : CostTracker :=
  let ct1 :=
    update_current
      (fun t => mkTurnCost (turn_id t) (stt_cost t)
                  (llm_input_cost t
                   + int_truediv input_tokens 1000000
                     * GROQ_INPUT_COST_PER_MILLION)%float
                  (llm_output_cost t) (tts_cost t) (timestamp t))
      ct in
  update_current
    (fun t => mkTurnCost (turn_id t) (stt_cost t) (llm_input_cost t)
                (llm_output_cost t
                 + int_truediv output_tokens 1000000
                   * GROQ_OUTPUT_COST_PER_MILLION)%float
                (tts_cost t) (timestamp t))
    ct1.

Definition add_tts_cost (characters : Z) (ct : CostTracker) : CostTracker :=
  update_current
    (fun t => mkTurnCost (turn_id t) (stt_cost t) (llm_input_cost t)
                (llm_output_cost t)
                (tts_cost t
                 + int_truediv characters 1000
                   * ELEVENLABS_COST_PER_1K_CHARS)%float
                (timestamp t))
    ct.

(** [finish_turn]: returns the tracker afterwards and the reference to the
    completed turn ([now] is the timestamp of the new open turn). *)
Definition finish_turn (now : float) (ct : CostTracker) : CostTracker * ref :=
  let completed_turn := _current_turn ct in
  let counter := (_turn_counter ct + 1)%Z in
  ({| session_id := session_id ct;
      heap := <[next_ref ct := new_TurnCost counter now]> (heap ct);
      next_ref := S (next_ref ct);
      turns := turns ct ++ [completed_turn];
      _current_turn := next_ref ct;
      _turn_counter := counter |},
   completed_turn).

Definition total_stt_cost (ct : CostTracker) : float :=
  (sum (stt_cost <$> history ct) + stt_cost (current ct))%float.

Definition total_llm_cost (ct : CostTracker) : float :=
  (sum (llm_cost <$> history ct) + llm_cost (current ct))%float.

Definition total_tts_cost (ct : CostTracker) : float :=
  (sum (tts_cost <$> history ct) + tts_cost (current ct))%float.

Definition total_cost (ct : CostTracker) : float :=
  (total_stt_cost ct + total_llm_cost ct + total_tts_cost ct)%float.

Definition turn_count (ct : CostTracker) : Z :=
  Z.of_nat (length (turns ct)).

Definition average_cost_per_turn (ct : CostTracker) : float :=
  match turns ct with
  | [] => 0%float
  | _ => (total_cost ct / float_len (turns ct))%float
  end.

(** [TurnCost.to_dict]. *)
Definition to_dict (t : TurnCost) : value :=
  VDict [("turn_id", VInt (turn_id t));
         ("stt_cost", VFloat (round (stt_cost t) 6));
         ("llm_cost", VFloat (round (llm_cost t) 6));
         ("tts_cost", VFloat (round (tts_cost t) 6));
         ("total", VFloat (round (total t) 6))]%string.

Definition get_summary (ct : CostTracker) : value :=
  VDict [("session_id", VStr (session_id ct));
         ("turn_count", VInt (turn_count ct));
         ("costs",
           VDict [("stt", VFloat (round (total_stt_cost ct) 6));
                  ("llm", VFloat (round (total_llm_cost ct) 6));
                  ("tts", VFloat (round (total_tts_cost ct) 6));
                  ("total", VFloat (round (total_cost ct) 6))]);
         ("average_per_turn",
           VFloat (round (average_cost_per_turn ct) 6))]%string.

(** [get_last_turn]: [{}] without a completed turn, else
    [self.turns[-1].to_dict()]. *)
Definition get_last_turn (ct : CostTracker) : value :=
  match list.last (turns ct) with
  | None => VDict []
  | Some r => to_dict (heap ct r)
  end.

End cost_tracker.

(** ** [app/latency_tracker.py] *)

Module latency_tracker.
Import Py.

(** [@dataclass class StageLatency]. *)
Record StageLatency := mkStageLatency {
  stage : string;
  start_time : option float;
  first_result_time : option float;
  end_time : option float
}.

(** [StageLatency(name)]. *)
Definition new_StageLatency (name : string) : StageLatency :=
  mkStageLatency name None None None.

Definition set_start_time (v : option float) (s : StageLatency) :=
  mkStageLatency (stage s) v (first_result_time s) (end_time s).
Definition set_first_result_time (v : option float) (s : StageLatency) :=
  mkStageLatency (stage s) (start_time s) v (end_time s).
Definition set_end_time (v : option float) (s : StageLatency) :=
  mkStageLatency (stage s) (start_time s) (first_result_time s) v.

(** [if self.start_time and self.first_result_time:] tests both fields for
    truthiness, so [None] and [0.0] alike take the [return None] branch. *)
Definition time_to_first_result (s : StageLatency) : option float :=
  match start_time s, first_result_time s with
  | Some t0, Some t1 =>
      if float_truthy t0 && float_truthy t1
      then Some ((t1 - t0) * 1000)%float
      else None
  | _, _ => None
  end.

Definition total_duration (s : StageLatency) : option float :=
  match start_time s, end_time s with
  | Some t0, Some t1 =>
      if float_truthy t0 && float_truthy t1
      then Some ((t1 - t0) * 1000)%float
      else None
  | _, _ => None
  end.

(** [@dataclass class TurnLatency]. *)
Record TurnLatency := mkTurnLatency {
  turn_id : Z;
  turn_start_time : float;
  turn_end_time : option float;
  stt : StageLatency;
  llm : StageLatency;
  tool : StageLatency;
  tts : StageLatency
}.

(** [TurnLatency(turn_id=n)]; [turn_start_time] defaults to [time.time()]. *)
Definition new_TurnLatency (n : Z) (now : float) : TurnLatency :=
  mkTurnLatency n now None
    (new_StageLatency "stt") (new_StageLatency "llm")
    (new_StageLatency "tool") (new_StageLatency "tts").

Definition set_turn_end_time (v : option float) (t : TurnLatency) :=
  mkTurnLatency (turn_id t) (turn_start_time t) v
    (stt t) (llm t) (tool t) (tts t).
Definition upd_stt (f : StageLatency -> StageLatency) (t : TurnLatency) :=
  mkTurnLatency (turn_id t) (turn_start_time t) (turn_end_time t)
    (f (stt t)) (llm t) (tool t) (tts t).
Definition upd_llm (f : StageLatency -> StageLatency) (t : TurnLatency) :=
  mkTurnLatency (turn_id t) (turn_start_time t) (turn_end_time t)
    (stt t) (f (llm t)) (tool t) (tts t).
Definition upd_tool (f : StageLatency -> StageLatency) (t : TurnLatency) :=
  mkTurnLatency (turn_id t) (turn_start_time t) (turn_end_time t)
    (stt t) (llm t) (f (tool t)) (tts t).
Definition upd_tts (f : StageLatency -> StageLatency) (t : TurnLatency) :=
  mkTurnLatency (turn_id t) (turn_start_time t) (turn_end_time t)
    (stt t) (llm t) (tool t) (f (tts t)).

Definition end_to_end_latency (t : TurnLatency) : option float :=
  match start_time (stt t), first_result_time (tts t) with
  | Some t0, Some t1 =>
      if float_truthy t0 && float_truthy t1
      then Some ((t1 - t0) * 1000)%float
      else None
  | _, _ => None
  end.

Definition total_turn_duration (t : TurnLatency) : option float :=
  match turn_end_time t with
  | Some t1 =>
      if float_truthy t1
      then Some ((t1 - turn_start_time t) * 1000)%float
      else None
  | None => None
  end.

(** [class LatencyTracker], with the store of its [TurnLatency] objects. *)
Record LatencyTracker := mkLatencyTracker {
  session_id : string;
  heap : ref -> TurnLatency;
  next_ref : ref;
  turns : list ref;
  _current_turn : ref;
  _turn_counter : Z
}.

(** [LatencyTracker(session_id)]. *)
Definition init (sid : string) (now : float) : LatencyTracker :=
  {| session_id := sid;
     heap := fun _ => new_TurnLatency 0 now;
     next_ref := 1;
     turns := [];
     _current_turn := 0;
     _turn_counter := 0 |}.

Definition current (lt : LatencyTracker) : TurnLatency :=
  heap lt (_current_turn lt).

Definition update_current (f : TurnLatency -> TurnLatency)
    (lt : LatencyTracker) : LatencyTracker :=
  {| session_id := session_id lt;
     heap := <[_current_turn lt := f (current lt)]> (heap lt);
     next_ref := next_ref lt;
     turns := turns lt;
     _current_turn := _current_turn lt;
     _turn_counter := _turn_counter lt |}.

Definition history (lt : LatencyTracker) : list TurnLatency :=
  heap lt <$> turns lt.

(** [_log_stage]: [latency_ms] is attached when it [is not None]. *)
Definition _log_stage (lt : LatencyTracker) (stage event : string)
    (latency_ms : option float) : list log_record :=
  let log_data :=
    [("session_id", VStr (session_id lt));
     ("turn_id", VInt (turn_id (current lt)));
     ("stage", VStr stage)]%string in
  let log_data :=
    match latency_ms with
    | Some x => log_data ++ [("latency_ms"%string, VFloat (round x 2))]
    | None => log_data
    end in
  [LogRecord "info" (stage ++ "_" ++ event) log_data].

(** *** STT timing methods *)

Definition start_stt (now : float) (lt : LatencyTracker)
    : LatencyTracker * list log_record :=
  let lt := update_current (upd_stt (set_start_time (Some now))) lt in
  (lt, _log_stage lt "stt" "started" None).

Definition stt_first_result (now : float) (lt : LatencyTracker)
    : LatencyTracker * list log_record :=
  let lt := update_current (upd_stt (set_first_result_time (Some now))) lt in
  (lt, _log_stage lt "stt" "first_result"
         (time_to_first_result (stt (current lt)))).

Definition end_stt (now : float) (lt : LatencyTracker)
    : LatencyTracker * list log_record :=
  let lt := update_current (upd_stt (set_end_time (Some now))) lt in
  (lt, _log_stage lt "stt" "completed" (total_duration (stt (current lt)))).

(** *** LLM timing methods *)

Definition start_llm (now : float) (lt : LatencyTracker)
    : LatencyTracker * list log_record :=
  let lt := update_current (upd_llm (set_start_time (Some now))) lt in
  (lt, _log_stage lt "llm" "started" None).

Definition llm_first_token (now : float) (lt : LatencyTracker)
    : LatencyTracker * list log_record :=
  let lt := update_current (upd_llm (set_first_result_time (Some now))) lt in
  (lt, _log_stage lt "llm" "first_token"
         (time_to_first_result (llm (current lt)))).

Definition end_llm (now : float) (lt : LatencyTracker)
    : LatencyTracker * list log_record :=
  let lt := update_current (upd_llm (set_end_time (Some now))) lt in
  (lt, _log_stage lt "llm" "completed" (total_duration (llm (current lt)))).

(** *** Tool timing methods *)

Definition start_tool (now : float) (lt : LatencyTracker)
    : LatencyTracker * list log_record :=
  let lt := update_current (upd_tool (set_start_time (Some now))) lt in
  (lt, _log_stage lt "tool" "started" None).

Definition end_tool (now : float) (lt : LatencyTracker)
    : LatencyTracker * list log_record :=
  let lt := update_current (upd_tool (set_end_time (Some now))) lt in
  let lt :=
    update_current
      (fun t => upd_tool (set_first_result_time (end_time (tool t))) t) lt in
  (lt, _log_stage lt "tool" "completed" (total_duration (tool (current lt)))).

(** *** TTS timing methods *)

Definition start_tts (now : float) (lt : LatencyTracker)
    : LatencyTracker * list log_record :=
  let lt := update_current (upd_tts (set_start_time (Some now))) lt in
  (lt, _log_stage lt "tts" "started" None).

(** The [end_to_end_latency] record, carrying [target_met], is emitted under
    [if e2e:]. *)
Definition tts_first_audio (now : float) (lt : LatencyTracker)
    : LatencyTracker * list log_record :=
  let lt := update_current (upd_tts (set_first_result_time (Some now))) lt in
  let log1 :=
    _log_stage lt "tts" "first_audio"
      (time_to_first_result (tts (current lt))) in
  let log2 :=
    match end_to_end_latency (current lt) with
    | Some e2e =>
        if float_truthy e2e
        then [LogRecord "info" "end_to_end_latency"
                [("session_id", VStr (session_id lt));
                 ("turn_id", VInt (turn_id (current lt)));
                 ("latency_ms", VFloat (round e2e 2));
                 ("target_met", VBool (e2e <=? 2000)%float)]%string]
        else []
    | None => []
    end in
  (lt, log1 ++ log2).

Definition end_tts (now : float) (lt : LatencyTracker)
    : LatencyTracker * list log_record :=
  let lt := update_current (upd_tts (set_end_time (Some now))) lt in
  (lt, _log_stage lt "tts" "completed" (total_duration (tts (current lt)))).

(** [round(x or 0, 2)]: a falsy [x] is replaced by the int [0]. *)
Definition round_or_zero (o : option float) : value :=
  match o with
  | Some x => if float_truthy x then VFloat (round x 2) else VInt 0
  | None => VInt 0
  end.

(** [finish_turn]: [now_end] becomes [turn_end_time] of the completed turn,
    [now_start] is [turn_start_time] of the new open turn.  Returns the
    tracker, the reference to the completed turn and the log. *)
Definition finish_turn (now_end now_start : float) (lt : LatencyTracker)
    : LatencyTracker * ref * list log_record :=
  let lt := update_current (set_turn_end_time (Some now_end)) lt in
  let completed_turn := _current_turn lt in
  let log :=
    [LogRecord "info" "turn_completed"
       [("session_id", VStr (session_id lt));
        ("turn_id", VInt (turn_id (heap lt completed_turn)));
        ("total_duration_ms",
          round_or_zero (total_turn_duration (heap lt completed_turn)));
        ("end_to_end_ms",
          round_or_zero (end_to_end_latency (heap lt completed_turn)))]%string]
  in
  let counter := (_turn_counter lt + 1)%Z in
  ({| session_id := session_id lt;
      heap := <[next_ref lt := new_TurnLatency counter now_start]> (heap lt);
      next_ref := S (next_ref lt);
      turns := turns lt ++ [completed_turn];
      _current_turn := next_ref lt;
      _turn_counter := counter |},
   completed_turn, log).

(** [[t.end_to_end_latency for t in self.turns if t.end_to_end_latency]]. *)
Definition qualifying_latencies (lt : LatencyTracker) : list float :=
  omap (fun t => match end_to_end_latency t with
                 | Some x => if float_truthy x then Some x else None
                 | None => None
                 end)
       (history lt).

Definition average_end_to_end_latency (lt : LatencyTracker) : option float :=
  match qualifying_latencies lt with
  | [] => None
  | latencies => Some (sum latencies / float_len latencies)%float
  end.

Definition turn_count (lt : LatencyTracker) : Z :=
  Z.of_nat (length (turns lt)).

(** [StageLatency.to_dict]. *)
Definition StageLatency_to_dict (s : StageLatency) : value :=
  VDict [("stage", VStr (stage s));
         ("time_to_first_result_ms",
           round_or_none (time_to_first_result s) 2);
         ("total_duration_ms", round_or_none (total_duration s) 2)]%string.

(** [TurnLatency.to_dict]. *)
Definition TurnLatency_to_dict (t : TurnLatency) : value :=
  VDict [("turn_id", VInt (turn_id t));
         ("end_to_end_latency_ms", round_or_none (end_to_end_latency t) 2);
         ("total_turn_duration_ms",
           round_or_none (total_turn_duration t) 2);
         ("stages",
           VDict [("stt", StageLatency_to_dict (stt t));
                  ("llm", StageLatency_to_dict (llm t));
                  ("tool", StageLatency_to_dict (tool t));
                  ("tts", StageLatency_to_dict (tts t))])]%string.

(** [get_summary]; [target_met] is
    [avg_e2e is not None and avg_e2e <= 2000]. *)
Definition get_summary (lt : LatencyTracker) : value :=
  let avg_e2e := average_end_to_end_latency lt in
  VDict [("session_id", VStr (session_id lt));
         ("turn_count", VInt (turn_count lt));
         ("average_end_to_end_latency_ms", round_or_none avg_e2e 2);
         ("target_latency_ms", VInt 2000);
         ("target_met",
           VBool match avg_e2e with
                 | Some x => (x <=? 2000)%float
                 | None => false
                 end)]%string.

(** [get_last_turn]: [{}] without a completed turn, else
    [self.turns[-1].to_dict()]. *)
Definition get_last_turn (lt : LatencyTracker) : value :=
  match list.last (turns lt) with
  | None => VDict []
  | Some r => TurnLatency_to_dict (heap lt r)
  end.

End latency_tracker.

(** ** [app/session_manager.py] *)

Module session_manager.
Import Py.

(** A [datetime], in microseconds since the epoch. *)
Definition datetime := Z.

(** [(t1 - t0).total_seconds()]. *)
Definition total_seconds (t1 t0 : datetime) : float :=
  int_truediv (t1 - t0) 1000000.

(** [@dataclass class Session]. *)
Record Session := mkSession {
  session_id : string;
  created_at : datetime;
  cost_tracker : cost_tracker.CostTracker;
  latency_tracker : latency_tracker.LatencyTracker;
  is_active : bool;
  metadata : dict value
}.

(** [Session(session_id=sid, metadata=md)]: [created_at] is
    [datetime.utcnow()], [__post_init__] builds both trackers (each reads
    [time.time()] for its first open turn), [is_active] defaults to
    [True]. *)
Definition new_Session (sid : string) (md : dict value)
    (utcnow : datetime) (t_cost t_latency : float) : Session :=
  {| session_id := sid;
     created_at := utcnow;
     cost_tracker := cost_tracker.init sid t_cost;
     latency_tracker := latency_tracker.init sid t_latency;
     is_active := true;
     metadata := md |}.

Definition set_is_active (b : bool) (s : Session) : Session :=
  {| session_id := session_id s;
     created_at := created_at s;
     cost_tracker := cost_tracker s;
     latency_tracker := latency_tracker s;
     is_active := b;
     metadata := metadata s |}.

(** [class SessionManager].  [objs] is the store of [Session] objects ever
    constructed by this manager ([None]: no object at that reference);
    [_sessions] maps ids to references.  Both [create_session] and
    [remove_session] run under [self._lock] without awaiting inside, so each
    is one step on this state. *)
Record SessionManager := mkSessionManager {
  objs : ref -> option Session;
  next_ref : ref;
  _sessions : dict ref;
  _total_sessions_created : Z
}.

(** [SessionManager()]. *)
Definition init : SessionManager :=
  {| objs := fun _ => None;
     next_ref := 0;
     _sessions := [];
     _total_sessions_created := 0 |}.

(** [metadata or {}]. *)
Definition metadata_or_empty (md : option (dict value)) : dict value :=
  match md with
  | Some (kv :: kvs) => kv :: kvs
  | _ => []
  end.

Definition active_session_count (m : SessionManager) : Z :=
  Z.of_nat (length (_sessions m)).

(** [create_session]: returns the manager afterwards, the reference to the
    returned [Session] and the log.  The first branch is
    [if session_id in self._sessions: return self._sessions[session_id]]. *)
Definition create_session (sid : string) (md : option (dict value))
    (utcnow : datetime) (t_cost t_latency : float) (m : SessionManager)
    : SessionManager * ref * list log_record :=
  match dict_get (_sessions m) sid with
  | Some r =>
      (m, r,
       [LogRecord "warning" "session_already_exists"
          [("session_id"%string, VStr sid)]])
  | None =>
      let session :=
        new_Session sid (metadata_or_empty md) utcnow t_cost t_latency in
      let r := next_ref m in
      let m' :=
        {| objs := <[r := Some session]> (objs m);
           next_ref := S r;
           _sessions := dict_set (_sessions m) sid r;
           _total_sessions_created := (_total_sessions_created m + 1)%Z |} in
      (m', r,
       [LogRecord "info" "session_created"
          [("session_id", VStr sid);
           ("active_sessions", VInt (active_session_count m'))]%string])
  end.

(** [get_session]. *)
Definition get_session (sid : string) (m : SessionManager) : option ref :=
  dict_get (_sessions m) sid.

(** [remove_session]: [self._sessions.pop(session_id, None)], then
    [session.is_active = False] on the popped object. *)
Definition remove_session (sid : string) (utcnow : datetime)
    (m : SessionManager) : SessionManager * option ref * list log_record :=
  let '(popped, sessions') := dict_pop (_sessions m) sid in
  match popped with
  | Some r =>
      let m' :=
        {| objs := <[r := set_is_active false <$> objs m r]> (objs m);
           next_ref := next_ref m;
           _sessions := sessions';
           _total_sessions_created := _total_sessions_created m |} in
      let log :=
        match objs m' r with
        | Some session =>
            [LogRecord "info" "session_removed"
               [("session_id", VStr sid);
                ("duration_seconds",
                  VFloat (total_seconds utcnow (created_at session)));
                ("turns",
                  VInt (latency_tracker.turn_count (latency_tracker session)));
                ("total_cost",
                  VFloat (cost_tracker.total_cost (cost_tracker session)));
                ("active_sessions", VInt (active_session_count m'))]%string]
        | None => []
        end in
      (m', Some r, log)
  | None =>
      ({| objs := objs m;
          next_ref := next_ref m;
          _sessions := sessions';
          _total_sessions_created := _total_sessions_created m |},
       None, [])
  end.

Definition total_sessions_created (m : SessionManager) : Z :=
  _total_sessions_created m.

Definition get_active_sessions (m : SessionManager) : list string :=
  dict_keys (_sessions m).

(** [self._sessions.values()], dereferenced. *)
Definition session_values (m : SessionManager) : list Session :=
  omap (objs m) (dict_values (_sessions m)).

Definition _get_cost_breakdown (m : SessionManager) : value :=
  let stt_cost :=
    fold_left (fun acc s =>
                 (acc + cost_tracker.total_stt_cost (cost_tracker s))%float)
      (session_values m) 0%float in
  let llm_cost :=
    fold_left (fun acc s =>
                 (acc + cost_tracker.total_llm_cost (cost_tracker s))%float)
      (session_values m) 0%float in
  let tts_cost :=
    fold_left (fun acc s =>
                 (acc + cost_tracker.total_tts_cost (cost_tracker s))%float)
      (session_values m) 0%float in
  VDict [("stt", VFloat (round stt_cost 6));
         ("llm", VFloat (round llm_cost 6));
         ("tts", VFloat (round tts_cost 6))]%string.

(** The body of [get_aggregate_metrics] after the [if not self._sessions]
    guard. *)
Definition aggregate_over_sessions (m : SessionManager) : value :=
  let total_cost :=
    fold_left (fun acc s =>
                 (acc + cost_tracker.total_cost (cost_tracker s))%float)
      (session_values m) 0%float in
  let total_turns :=
    fold_left (fun acc s =>
                 (acc + latency_tracker.turn_count (latency_tracker s))%Z)
      (session_values m) 0%Z in
  let latencies :=
    omap (fun s =>
            match latency_tracker.average_end_to_end_latency
                    (latency_tracker s) with
            | Some avg_lat => if float_truthy avg_lat then Some avg_lat else None
            | None => None
            end)
      (session_values m) in
  let avg_latency :=
    match latencies with
    | [] => None
    | _ => Some (sum latencies / float_len latencies)%float
    end in
  VDict [("active_sessions", VInt (active_session_count m));
         ("total_sessions_created", VInt (_total_sessions_created m));
         ("total_turns", VInt total_turns);
         ("aggregate_cost",
           VDict [("total", VFloat (round total_cost 6));
                  ("breakdown", _get_cost_breakdown m)]);
         ("average_latency_ms", round_or_none avg_latency 2);
         ("target_latency_ms", VInt 2000)]%string.

Definition get_aggregate_metrics (m : SessionManager) : value :=
  match _sessions m with
  | [] =>
      VDict [("active_sessions", VInt 0);
             ("total_sessions_created", VInt (_total_sessions_created m));
             ("aggregate_cost", VFloat 0);
             ("average_latency_ms", VNone)]%string
  | _ => aggregate_over_sessions m
  end.

(** [get_session_details]; [None] stands for the [return None] of an
    absent id.  [isoformat] is [datetime.isoformat], taken as given. *)
Definition get_session_details (isoformat : datetime -> string)
    (sid : string) (m : SessionManager) : option value :=
  match dict_get (_sessions m) sid ≫= objs m with
  | None => None
  | Some session =>
      Some (VDict [("session_id", VStr sid);
                   ("created_at", VStr (isoformat (created_at session)));
                   ("is_active", VBool (is_active session));
                   ("cost",
                     cost_tracker.get_summary (cost_tracker session));
                   ("latency",
                     latency_tracker.get_summary (latency_tracker session));
                   ("metadata", VDict (metadata session))]%string)
  end.

End session_manager.

(** ** Call sequences

    The pipeline driver and the connection handlers call the methods above in
    an order of their own choosing.  A call sequence lists the calls with the
    clock readings each one takes; [run] replays it. *)

Module cost_calls.
Import Py cost_tracker.

Inductive call :=
| AddStt (audio_duration_seconds : float)
| AddLlm (input_tokens output_tokens : Z)
| AddTts (characters : Z)
| FinishTurn (now : float).

Definition step (ct : CostTracker) (c : call) : CostTracker :=
  match c with
  | AddStt d => add_stt_cost d ct
  | AddLlm i o => add_llm_cost i o ct
  | AddTts n => add_tts_cost n ct
  | FinishTurn now => fst (finish_turn now ct)
  end.

Definition run (cs : list call) (ct : CostTracker) : CostTracker :=
  fold_left step cs ct.

(** [finish_turn()] called once per clock reading in [ts]. *)
Definition finish_turns (ts : list float) (ct : CostTracker) : CostTracker :=
  run (FinishTurn <$> ts) ct.

(** The number of [finish_turn()] calls of a sequence. *)
Definition is_finish (c : call) : bool :=
  match c with
  | FinishTurn _ => true
  | _ => false
  end.

Definition count_finish (cs : list call) : nat :=
  length (List.filter is_finish cs).

(** References are handed out in increasing order: the open turn is the
    latest object of the store and every finalized turn is older. *)
Definition refs_ok (ct : CostTracker) : Prop :=
  _current_turn ct < next_ref ct /\
  Forall (fun r => r < _current_turn ct) (turns ct).

(** [n] turns have been finalized and they are numbered in order. *)
Definition numbered (n : nat) (ct : CostTracker) : Prop :=
  turn_id <$> history ct = Z.of_nat <$> seq 0 n /\
  turn_id (current ct) = Z.of_nat n /\
  _turn_counter ct = Z.of_nat n.

End cost_calls.

Module latency_calls.
Import Py latency_tracker.

Inductive call :=
| StartStt (now : float)
| SttFirstResult (now : float)
| EndStt (now : float)
| StartLlm (now : float)
| LlmFirstToken (now : float)
| EndLlm (now : float)
| StartTool (now : float)
| EndTool (now : float)
| StartTts (now : float)
| TtsFirstAudio (now : float)
| EndTts (now : float)
| FinishTurn (now_end now_start : float).

Definition step (lt : LatencyTracker) (c : call) : LatencyTracker :=
  match c with
  | StartStt now => fst (start_stt now lt)
  | SttFirstResult now => fst (stt_first_result now lt)
  | EndStt now => fst (end_stt now lt)
  | StartLlm now => fst (start_llm now lt)
  | LlmFirstToken now => fst (llm_first_token now lt)
  | EndLlm now => fst (end_llm now lt)
  | StartTool now => fst (start_tool now lt)
  | EndTool now => fst (end_tool now lt)
  | StartTts now => fst (start_tts now lt)
  | TtsFirstAudio now => fst (tts_first_audio now lt)
  | EndTts now => fst (end_tts now lt)
  | FinishTurn now_end now_start => fst (fst (finish_turn now_end now_start lt))
  end.

Definition run (cs : list call) (lt : LatencyTracker) : LatencyTracker :=
  fold_left step cs lt.

(** [finish_turn()] called once per pair of clock readings in [ts]. *)
Definition finish_turns (ts : list (float * float)) (lt : LatencyTracker)
    : LatencyTracker :=
  run ((fun p => FinishTurn (fst p) (snd p)) <$> ts) lt.

Definition is_finish (c : call) : bool :=
  match c with
  | FinishTurn _ _ => true
  | _ => false
  end.

Definition count_finish (cs : list call) : nat :=
  length (List.filter is_finish cs).

Definition refs_ok (lt : LatencyTracker) : Prop :=
  _current_turn lt < next_ref lt /\
  Forall (fun r => r < _current_turn lt) (turns lt).

Definition numbered (n : nat) (lt : LatencyTracker) : Prop :=
  turn_id <$> history lt = Z.of_nat <$> seq 0 n /\
  turn_id (current lt) = Z.of_nat n /\
  _turn_counter lt = Z.of_nat n.

(** In every turn object the tool stage has one and the same value as
    first-result time and as end time. *)
Definition tool_first_is_end (lt : LatencyTracker) : Prop :=
  forall r, first_result_time (tool (heap lt r)) = end_time (tool (heap lt r)).

(** The mean of [end_to_end_latency] over the history entries for which it
    is defined (not [None]), as the specification words it. *)
Definition defined_latencies (lt : LatencyTracker) : list float :=
  omap end_to_end_latency (history lt).

Definition mean_of_defined_latencies (lt : LatencyTracker) : option float :=
  match defined_latencies lt with
  | [] => None
  | xs => Some (sum xs / float_len xs)%float
  end.

(** The records of a log with the given event name. *)
Definition records_of (name : string) (log : list log_record)
    : list log_record :=
  List.filter (fun r => String.eqb (event r) name) log.

(** The value a log record carries under a field name. *)
Definition field (name : string) (r : log_record) : option value :=
  getitem (VDict (fields r)) name.

Definition is_start_stt (c : call) : bool :=
  match c with
  | StartStt _ => true
  | _ => false
  end.

Definition is_tts_first_audio (c : call) : bool :=
  match c with
  | TtsFirstAudio _ => true
  | _ => false
  end.

(** Every timestamp that is set in [s] is set in [s']. *)
Definition stage_kept (s s' : StageLatency) : Prop :=
  (is_Some (start_time s) -> is_Some (start_time s')) /\
  (is_Some (first_result_time s) -> is_Some (first_result_time s')) /\
  (is_Some (end_time s) -> is_Some (end_time s')).

(** [t'] is the same turn as [t], with no stage timestamp cleared. *)
Definition turn_kept (t t' : TurnLatency) : Prop :=
  turn_id t' = turn_id t /\
  turn_start_time t' = turn_start_time t /\
  stage_kept (stt t) (stt t') /\ stage_kept (llm t) (llm t') /\
  stage_kept (tool t) (tool t') /\ stage_kept (tts t) (tts t').

End latency_calls.

Module manager_calls.
Import Py session_manager.

Inductive call :=
| Create (sid : string) (md : option (dict value)) (utcnow : datetime)
    (t_cost t_latency : float)
| Remove (sid : string) (utcnow : datetime).

Definition step (m : SessionManager) (c : call) : SessionManager :=
  match c with
  | Create sid md utcnow t_cost t_latency =>
      fst (fst (create_session sid md utcnow t_cost t_latency m))
  | Remove sid utcnow => fst (fst (remove_session sid utcnow m))
  end.

Definition run (cs : list call) (m : SessionManager) : SessionManager :=
  fold_left step cs m.

(** [is_active] of the object behind a reference. *)
Definition active_at (m : SessionManager) (r : ref) : option bool :=
  is_active <$> objs m r.

(** Every entry of the mapping refers to an allocated, active [Session]
    object, no two entries refer to the same object, and there is no object
    at a reference that has not been handed out yet. *)
Definition registry_ok (m : SessionManager) : Prop :=
  Forall (fun kr => snd kr < next_ref m /\ active_at m (snd kr) = Some true)
         (_sessions m) /\
  NoDup (dict_values (_sessions m)) /\
  (forall r, next_ref m <= r -> objs m r = None).

End manager_calls.

(** The registry together with the holders of [Session] references: besides
    creating and removing sessions, a caller that got a [Session] from
    [create_session] or [get_session] calls the methods of its two trackers
    (as [process_text_input] does). *)
Module system_calls.
Import Py session_manager.

Inductive call :=
| Create (sid : string) (md : option (dict value)) (utcnow : datetime)
    (t_cost t_latency : float)
| Remove (sid : string) (utcnow : datetime)
| OnCostTracker (session : ref) (c : cost_calls.call)
| OnLatencyTracker (session : ref) (c : latency_calls.call).

(** In-place update of the [Session] object behind a reference. *)
Definition update_session (r : ref) (f : Session -> Session)
    (m : SessionManager) : SessionManager :=
  {| objs := <[r := f <$> objs m r]> (objs m);
     next_ref := next_ref m;
     _sessions := _sessions m;
     _total_sessions_created := _total_sessions_created m |}.

Definition on_cost_tracker (c : cost_calls.call) (s : Session) : Session :=
  {| session_id := session_id s;
     created_at := created_at s;
     cost_tracker := cost_calls.step (cost_tracker s) c;
     latency_tracker := latency_tracker s;
     is_active := is_active s;
     metadata := metadata s |}.

Definition on_latency_tracker (c : latency_calls.call) (s : Session)
    : Session :=
  {| session_id := session_id s;
     created_at := created_at s;
     cost_tracker := cost_tracker s;
     latency_tracker := latency_calls.step (latency_tracker s) c;
     is_active := is_active s;
     metadata := metadata s |}.

Definition step (m : SessionManager) (c : call) : SessionManager :=
  match c with
  | Create sid md utcnow t_cost t_latency =>
      fst (fst (create_session sid md utcnow t_cost t_latency m))
  | Remove sid utcnow => fst (fst (remove_session sid utcnow m))
  | OnCostTracker r c => update_session r (on_cost_tracker c) m
  | OnLatencyTracker r c => update_session r (on_latency_tracker c) m
  end.

Definition run (cs : list call) (m : SessionManager) : SessionManager :=
  fold_left step cs m.

(** A [Session] filed under the id it was created with, active, whose
    trackers carry that id. *)
Definition session_of (sid : string) (s : Session) : Prop :=
  session_id s = sid /\ is_active s = true /\
  cost_tracker.session_id (cost_tracker s) = sid /\
  latency_tracker.session_id (latency_tracker s) = sid.

(** The mapping has pairwise distinct ids and pairwise distinct references,
    each to an allocated [Session] of that id; no object lies at a reference
    not handed out yet; at most [_total_sessions_created] references have
    been handed out. *)
Definition system_ok (m : SessionManager) : Prop :=
  NoDup (dict_keys (_sessions m)) /\
  NoDup (dict_values (_sessions m)) /\
  Forall (fun kr => snd kr < next_ref m /\
                    exists s, objs m (snd kr) = Some s /\ session_of (fst kr) s)
         (_sessions m) /\
  (forall r, next_ref m <= r -> objs m r = None) /\
  _total_sessions_created m = Z.of_nat (next_ref m).

End system_calls.

(** ** Awaiting, exceptions and the outside world

    The drivers of the trackers ([app/tools.py], [app/agent.py],
    [app/main.py]) are coroutines: they read the clock, log, and await the
    websocket, and an awaited call may raise.  A computation [M St A] runs on
    a driver state [S] and the outside world and either returns or raises;
    the state reached is kept in both cases. *)

Module aio.
Import Py.

(** What awaiting a network call comes to: it completes, it raises an
    [Exception] (with [str(e)]), or the task is cancelled
    ([asyncio.CancelledError], which is not an [Exception]). *)
Inductive net_outcome :=
| Delivered
| Failed (str_e : string)
| Cancelled.

(** The outside world: the readings [time.time()] will give, the outcomes
    the awaited network calls will have, and what has been sent and logged
    so far. *)
Record world := mkWorld {
  clock : nat -> float;
  ticks : nat;
  net : nat -> net_outcome;
  awaited : nat;
  sent : list value;
  log : list log_record
}.

Inductive exn :=
| Exception (str_e : string)
| CancelledError.

Inductive result (A : Type) :=
| Ok (a : A)
| Raise (e : exn).
Global Arguments Ok {A} a.
Global Arguments Raise {A} e.

Definition M (St A : Type) : Type :=
  St -> world -> result A * St * world.

Definition ret {St A} (a : A) : M St A := fun s w => (Ok a, s, w).

Definition bind {St A B} (c : M St A) (k : A -> M St B) : M St B :=
  fun s w =>
    match c s w with
    | (Ok a, s', w') => k a s' w'
    | (Raise e, s', w') => (Raise e, s', w')
    end.

Definition raise {St A} (e : exn) : M St A := fun s w => (Raise e, s, w).

(** [try: c except Exception as e: h(str(e))]. *)
Definition try_except {St A} (c : M St A) (h : string -> M St A) : M St A :=
  fun s w =>
    match c s w with
    | (Raise (Exception str_e), s', w') => h str_e s' w'
    | r => r
    end.

(** [try: c finally: f]. *)
Definition try_finally {St A} (c : M St A) (f : M St unit) : M St A :=
  fun s w =>
    match c s w with
    | (r, s', w') =>
        match f s' w' with
        | (Ok _, s'', w'') => (r, s'', w'')
        | (Raise e, s'', w'') => (Raise e, s'', w'')
        end
    end.

Definition get {St} : M St St := fun s w => (Ok s, s, w).
Definition put {St} (s : St) : M St unit := fun _ w => (Ok tt, s, w).

(** [time.time()]. *)
Definition time_time {St} : M St float :=
  fun s w =>
    (Ok (clock w (ticks w)), s,
     mkWorld (clock w) (S (ticks w)) (net w) (awaited w) (sent w) (log w)).

(** A call to the module's [logger]. *)
Definition emit {St} (records : list log_record) : M St unit :=
  fun s w =>
    (Ok tt, s,
     mkWorld (clock w) (ticks w) (net w) (awaited w) (sent w)
       (log w ++ records)).

(** [await websocket.send_json(v)], on the world alone. *)
Definition send_json_world (v : value) (w : world) : result unit * world :=
  let w' sent' :=
    mkWorld (clock w) (ticks w) (net w) (S (awaited w)) sent' (log w) in
  match net w (awaited w) with
  | Delivered => (Ok tt, w' (sent w ++ [v]))
  | Failed str_e => (Raise (Exception str_e), w' (sent w))
  | Cancelled => (Raise CancelledError, w' (sent w))
  end.

Definition send_json {St} (v : value) : M St unit :=
  fun s w => let '(r, w') := send_json_world v w in (r, s, w').

(** [await asyncio.sleep(delay)]: it completes unless the task is
    cancelled. *)
Definition sleep {St} : M St unit :=
  fun s w =>
    let w' :=
      mkWorld (clock w) (ticks w) (net w) (S (awaited w)) (sent w) (log w) in
    match net w (awaited w) with
    | Cancelled => (Raise CancelledError, s, w')
    | _ => (Ok tt, s, w')
    end.

(** What the event loop runs on the caller's state while a coroutine is
    suspended in an [await]: the handlers and the other tasks that share
    that state. *)
Definition interference (St : Type) : Type := St -> world -> St * world.

(** Nothing else works on the caller's state. *)
Definition no_interference {St} : interference St := fun s w => (s, w).

End aio.

Notation "'let*' x ':=' c 'in' k" :=
  (aio.bind c (fun x => k))
  (at level 10, x name, c at level 200, k at level 200).
Notation "'do' c 'then' k" :=
  (aio.bind c (fun _ => k))
  (at level 10, c at level 200, k at level 200).

(** ** [app/tools.py] *)

Module tools.
Import Py aio.

(** A playback callback, [async def callback(audio_url) -> bool]: it acts
    on the outside world and returns (the truthiness of its result) or
    raises. *)
Definition callback : Type := string -> world -> result bool * world.

(** [class AudioPlaybackTool]. *)
Record AudioPlaybackTool := mkAudioPlaybackTool {
  _playback_callback : option callback
}.

Definition set_callback (cb : callback) (_ : AudioPlaybackTool)
    : AudioPlaybackTool :=
  mkAudioPlaybackTool (Some cb).

(** [description or audio_url]. *)
Definition description_or (description audio_url : string) : string :=
  match description with
  | EmptyString => audio_url
  | _ => description
  end.

(** [await self._playback_callback(audio_url)]: the one place where
    [play_audio] can be suspended.  [during] runs on the caller's state
    while it is, and the callback's effects are taken at its completion. *)
Definition await_callback {St} (during : interference St) (cb : callback)
    (audio_url : string) : M St bool :=
  fun s w =>
    let '(s1, w1) := during s w in
    let '(r, w') := cb audio_url w1 in
    (r, s1, w').

(** [play_audio], with [description] given explicitly and with what runs
    [during] its await. *)
Definition play_audio_during {St} (during : interference St)
    (self : AudioPlaybackTool) (audio_url description : string)
    : M St string :=
  do emit [LogRecord "info" "play_audio_tool_called"
             [("audio_url", VStr audio_url);
              ("description", VStr description)]%string] then
  match _playback_callback self with
  | None =>
      do emit [LogRecord "warning" "play_audio_no_callback" []] then
      ret "Audio playback requested but no playback handler is configured."
  | Some cb =>
      try_except
        (let* success := await_callback during cb audio_url in
         if success : bool then
           do emit [LogRecord "info" "play_audio_success"
                      [("audio_url"%string, VStr audio_url)]] then
           ret ("Successfully started playing audio: "
                +:+ description_or description audio_url)
         else
           do emit [LogRecord "error" "play_audio_failed"
                      [("audio_url"%string, VStr audio_url)]] then
           ret ("Failed to play audio: " +:+ audio_url))
        (fun str_e =>
           do emit [LogRecord "error" "play_audio_error"
                      [("audio_url", VStr audio_url);
                       ("error", VStr str_e);
                       ("exc_info", VBool true)]%string] then
           ret ("Error playing audio: " +:+ str_e))
  end.

(** [play_audio] where nothing else works on the caller's state. *)
Definition play_audio {St} (self : AudioPlaybackTool)
    (audio_url description : string) : M St string :=
  play_audio_during no_interference self audio_url description.

Definition SAMPLE_AUDIO_URLS : dict string :=
  [("notification",
     "https://assets.mixkit.co/active_storage/sfx/2869/2869-preview.mp3");
   ("success",
     "https://assets.mixkit.co/active_storage/sfx/1435/1435-preview.mp3");
   ("error",
     "https://assets.mixkit.co/active_storage/sfx/2955/2955-preview.mp3")
  ]%string.

End tools.

(** ** [app/agent.py]

    The tracking side of [VoiceAgent]: its state, the event handlers that
    [_register_event_handlers] attaches to the LiveKit session, and
    [handle_function_call].  The provider objects built by
    [_init_providers] play no part in them.  [str.split] depends on
    Unicode's notion of whitespace and is taken as given. *)

Module agent.
Import Py aio tools.

Record VoiceAgent := mkVoiceAgent {
  session_id : string;
  cost_tracker : cost_tracker.CostTracker;
  latency_tracker : latency_tracker.LatencyTracker;
  audio_tool : AudioPlaybackTool;
  _current_input_tokens : Z;
  _current_output_tokens : Z;
  _current_audio_duration : float;
  _current_tts_chars : Z
}.

(** [VoiceAgent(session_id, cost_tracker, latency_tracker,
    on_audio_playback)]. *)
Definition new_VoiceAgent (sid : string) (ct : cost_tracker.CostTracker)
    (lt : latency_tracker.LatencyTracker) (on_audio_playback : option callback)
    : VoiceAgent :=
  mkVoiceAgent sid ct lt (mkAudioPlaybackTool on_audio_playback) 0 0 0 0.

Definition set_cost_tracker (ct : cost_tracker.CostTracker) (a : VoiceAgent) :=
  mkVoiceAgent (session_id a) ct (latency_tracker a) (audio_tool a)
    (_current_input_tokens a) (_current_output_tokens a)
    (_current_audio_duration a) (_current_tts_chars a).

Definition set_latency_tracker (lt : latency_tracker.LatencyTracker)
    (a : VoiceAgent) :=
  mkVoiceAgent (session_id a) (cost_tracker a) lt (audio_tool a)
    (_current_input_tokens a) (_current_output_tokens a)
    (_current_audio_duration a) (_current_tts_chars a).

Definition set_current_audio_duration (d : float) (a : VoiceAgent) :=
  mkVoiceAgent (session_id a) (cost_tracker a) (latency_tracker a)
    (audio_tool a) (_current_input_tokens a) (_current_output_tokens a)
    d (_current_tts_chars a).

(** A stage method of [self.latency_tracker]: one clock reading, the
    tracker updated in place, its log written. *)
Definition on_latency
    (method : float -> latency_tracker.LatencyTracker ->
              latency_tracker.LatencyTracker * list log_record)
    : M VoiceAgent unit :=
  let* now := time_time in
  let* a := get in
  let '(lt, records) := method now (latency_tracker a) in
  do put (set_latency_tracker lt a) then
  emit records.

(** [self.latency_tracker.finish_turn()]: two clock readings. *)
Definition latency_finish_turn : M VoiceAgent Py.ref :=
  let* now_end := time_time in
  let* now_start := time_time in
  let* a := get in
  let '(lt, completed, records) :=
    latency_tracker.finish_turn now_end now_start (latency_tracker a) in
  do put (set_latency_tracker lt a) then
  do emit records then
  ret completed.

(** [self.cost_tracker.finish_turn()]. *)
Definition cost_finish_turn : M VoiceAgent Py.ref :=
  let* now := time_time in
  let* a := get in
  let '(ct, completed) := cost_tracker.finish_turn now (cost_tracker a) in
  do put (set_cost_tracker ct a) then
  ret completed.

Definition debug (event : string) : M VoiceAgent unit :=
  let* a := get in
  emit [LogRecord "debug" event [("session_id"%string, VStr (session_id a))]].

Section handlers.
Variable str_split : string -> list string.

Definition on_user_started_speaking : M VoiceAgent unit :=
  do debug "user_started_speaking" then
  do on_latency latency_tracker.start_stt then
  let* a := get in
  put (set_current_audio_duration 0 a).

Definition on_user_stopped_speaking : M VoiceAgent unit :=
  debug "user_stopped_speaking".

(** [text[:100] if text else ""] is [text[:100]] for every string. *)
Definition on_user_speech_committed (text : string) : M VoiceAgent unit :=
  let* a := get in
  do emit [LogRecord "info" "user_speech_committed"
             [("session_id", VStr (session_id a));
              ("text", VStr (String.substring 0 100 text))]%string] then
  do on_latency latency_tracker.end_stt then
  let word_count :=
    match text with
    | EmptyString => 0%Z
    | _ => Z.of_nat (length (str_split text))
    end in
  let duration := (int_truediv word_count 150 * 60)%float in
  let* a := get in
  do put (set_current_audio_duration duration a) then
  let* a := get in
  put (set_cost_tracker
         (cost_tracker.add_stt_cost (_current_audio_duration a)
            (cost_tracker a)) a).

Definition on_agent_started_speaking : M VoiceAgent unit :=
  do debug "agent_started_speaking" then
  on_latency latency_tracker.tts_first_audio.

Definition on_agent_stopped_speaking : M VoiceAgent unit :=
  do debug "agent_stopped_speaking" then
  do on_latency latency_tracker.end_tts then
  do latency_finish_turn then
  do cost_finish_turn then
  ret tt.

(** [arguments.get(key, "")]; [play_audio] declares both of its parameters
    as [str], and the arguments are taken to be strings. *)
Definition get_argument (arguments : dict string) (key : string) : string :=
  default ""%string (dict_get arguments key).

(** [handle_function_call]; [during] is what the event loop runs on the
    agent while the call is suspended in the playback callback (the session's
    handlers above, other function calls). *)
Definition handle_function_call (function_name : string)
    (arguments : dict string) (during : interference VoiceAgent)
    : M VoiceAgent string :=
  do on_latency latency_tracker.start_tool then
  try_finally
    (try_except
       (if String.eqb function_name "play_audio" then
          let* a := get in
          play_audio_during during (audio_tool a)
            (get_argument arguments "audio_url")
            (get_argument arguments "description")
        else
          do emit [LogRecord "warning" "unknown_function_call"
                     [("function_name"%string, VStr function_name)]] then
          ret ("Unknown function: " +:+ function_name))
       (fun str_e =>
          do emit [LogRecord "error" "function_call_error"
                     [("function_name", VStr function_name);
                      ("error", VStr str_e);
                      ("exc_info", VBool true)]%string] then
          ret ("Error executing " +:+ function_name +:+ ": " +:+ str_e)))
    (on_latency latency_tracker.end_tool).

(** What the LiveKit session and the LLM ask of the agent.  The handlers
    are synchronous and run one at a time; a function call runs as one too,
    except for what runs [during] its await. *)
Inductive event :=
| UserStartedSpeaking
| UserStoppedSpeaking
| UserSpeechCommitted (text : string)
| AgentStartedSpeaking
| AgentStoppedSpeaking
| FunctionCall (function_name : string) (arguments : dict string)
    (during : interference VoiceAgent).

Definition handle (e : event) : M VoiceAgent unit :=
  match e with
  | UserStartedSpeaking => on_user_started_speaking
  | UserStoppedSpeaking => on_user_stopped_speaking
  | UserSpeechCommitted text => on_user_speech_committed text
  | AgentStartedSpeaking => on_agent_started_speaking
  | AgentStoppedSpeaking => on_agent_stopped_speaking
  | FunctionCall name arguments during =>
      do handle_function_call name arguments during then ret tt
  end.

(** The events handled in turn; an event whose handler raises leaves the
    state it reached, and the next event is handled from there. *)
Definition handle_all (events : list event) (a : VoiceAgent) (w : world)
    : VoiceAgent * world :=
  fold_left (fun aw e => let '(_, a', w') := handle e (fst aw) (snd aw) in
                         (a', w'))
    events (a, w).

(** [run_agent] builds the agent on two new trackers of the room's name and
    no playback callback (two clock readings for the first open turns). *)
Definition run_agent_setup (room_name : string) (w : world)
    : VoiceAgent * world :=
  let ct := cost_tracker.init room_name (clock w (ticks w)) in
  let lt := latency_tracker.init room_name (clock w (S (ticks w))) in
  (new_VoiceAgent room_name ct lt None,
   mkWorld (clock w) (S (S (ticks w))) (net w) (awaited w) (sent w)
     (log w ++ [LogRecord "info" "agent_job_started"
                  [("room_name"%string, VStr room_name)]])).

Definition is_agent_stopped_speaking (e : event) : bool :=
  match e with
  | AgentStoppedSpeaking => true
  | _ => false
  end.

End handlers.

End agent.

(** ** [app/main.py]

    The metrics endpoints and the text pipeline of a websocket session.
    [str.lower], [str.strip] and [str.split] depend on Unicode tables and
    are taken as given.  A [string] stands for a [str] character by
    character, so that [String.length] is [len].  The state of a websocket
    session (the trackers of its [Session], its [conversation_history]) is
    written by the session's own handler only, so nothing else runs on it
    during an await. *)

Module main.
Import Py aio tools.

(** [needle in haystack] on strings. *)
Definition contains (needle haystack : string) : bool :=
  match String.index 0 needle haystack with
  | Some _ => true
  | None => false
  end.

(** [GET /metrics]. *)
Definition get_metrics (m : session_manager.SessionManager) : value :=
  session_manager.get_aggregate_metrics m.

(** [raise HTTPException(status_code, detail)]. *)
Record HTTPException := mkHTTPException {
  status_code : Z;
  detail : string
}.

(** [GET /metrics/{session_id}]; [if not details] asks for the truthiness
    of [None] or of a dict. *)
Definition get_session_metrics (isoformat : session_manager.datetime -> string)
    (sid : string) (m : session_manager.SessionManager)
    : value + HTTPException :=
  let details := session_manager.get_session_details isoformat sid m in
  if negb (from_option truthy false details) then
    inr (mkHTTPException 404 "Session not found")
  else
    match details with
    | Some details => inl details
    | None => inl VNone
    end.

(** The state a websocket session works on: its [Session] object and the
    [conversation_history] list of [handle_voice_session]. *)
Record connection := mkConnection {
  session : session_manager.Session;
  conversation_history : list value
}.

Definition set_cost_tracker (ct : cost_tracker.CostTracker) (c : connection)
    : connection :=
  mkConnection
    (session_manager.mkSession
       (session_manager.session_id (session c))
       (session_manager.created_at (session c))
       ct
       (session_manager.latency_tracker (session c))
       (session_manager.is_active (session c))
       (session_manager.metadata (session c)))
    (conversation_history c).

Definition set_latency_tracker (lt : latency_tracker.LatencyTracker)
    (c : connection) : connection :=
  mkConnection
    (session_manager.mkSession
       (session_manager.session_id (session c))
       (session_manager.created_at (session c))
       (session_manager.cost_tracker (session c))
       lt
       (session_manager.is_active (session c))
       (session_manager.metadata (session c)))
    (conversation_history c).

Definition cost (c : connection) : cost_tracker.CostTracker :=
  session_manager.cost_tracker (session c).

Definition latency (c : connection) : latency_tracker.LatencyTracker :=
  session_manager.latency_tracker (session c).

(** [conversation_history.append(entry)]. *)
Definition history_append (entry : value) : M connection unit :=
  let* c := get in
  put (mkConnection (session c) (conversation_history c ++ [entry])).

(** A stage method of [latency_tracker]. *)
Definition on_latency
    (method : float -> latency_tracker.LatencyTracker ->
              latency_tracker.LatencyTracker * list log_record)
    : M connection unit :=
  let* now := time_time in
  let* c := get in
  let '(lt, records) := method now (latency c) in
  do put (set_latency_tracker lt c) then
  emit records.

(** A method of [cost_tracker] that adds cost. *)
Definition on_cost
    (method : cost_tracker.CostTracker -> cost_tracker.CostTracker)
    : M connection unit :=
  let* c := get in
  put (set_cost_tracker (method (cost c)) c).

(** [latency_tracker.finish_turn()], returning the completed turn. *)
Definition latency_finish_turn : M connection latency_tracker.TurnLatency :=
  let* now_end := time_time in
  let* now_start := time_time in
  let* c := get in
  let '(lt, completed, records) :=
    latency_tracker.finish_turn now_end now_start (latency c) in
  do put (set_latency_tracker lt c) then
  do emit records then
  ret (latency_tracker.heap lt completed).

(** [cost_tracker.finish_turn()], returning the completed turn. *)
Definition cost_finish_turn : M connection cost_tracker.TurnCost :=
  let* now := time_time in
  let* c := get in
  let '(ct, completed) := cost_tracker.finish_turn now (cost c) in
  do put (set_cost_tracker ct c) then
  ret (cost_tracker.heap ct completed).

(** [play_audio_callback] of [handle_voice_session]: the send is tried and
    an [Exception] it raises is logged and answered with [False]. *)
Definition play_audio_callback : callback :=
  fun audio_url w =>
    match send_json_world
            (VDict [("type", VStr "play_audio");
                    ("url", VStr audio_url)]%string) w with
    | (Ok _, w') => (Ok true, w')
    | (Raise (Exception str_e), w') =>
        (Ok false,
         mkWorld (clock w') (ticks w') (net w') (awaited w') (sent w')
           (log w' ++ [LogRecord "error" "play_audio_send_failed"
                         [("error"%string, VStr str_e)]]))
    | (Raise CancelledError, w') => (Raise CancelledError, w')
    end.

Definition audio_tool : AudioPlaybackTool :=
  mkAudioPlaybackTool (Some play_audio_callback).

Section text_pipeline.
Variable str_lower : string -> string.
Variable str_strip : string -> string.
Variable str_split : string -> list string.

Definition simulate_llm_response (text : string) (history : list value)
    : string :=
  let text_lower := str_lower text in
  if contains "hello" text_lower || contains "hi" text_lower then
    "Hello! I'm your voice AI assistant. How can I help you today?"
  else if contains "how are you" text_lower then
    "I'm doing great, thank you for asking! I'm here and ready to help."
  else if contains "weather" text_lower then
    "I don't have access to real-time weather data, but I'd recommend checking a weather service for the most accurate forecast."
  else if contains "help" text_lower then
    "I can help with various tasks! You can ask me questions, have a conversation, or ask me to play audio by saying 'play sound'."
  else if contains "bye" text_lower || contains "goodbye" text_lower then
    "Goodbye! It was nice talking with you. Have a great day!"
  else
    "I heard you say: '" +:+ text
    +:+ "'. I'm a demo voice assistant. In production, I would use Groq's LLM for intelligent responses.".

(** [len(s.split())]. *)
Definition word_count (s : string) : Z := Z.of_nat (length (str_split s)).

(** Whether the text asks for a sound. *)
Definition asks_for_sound (text : string) : bool :=
  contains "play_audio" (str_lower text)
  || contains "play sound" (str_lower text).

Definition process_text_input (text : string) : M connection unit :=
  match str_strip text with
  | EmptyString => ret tt
  | _ =>
      do on_latency latency_tracker.start_stt then
      do on_latency latency_tracker.stt_first_result then
      do on_latency latency_tracker.end_stt then
      let audio_duration := (int_truediv (word_count text) 150 * 60)%float in
      do on_cost (cost_tracker.add_stt_cost audio_duration) then
      do send_json (VDict [("type", VStr "transcript");
                           ("text", VStr text);
                           ("is_final", VBool true)]%string) then
      do on_latency latency_tracker.start_llm then
      do history_append (VDict [("role", VStr "user");
                                ("content", VStr text)]%string) then
      let* c := get in
      let response := simulate_llm_response text (conversation_history c) in
      do on_latency latency_tracker.llm_first_token then
      let* response :=
        if asks_for_sound text then
          do on_latency latency_tracker.start_tool then
          do play_audio audio_tool
               (default ""%string (dict_get SAMPLE_AUDIO_URLS "notification"))
               "notification sound" then
          do on_latency latency_tracker.end_tool then
          ret "I've played a notification sound for you!"%string
        else ret response in
      do on_latency latency_tracker.end_llm then
      let input_tokens := (word_count text * 2)%Z in
      let output_tokens := (word_count response * 2)%Z in
      do on_cost (cost_tracker.add_llm_cost input_tokens output_tokens) then
      do history_append (VDict [("role", VStr "assistant");
                                ("content", VStr response)]%string) then
      do on_latency latency_tracker.start_tts then
      do send_json (VDict [("type", VStr "response");
                           ("text", VStr response)]%string) then
      do on_latency latency_tracker.tts_first_audio then
      do on_cost (cost_tracker.add_tts_cost
                    (Z.of_nat (String.length response))) then
      do sleep then
      do on_latency latency_tracker.end_tts then
      let* turn_latency := latency_finish_turn in
      let* turn_cost := cost_finish_turn in
      send_json
        (VDict [("type", VStr "turn_complete");
                ("latency", latency_tracker.TurnLatency_to_dict turn_latency);
                ("cost", cost_tracker.to_dict turn_cost)]%string)
  end.

(** The text inputs of a session processed in turn, up to the first one
    that raises (the exception ends [handle_voice_session]). *)
Fixpoint process_text_inputs (texts : list string) : M connection unit :=
  match texts with
  | [] => ret tt
  | text :: rest =>
      do process_text_input text then process_text_inputs rest
  end.

(** [not text.strip()]. *)
Definition is_blank (text : string) : bool :=
  match str_strip text with
  | EmptyString => true
  | _ => false
  end.

End text_pipeline.

(** The two trackers of [c'] are those of [c] after some calls of their
    methods, [kc] and [kl] of them [finish_turn()], and the rest of the
    [Session] object is as it was. *)
Definition tracked (c c' : connection) (kc kl : nat) : Prop :=
  exists ccs lcs,
    cost c' = cost_calls.run ccs (cost c) /\
    latency c' = latency_calls.run lcs (latency c) /\
    cost_calls.count_finish ccs = kc /\
    latency_calls.count_finish lcs = kl /\
    session_manager.session_id (session c')
      = session_manager.session_id (session c) /\
    session_manager.is_active (session c')
      = session_manager.is_active (session c).

(** The [turn_complete] message as the trackers of [c] show it afterwards:
    what [get_last_turn()] of each one answers. *)
Definition turn_complete_of (c : connection) : value :=
  VDict [("type", VStr "turn_complete");
         ("latency", latency_tracker.get_last_turn (latency c));
         ("cost", cost_tracker.get_last_turn (cost c))]%string.

(** An entry of [conversation_history]. *)
Definition history_entry (role content : string) : value :=
  VDict [("role", VStr role); ("content", VStr content)]%string.

Definition is_turn_complete (message : value) : bool :=
  match getitem message "type" with
  | Some (VStr t) => String.eqb t "turn_complete"
  | _ => false
  end.

(** The [turn_id] under a key of a message. *)
Definition turn_id_under (key : string) (message : value) : option value :=
  getitem message key ≫= fun d => getitem d "turn_id".

(** [m], started in a state and world that satisfy [P], ends (returning or
    raising) in a state and world that satisfy [Q]. *)
Definition triple {A} (P : connection -> world -> Prop) (m : M connection A)
    (Q : result A -> connection -> world -> Prop) : Prop :=
  forall c w, P c w -> let '(r, c', w') := m c w in Q r c' w'.

(** The postcondition that asks [returned] of a result and [raised] of an
    exception. *)
Definition post {A} (returned : A -> connection -> world -> Prop)
    (raised : connection -> world -> Prop) (r : result A)
    : connection -> world -> Prop :=
  match r with
  | Ok a => returned a
  | Raise _ => raised
  end.

(** Where a run that started in [c0] and [w0] stands: what was called on the
    trackers, the conversation history, and the messages sent since, none of
    them a [turn_complete]. *)
Definition progress (c0 : connection) (w0 : world) (kc kl : nat)
    (h : list value) (c : connection) (w : world) : Prop :=
  tracked c0 c kc kl /\
  conversation_history c = h /\
  exists messages,
    sent w = sent w0 ++ messages /\
    Forall (fun m => is_turn_complete m = false) messages.

(** The [turn_id]s [n0], [n0 + 1], ... of [m] messages in a row. *)
Definition turn_ids (n0 m : nat) : list (option value) :=
  (fun i => Some (VInt (Z.of_nat i))) <$> seq n0 m.

(** The state of a websocket session that starts on a [Session] the
    registry has just constructed. *)
Definition new_connection (sid : string) (utcnow : session_manager.datetime)
    (t_cost t_latency : float) : connection :=
  mkConnection
    (session_manager.new_Session sid [] utcnow t_cost t_latency) [].

End main.

(** The two trackers of a session have finalized the same [n] turns, with
    the same numbers. *)
Definition paired (n : nat) (ct : cost_tracker.CostTracker)
    (lt : latency_tracker.LatencyTracker) : Prop :=
  cost_calls.refs_ok ct /\ cost_calls.numbered n ct /\
  latency_calls.refs_ok lt /\ latency_calls.numbered n lt.

(** The average the specification describes for [average_cost_per_turn]:
    the cost of the finalized turns only, over their number. *)
Definition history_only_average (ct : cost_tracker.CostTracker) : float :=
  match cost_tracker.turns ct with
  | [] => 0%float
  | _ =>
      (Py.sum (cost_tracker.total <$> cost_tracker.history ct)
       / Py.float_len (cost_tracker.turns ct))%float
  end.

(** * Properties *)

(** ** Floats *)

(** Two doubles with different IEEE decompositions are different. *)
Lemma float_neq (x y : float) : Prim2SF x <> Prim2SF y -> x <> y.
Proof. intros Hne Heq. apply Hne. now rewrite Heq. Qed.

(** ** Stage timing *)

Section stage_timing.
Import Py latency_tracker.

(** An unset prerequisite gives no value. *)
Lemma time_to_first_result_unset s :
  start_time s = None \/ first_result_time s = None ->
  time_to_first_result s = None.
Proof.
  unfold time_to_first_result.
  intros [-> | ->]; [reflexivity | now destruct (start_time s)].
Qed.

Lemma total_duration_unset s :
  start_time s = None \/ end_time s = None -> total_duration s = None.
Proof.
  unfold total_duration.
  intros [-> | ->]; [reflexivity | now destruct (start_time s)].
Qed.

(** Two truthy timestamps give their difference in milliseconds. *)
Lemma time_to_first_result_truthy s t0 t1 :
  start_time s = Some t0 -> first_result_time s = Some t1 ->
  float_truthy t0 = true -> float_truthy t1 = true ->
  time_to_first_result s = Some ((t1 - t0) * 1000)%float.
Proof.
  unfold time_to_first_result. now intros -> -> -> ->.
Qed.

Lemma total_duration_truthy s t0 t1 :
  start_time s = Some t0 -> end_time s = Some t1 ->
  float_truthy t0 = true -> float_truthy t1 = true ->
  total_duration s = Some ((t1 - t0) * 1000)%float.
Proof.
  unfold total_duration. now intros -> -> -> ->.
Qed.

(** C4, at the input the code gets wrong.  A [StageLatency] whose three
    timestamps are all set, with [start_time = 0.0],
    [first_result_time = 0.15] and [end_time = 0.5], should report 150 ms
    and 500 ms.  Both properties return [None]: the guard
    [if self.start_time and ...] reads the set timestamp [0.0] as unset.
    With the same offsets from a non-zero start, the values are the
    differences in milliseconds. *)
Theorem C4_zero_start_time_reads_as_unset :
  let s := mkStageLatency "stt" (Some 0%float) (Some 0.15%float)
             (Some 0.5%float) in
  time_to_first_result s = None /\ total_duration s = None /\
  let s' := mkStageLatency "stt" (Some 1024%float) (Some 1024.15%float)
              (Some 1024.5%float) in
  time_to_first_result s' = Some ((1024.15 - 1024) * 1000)%float /\
  total_duration s' = Some 500%float.
Proof. vm_compute. repeat split. Qed.

End stage_timing.

(** ** End-to-end latency *)

Section end_to_end.
Import Py latency_tracker latency_calls.

(** With both timestamps truthy, the latency is their difference in
    milliseconds. *)
Lemma end_to_end_latency_truthy t t0 t1 :
  start_time (stt t) = Some t0 -> first_result_time (tts t) = Some t1 ->
  float_truthy t0 = true -> float_truthy t1 = true ->
  end_to_end_latency t = Some ((t1 - t0) * 1000)%float.
Proof.
  unfold end_to_end_latency. now intros -> -> -> ->.
Qed.

(** When the latency of the open turn is defined and non-zero,
    [tts_first_audio] reports it with [target_met = (e2e <= 2000)]. *)
Lemma tts_first_audio_target_met now lt e2e :
  let '(lt', log) := tts_first_audio now lt in
  end_to_end_latency (current lt') = Some e2e ->
  float_truthy e2e = true ->
  field "target_met" <$> records_of "end_to_end_latency" log
  = [Some (VBool (e2e <=? 2000)%float)].
Proof.
  unfold tts_first_audio. cbv zeta.
  set (lt' := update_current _ lt).
  intros -> ->. unfold _log_stage.
  destruct (time_to_first_result _); reflexivity.
Qed.

(** C5, at the input the code gets wrong.  On a fresh tracker, [start_stt()]
    at clock reading [0.0] followed by [tts_first_audio()] at [1.8] leaves an
    open turn with [stt.start_time] and [tts.first_result_time] both set,
    1800 ms apart.  [end_to_end_latency] is [None] and no
    [end_to_end_latency] record (the one carrying [target_met]) is logged.
    The same calls 1000 s later give the difference in milliseconds and
    [target_met = True]; with 2.1 s between them, [target_met = False]. *)
Theorem C5_zero_stt_start_hides_latency :
  let lt1 := fst (start_stt 0 (init "s1" 0)) in
  let '(lt2, log) := tts_first_audio 1.8 lt1 in
  start_time (stt (current lt2)) = Some 0%float /\
  first_result_time (tts (current lt2)) = Some 1.8%float /\
  end_to_end_latency (current lt2) = None /\
  records_of "end_to_end_latency" log = [] /\
  let lt1' := fst (start_stt 1000 (init "s1" 0)) in
  let '(lt2', log') := tts_first_audio 1001.8 lt1' in
  end_to_end_latency (current lt2') = Some ((1001.8 - 1000) * 1000)%float /\
  field "target_met" <$> records_of "end_to_end_latency" log'
    = [Some (VBool true)] /\
  let '(lt2'', log'') := tts_first_audio 1002.1 lt1' in
  end_to_end_latency (current lt2'') = Some ((1002.1 - 1000) * 1000)%float /\
  field "target_met" <$> records_of "end_to_end_latency" log''
    = [Some (VBool false)].
Proof. vm_compute. repeat split. Qed.

(** C6, at the input the code gets wrong.  Two finished turns: in the first
    [start_stt()] and [tts_first_audio()] read the same clock value, so its
    [end_to_end_latency] is defined and equals [0.0]; in the second it is
    1000 ms.  The mean over the entries with a defined value is 500 ms;
    [average_end_to_end_latency] answers 1000 ms, because
    [if t.end_to_end_latency] drops the [0.0] entry.  With the first turn
    alone the property answers [None] although one entry has a defined
    value. *)
Theorem C6_zero_latency_entry_is_skipped :
  let one_turn := [StartStt 5; TtsFirstAudio 5; FinishTurn 6 6] in
  let lt1 := run one_turn (init "s1" 0) in
  let lt2 := run [StartStt 10; TtsFirstAudio 11; FinishTurn 12 12] lt1 in
  end_to_end_latency <$> history lt2 = [Some 0%float; Some 1000%float] /\
  mean_of_defined_latencies lt2 = Some 500%float /\
  average_end_to_end_latency lt2 = Some 1000%float /\
  mean_of_defined_latencies lt1 = Some 0%float /\
  average_end_to_end_latency lt1 = None.
Proof. vm_compute. repeat split. Qed.

End end_to_end.

(** ** Cost accumulation *)

Section cost_accumulation.
Import Py cost_tracker cost_calls.

(** C7.  On a fresh tracker, in binary64 arithmetic:
    [add_stt_cost(30)] makes [stt_cost] the double [0.001];
    [add_llm_cost(100, 50)] makes [llm_cost] equal to 0.0000985 within
    floating-point tolerance (within [1e-19]);
    [add_tts_cost(200)] makes [tts_cost] the double [0.048];
    the turn returned by [finish_turn()] has [total] equal to the double
    [0.0490985], hence within any tolerance of it; the history then has
    length 1 and the open turn has id 1. *)
Theorem C7_cost_scenario (sid : string) (t0 t1 : float) :
  let ct1 := add_stt_cost 30 (init sid t0) in
  let ct2 := add_llm_cost 100 50 ct1 in
  let ct3 := add_tts_cost 200 ct2 in
  let '(ct4, returned) := finish_turn t1 ct3 in
  stt_cost (current ct1) = 0.001%float /\
  (abs (llm_cost (current ct2) - 0.0000985) <=? 1e-19)%float = true /\
  tts_cost (current ct3) = 0.048%float /\
  total (heap ct4 returned) = 0.0490985%float /\
  (abs (total (heap ct4 returned) - 0.0490985) <=? 1e-19)%float = true /\
  length (turns ct4) = 1 /\
  turns ct4 = [returned] /\
  turn_id (current ct4) = 1%Z.
Proof. vm_compute. repeat split. Qed.

(** The tolerance is needed in one place: after [add_llm_cost(100, 50)] the
    double held by [llm_cost] is [9.850000000000001e-05], one unit in the
    last place above the double [0.0000985]. *)
Remark llm_cost_is_rounded :
  llm_cost (current (add_llm_cost 100 50 (add_stt_cost 30 (init "s1" 0))))
  <> 0.0000985%float.
Proof. apply float_neq. vm_compute. discriminate. Qed.

(** C1 as stated fails: one finished (empty) turn, then 1000 characters of
    TTS on the open turn.  The finalized turns cost nothing, yet
    [average_cost_per_turn] is 0.24. *)
Lemma C1_open_turn_cost_is_averaged :
  let ct := add_tts_cost 1000 (fst (finish_turn 0 (init "s1" 0))) in
  history_only_average ct = 0%float /\
  average_cost_per_turn ct = 0.24%float /\
  average_cost_per_turn ct <> history_only_average ct.
Proof.
  vm_compute. repeat split. apply float_neq. vm_compute. discriminate.
Qed.

(** C1 as amended.  [average_cost_per_turn] is zero when the history is
    empty; otherwise it is [total_cost] divided by the number of history
    entries, where [total_cost] adds, per cost category, the sum over the
    finalized turns and the amount accumulated on the still-open turn. *)
Theorem C1_average_cost_per_turn (ct : CostTracker) :
  average_cost_per_turn ct =
    if decide (turns ct = []) then 0%float
    else (((sum (stt_cost <$> history ct) + stt_cost (current ct))
           + (sum (llm_cost <$> history ct) + llm_cost (current ct))
           + (sum (tts_cost <$> history ct) + tts_cost (current ct)))
          / float_of_Z (Z.of_nat (length (history ct))))%float.
Proof.
  unfold average_cost_per_turn, total_cost, total_stt_cost, total_llm_cost,
    total_tts_cost, float_len, history.
  rewrite length_fmap.
  destruct (turns ct); [reflexivity|].
  now destruct (decide _).
Qed.

End cost_accumulation.

(** ** Aggregate metrics *)

Section aggregate_metrics.
Import Py session_manager manager_calls.

(** C2, on the empty registry.  [get_aggregate_metrics()] takes the early
    return and answers a flat dict: [active_sessions] is [0] and
    [average_latency_ms] is [None], but [aggregate_cost] is the bare float
    [0.0] (it has no [total] field), and the keys [total_turns] and
    [target_latency_ms] are missing.  The code after the guard, run on the
    same registry, yields the documented schema with
    [aggregate_cost.total = 0.0]. *)
Theorem C2_empty_registry_metrics :
  let res := get_aggregate_metrics init in
  res = VDict [("active_sessions", VInt 0);
               ("total_sessions_created", VInt 0);
               ("aggregate_cost", VFloat 0);
               ("average_latency_ms", VNone)]%string /\
  getitem res "active_sessions" = Some (VInt 0) /\
  getitem res "average_latency_ms" = Some VNone /\
  getitem res "aggregate_cost" = Some (VFloat 0) /\
  (getitem res "aggregate_cost" ≫= fun c => getitem c "total") = None /\
  has_key res "total_turns" = false /\
  has_key res "target_latency_ms" = false /\
  aggregate_over_sessions init =
    VDict [("active_sessions", VInt 0);
           ("total_sessions_created", VInt 0);
           ("total_turns", VInt 0);
           ("aggregate_cost",
             VDict [("total", VFloat 0);
                    ("breakdown",
                      VDict [("stt", VFloat 0); ("llm", VFloat 0);
                             ("tts", VFloat 0)])]);
           ("average_latency_ms", VNone);
           ("target_latency_ms", VInt 2000)]%string.
Proof. vm_compute. repeat split. Qed.

(** The early return is taken by every registry without sessions, whatever
    its creation counter. *)
Lemma get_aggregate_metrics_no_sessions m :
  _sessions m = [] ->
  get_aggregate_metrics m =
    VDict [("active_sessions", VInt 0);
           ("total_sessions_created", VInt (_total_sessions_created m));
           ("aggregate_cost", VFloat 0);
           ("average_latency_ms", VNone)]%string.
Proof. unfold get_aggregate_metrics. now intros ->. Qed.

End aggregate_metrics.

(** ** Turn numbering and finalized turns: the cost tracker *)

Section cost_turns.
Import Py cost_tracker cost_calls.

Lemma current_update_current f ct :
  current (update_current f ct) = f (current ct).
Proof. unfold current, update_current; simpl. apply fn_lookup_insert. Qed.

Lemma heap_update_current_ne f ct r :
  r <> _current_turn ct -> heap (update_current f ct) r = heap ct r.
Proof. intros Hne. simpl. apply fn_lookup_insert_ne. congruence. Qed.

Lemma history_update_current f ct :
  refs_ok ct -> history (update_current f ct) = history ct.
Proof.
  intros [_ Hold]. unfold history. simpl.
  apply Forall_fmap_ext. eapply Forall_impl; [|exact Hold].
  intros r Hr. simpl in Hr. apply fn_lookup_insert_ne. lia.
Qed.

Lemma refs_ok_update_current f ct :
  refs_ok ct -> refs_ok (update_current f ct).
Proof. intros H. exact H. Qed.

Lemma numbered_update_current n f ct :
  (forall t, turn_id (f t) = turn_id t) ->
  refs_ok ct -> numbered n ct -> numbered n (update_current f ct).
Proof.
  intros Hf Hrefs (Hhist & Hcur & Hcnt). unfold numbered.
  rewrite history_update_current, current_update_current, Hf by done.
  done.
Qed.

Lemma refs_ok_init sid now : refs_ok (init sid now).
Proof. split; simpl; [lia | constructor]. Qed.

Lemma numbered_init sid now : numbered 0 (init sid now).
Proof. done. Qed.

Lemma refs_ok_finish_turn now ct :
  refs_ok ct -> refs_ok (fst (finish_turn now ct)).
Proof.
  intros [Hcur Hold]. split; simpl; [lia|].
  apply Forall_app. split.
  - eapply Forall_impl; [|exact Hold]. simpl. lia.
  - repeat constructor. lia.
Qed.

Lemma history_finish_turn now ct :
  refs_ok ct ->
  history (fst (finish_turn now ct)) = history ct ++ [current ct].
Proof.
  intros [Hcur Hold]. unfold history, current. simpl.
  rewrite fmap_app. simpl. f_equal.
  - apply Forall_fmap_ext. eapply Forall_impl; [|exact Hold].
    intros r Hr. simpl in Hr. apply fn_lookup_insert_ne. lia.
  - f_equal. apply fn_lookup_insert_ne. lia.
Qed.

Lemma numbered_finish_turn n now ct :
  refs_ok ct -> numbered n ct -> numbered (S n) (fst (finish_turn now ct)).
Proof.
  intros Hrefs (Hhist & Hcur & Hcnt). unfold numbered.
  rewrite history_finish_turn by done.
  rewrite fmap_app, Hhist, seq_S, fmap_app. simpl.
  rewrite Hcur. split; [done|].
  unfold current. simpl. rewrite fn_lookup_insert. simpl.
  rewrite Hcnt. split; lia.
Qed.

Lemma refs_ok_step ct c : refs_ok ct -> refs_ok (step ct c).
Proof.
  intros H. destruct c; simpl; try exact H. now apply refs_ok_finish_turn.
Qed.

Lemma refs_ok_run cs ct : refs_ok ct -> refs_ok (run cs ct).
Proof.
  revert ct. induction cs as [|c cs IH]; intros ct H; [done|].
  apply IH, refs_ok_step, H.
Qed.

(** A call adds one numbered turn when it is [finish_turn()], none
    otherwise. *)
Lemma numbered_step n ct c :
  refs_ok ct -> numbered n ct ->
  numbered (n + (if is_finish c then 1 else 0)) (step ct c).
Proof.
  intros Hrefs Hn. destruct c; simpl; rewrite ?Nat.add_0_r, ?Nat.add_1_r.
  - now apply numbered_update_current.
  - unfold add_llm_cost.
    apply numbered_update_current; [done | done |].
    now apply numbered_update_current.
  - now apply numbered_update_current.
  - now apply numbered_finish_turn.
Qed.

Lemma numbered_run cs n ct :
  refs_ok ct -> numbered n ct -> numbered (n + count_finish cs) (run cs ct).
Proof.
  unfold count_finish.
  revert n ct. induction cs as [|c cs IH]; intros n ct Hrefs Hn; simpl.
  - now rewrite Nat.add_0_r.
  - pose proof (numbered_step n ct c Hrefs Hn) as Hstep.
    apply refs_ok_step with (c := c) in Hrefs.
    specialize (IH _ _ Hrefs Hstep).
    destruct (is_finish c); simpl;
      [rewrite <- Nat.add_assoc in IH | rewrite Nat.add_0_r in IH]; exact IH.
Qed.

Lemma count_finish_finish_turns (ts : list float) :
  count_finish (FinishTurn <$> ts) = length ts.
Proof.
  unfold count_finish. induction ts as [|t ts IH]; simpl; [done|].
  f_equal. exact IH.
Qed.

(** [finish_turn()] called once per reading of [ts] on a tracker with [n]
    numbered turns leaves [n + length ts] numbered turns. *)
Lemma numbered_finish_turns ts n ct :
  refs_ok ct -> numbered n ct -> numbered (n + length ts) (finish_turns ts ct).
Proof.
  intros Hrefs Hn. rewrite <- count_finish_finish_turns.
  now apply numbered_run.
Qed.

Lemma length_turns_finish_turns ts ct :
  length (turns (finish_turns ts ct)) = length (turns ct) + length ts.
Proof.
  unfold finish_turns.
  revert ct. induction ts as [|t ts IH]; intros ct; simpl; [lia|].
  rewrite IH. simpl. rewrite length_app. simpl. lia.
Qed.

(** Later calls write at the open turn or allocate above it: every older
    object keeps its value. *)
Lemma heap_step_older ct c r :
  refs_ok ct -> r < _current_turn ct -> heap (step ct c) r = heap ct r.
Proof.
  intros [Hcur _] Hr.
  destruct c; simpl; rewrite ?fn_lookup_insert_ne by lia; done.
Qed.

Lemma current_turn_step_mono ct c :
  refs_ok ct -> _current_turn ct <= _current_turn (step ct c).
Proof. intros [Hcur _]. destruct c; simpl; lia. Qed.

Lemma heap_run_older cs ct r :
  refs_ok ct -> r < _current_turn ct -> heap (run cs ct) r = heap ct r.
Proof.
  revert ct. induction cs as [|c cs IH]; intros ct Hrefs Hr; [done|].
  simpl. unfold run in IH. rewrite IH.
  - now apply heap_step_older.
  - now apply refs_ok_step.
  - pose proof (current_turn_step_mono ct c Hrefs). lia.
Qed.

End cost_turns.

(** ** Turn numbering and finalized turns: the latency tracker *)

Section latency_turns.
Import Py latency_tracker latency_calls.

Lemma lat_current_update_current f lt :
  current (update_current f lt) = f (current lt).
Proof. unfold current, update_current; simpl. apply fn_lookup_insert. Qed.

Lemma lat_history_update_current f lt :
  refs_ok lt -> history (update_current f lt) = history lt.
Proof.
  intros [_ Hold]. unfold history. simpl.
  apply Forall_fmap_ext. eapply Forall_impl; [|exact Hold].
  intros r Hr. simpl in Hr. apply fn_lookup_insert_ne. lia.
Qed.

Lemma lat_numbered_update_current n f lt :
  (forall t, turn_id (f t) = turn_id t) ->
  refs_ok lt -> numbered n lt -> numbered n (update_current f lt).
Proof.
  intros Hf Hrefs (Hhist & Hcur & Hcnt). unfold numbered.
  rewrite lat_history_update_current, lat_current_update_current, Hf by done.
  done.
Qed.

Lemma lat_refs_ok_init sid now : refs_ok (init sid now).
Proof. split; simpl; [lia | constructor]. Qed.

Lemma lat_numbered_init sid now : numbered 0 (init sid now).
Proof. done. Qed.

Lemma lat_refs_ok_finish_turn now_end now_start lt :
  refs_ok lt -> refs_ok (fst (fst (finish_turn now_end now_start lt))).
Proof.
  intros [Hcur Hold]. split; simpl; [lia|].
  apply Forall_app. split.
  - eapply Forall_impl; [|exact Hold]. simpl. lia.
  - repeat constructor. lia.
Qed.

(** The entry appended by [finish_turn] is the open turn with its
    [turn_end_time] set. *)
Lemma lat_history_finish_turn now_end now_start lt :
  refs_ok lt ->
  history (fst (fst (finish_turn now_end now_start lt)))
  = history lt ++ [set_turn_end_time (Some now_end) (current lt)].
Proof.
  intros [Hcur Hold]. unfold history, current. simpl.
  rewrite fmap_app. simpl. f_equal.
  - apply Forall_fmap_ext. eapply Forall_impl; [|exact Hold].
    intros r Hr. simpl in Hr.
    rewrite !fn_lookup_insert_ne by lia. done.
  - f_equal. rewrite fn_lookup_insert_ne by lia. apply fn_lookup_insert.
Qed.

Lemma lat_numbered_finish_turn n now_end now_start lt :
  refs_ok lt -> numbered n lt ->
  numbered (S n) (fst (fst (finish_turn now_end now_start lt))).
Proof.
  intros Hrefs (Hhist & Hcur & Hcnt). unfold numbered.
  rewrite lat_history_finish_turn by done.
  rewrite fmap_app, Hhist, seq_S, fmap_app. simpl.
  rewrite Hcur. split; [done|].
  unfold current. simpl. rewrite fn_lookup_insert. simpl.
  rewrite Hcnt. split; lia.
Qed.

Lemma lat_refs_ok_step lt c : refs_ok lt -> refs_ok (step lt c).
Proof.
  intros H. destruct c; simpl; try exact H.
  now apply lat_refs_ok_finish_turn.
Qed.

Lemma lat_refs_ok_run cs lt : refs_ok lt -> refs_ok (run cs lt).
Proof.
  revert lt. induction cs as [|c cs IH]; intros lt H; [done|].
  apply IH, lat_refs_ok_step, H.
Qed.

Lemma lat_numbered_step n lt c :
  refs_ok lt -> numbered n lt ->
  numbered (n + (if is_finish c then 1 else 0)) (step lt c).
Proof.
  intros Hrefs Hn.
  destruct c; simpl; rewrite ?Nat.add_0_r, ?Nat.add_1_r;
    try (now apply lat_numbered_update_current).
  - apply lat_numbered_update_current; [done | done |].
    now apply lat_numbered_update_current.
  - now apply lat_numbered_finish_turn.
Qed.

Lemma lat_numbered_run cs n lt :
  refs_ok lt -> numbered n lt -> numbered (n + count_finish cs) (run cs lt).
Proof.
  unfold count_finish.
  revert n lt. induction cs as [|c cs IH]; intros n lt Hrefs Hn; simpl.
  - now rewrite Nat.add_0_r.
  - pose proof (lat_numbered_step n lt c Hrefs Hn) as Hstep.
    apply lat_refs_ok_step with (c := c) in Hrefs.
    specialize (IH _ _ Hrefs Hstep).
    destruct (is_finish c); simpl;
      [rewrite <- Nat.add_assoc in IH | rewrite Nat.add_0_r in IH]; exact IH.
Qed.

Lemma lat_count_finish_finish_turns (ts : list (float * float)) :
  count_finish ((fun p => FinishTurn (fst p) (snd p)) <$> ts) = length ts.
Proof.
  unfold count_finish. induction ts as [|t ts IH]; simpl; [done|].
  f_equal. exact IH.
Qed.

Lemma lat_numbered_finish_turns ts n lt :
  refs_ok lt -> numbered n lt -> numbered (n + length ts) (finish_turns ts lt).
Proof.
  intros Hrefs Hn. rewrite <- lat_count_finish_finish_turns.
  now apply lat_numbered_run.
Qed.

Lemma lat_length_turns_finish_turns ts lt :
  length (turns (finish_turns ts lt)) = length (turns lt) + length ts.
Proof.
  unfold finish_turns.
  revert lt. induction ts as [|t ts IH]; intros lt; simpl; [lia|].
  rewrite IH. simpl. rewrite length_app. simpl. lia.
Qed.

Lemma lat_heap_step_older lt c r :
  refs_ok lt -> r < _current_turn lt -> heap (step lt c) r = heap lt r.
Proof.
  intros [Hcur _] Hr.
  destruct c; simpl; rewrite ?fn_lookup_insert_ne by lia; done.
Qed.

Lemma lat_current_turn_step_mono lt c :
  refs_ok lt -> _current_turn lt <= _current_turn (step lt c).
Proof. intros [Hcur _]. destruct c; simpl; lia. Qed.

Lemma lat_heap_run_older cs lt r :
  refs_ok lt -> r < _current_turn lt -> heap (run cs lt) r = heap lt r.
Proof.
  revert lt. induction cs as [|c cs IH]; intros lt Hrefs Hr; [done|].
  simpl. unfold run in IH. rewrite IH.
  - now apply lat_heap_step_older.
  - now apply lat_refs_ok_step.
  - pose proof (lat_current_turn_step_mono lt c Hrefs). lia.
Qed.

End latency_turns.

(** ** [finish_turn] on both accumulators *)

(** Three turns on each tracker, with cost and timing calls in between. *)
Example cost_three_turns :
  let ct :=
    cost_calls.run
      [cost_calls.AddStt 30; cost_calls.FinishTurn 1;
       cost_calls.AddLlm 100 50; cost_calls.FinishTurn 2;
       cost_calls.FinishTurn 3; cost_calls.AddTts 200]
      (cost_tracker.init "s1" 0) in
  cost_tracker.turn_id <$> cost_tracker.history ct = [0; 1; 2]%Z /\
  cost_tracker.turn_id (cost_tracker.current ct) = 3%Z /\
  cost_tracker.tts_cost <$> cost_tracker.history ct = [0; 0; 0]%float.
Proof. vm_compute. repeat split. Qed.

Example latency_three_turns :
  let lt :=
    latency_calls.run
      [latency_calls.StartStt 1; latency_calls.FinishTurn 2 2;
       latency_calls.StartTool 3; latency_calls.EndTool 4;
       latency_calls.FinishTurn 5 5; latency_calls.FinishTurn 6 6;
       latency_calls.StartStt 7]
      (latency_tracker.init "s1" 0) in
  latency_tracker.turn_id <$> latency_tracker.history lt = [0; 1; 2]%Z /\
  latency_tracker.turn_id (latency_tracker.current lt) = 3%Z /\
  latency_tracker.turn_end_time <$> latency_tracker.history lt
    = [Some 2; Some 5; Some 6]%float.
Proof. vm_compute. repeat split. Qed.

(** C3.  On a freshly constructed accumulator, [finish_turn()] called [N]
    times ([N = length ts], one clock reading per call) yields a history
    of exactly [N] entries whose [turn_id]s are [0, 1, ..., N-1] and leaves
    an open turn with [turn_id = N].  Each call, made in any state the
    accumulator can reach, appends exactly the reference it returns, which
    is the turn that was open (for the latency tracker: with its
    [turn_end_time] set), and opens a new turn at another reference; the
    object behind the returned reference is left untouched by every later
    sequence of calls on the accumulator. *)
Theorem C3_finish_turn :
  (forall sid t0 (ts : list float),
     let ct := cost_calls.finish_turns ts (cost_tracker.init sid t0) in
     length (cost_tracker.history ct) = length ts /\
     cost_tracker.turn_id <$> cost_tracker.history ct
       = Z.of_nat <$> seq 0 (length ts) /\
     cost_tracker.turn_id (cost_tracker.current ct) = Z.of_nat (length ts))
  /\
  (forall sid t0 before now after,
     let ct := cost_calls.run before (cost_tracker.init sid t0) in
     let ct' := fst (cost_tracker.finish_turn now ct) in
     let returned := snd (cost_tracker.finish_turn now ct) in
     cost_tracker.turns ct' = cost_tracker.turns ct ++ [returned] /\
     cost_tracker.heap ct' returned = cost_tracker.current ct /\
     cost_tracker._current_turn ct' <> returned /\
     cost_tracker.heap (cost_calls.run after ct') returned
       = cost_tracker.heap ct' returned)
  /\
  (forall sid t0 (ts : list (float * float)),
     let lt := latency_calls.finish_turns ts (latency_tracker.init sid t0) in
     length (latency_tracker.history lt) = length ts /\
     latency_tracker.turn_id <$> latency_tracker.history lt
       = Z.of_nat <$> seq 0 (length ts) /\
     latency_tracker.turn_id (latency_tracker.current lt)
       = Z.of_nat (length ts))
  /\
  (forall sid t0 before now_end now_start after,
     let lt := latency_calls.run before (latency_tracker.init sid t0) in
     let res := latency_tracker.finish_turn now_end now_start lt in
     let lt' := fst (fst res) in
     let returned := snd (fst res) in
     latency_tracker.turns lt' = latency_tracker.turns lt ++ [returned] /\
     latency_tracker.heap lt' returned
       = latency_tracker.set_turn_end_time (Some now_end)
           (latency_tracker.current lt) /\
     latency_tracker._current_turn lt' <> returned /\
     latency_tracker.heap (latency_calls.run after lt') returned
       = latency_tracker.heap lt' returned).
Proof.
  split; [|split; [|split]].
  - intros sid t0 ts ct.
    destruct (numbered_finish_turns ts 0 (cost_tracker.init sid t0))
      as (Hhist & Hcur & _);
      [apply refs_ok_init | apply numbered_init |].
    unfold cost_tracker.history at 1. rewrite length_fmap.
    unfold ct. rewrite length_turns_finish_turns. done.
  - intros sid t0 before now after ct ct' returned.
    assert (Hrefs : cost_calls.refs_ok ct)
      by apply refs_ok_run, refs_ok_init.
    pose proof Hrefs as [Hcur _].
    split; [done|]. split; [|split].
    + unfold ct', returned, cost_tracker.current. simpl.
      apply fn_lookup_insert_ne. lia.
    + unfold ct', returned. simpl. lia.
    + apply heap_run_older.
      * now apply refs_ok_finish_turn.
      * unfold ct', returned. simpl. lia.
  - intros sid t0 ts lt.
    destruct (lat_numbered_finish_turns ts 0 (latency_tracker.init sid t0))
      as (Hhist & Hcur & _);
      [apply lat_refs_ok_init | apply lat_numbered_init |].
    unfold latency_tracker.history at 1. rewrite length_fmap.
    unfold lt. rewrite lat_length_turns_finish_turns. done.
  - intros sid t0 before now_end now_start after lt res lt' returned.
    assert (Hrefs : latency_calls.refs_ok lt)
      by apply lat_refs_ok_run, lat_refs_ok_init.
    pose proof Hrefs as [Hcur _].
    split; [done|]. split; [|split].
    + unfold lt', returned, res, latency_tracker.current. simpl.
      rewrite fn_lookup_insert_ne by lia. apply fn_lookup_insert.
    + unfold lt', returned, res. simpl. lia.
    + apply lat_heap_run_older.
      * now apply lat_refs_ok_finish_turn.
      * unfold lt', returned, res. simpl. lia.
Qed.

(** ** The tool stage *)

Section tool_stage.
Import Py latency_tracker latency_calls.

(** The two derived metrics read the same pair of fields when first-result
    time and end time coincide. *)
Lemma first_is_end_metrics s :
  first_result_time s = end_time s ->
  time_to_first_result s = total_duration s.
Proof. unfold time_to_first_result, total_duration. now intros ->. Qed.

Lemma tool_first_is_end_init sid now : tool_first_is_end (init sid now).
Proof. intros r. reflexivity. Qed.

Lemma tool_first_is_end_step lt c :
  tool_first_is_end lt -> tool_first_is_end (step lt c).
Proof.
  intros H r. pose proof (H r) as Hr. pose proof (H (_current_turn lt)) as Hc.
  destruct c; simpl; unfold insert, fn_insert;
    repeat (destruct (decide _); simpl); auto.
Qed.

Lemma tool_first_is_end_run cs lt :
  tool_first_is_end lt -> tool_first_is_end (run cs lt).
Proof.
  revert lt. induction cs as [|c cs IH]; intros lt H; [done|].
  apply IH, tool_first_is_end_step, H.
Qed.

(** C10.  After [end_tool()] the open turn's tool stage has its
    [first_result_time] equal to its [end_time] (both are the clock reading
    of the call).  Hence in every turn of a tracker, open or finalized,
    after any sequence of calls, the tool stage has [first_result_time]
    equal to [end_time], and its [time_to_first_result] equals its
    [total_duration]. *)
Theorem C10_tool_first_result_is_end :
  (forall now lt,
     let lt' := fst (end_tool now lt) in
     first_result_time (tool (current lt')) = end_time (tool (current lt')) /\
     end_time (tool (current lt')) = Some now) /\
  (forall sid t0 calls,
     let lt := run calls (init sid t0) in
     Forall (fun t => first_result_time (tool t) = end_time (tool t) /\
                      time_to_first_result (tool t) = total_duration (tool t))
            (current lt :: history lt)).
Proof.
  split.
  - intros now lt lt'. unfold lt', end_tool. cbn [fst].
    rewrite !lat_current_update_current. done.
  - intros sid t0 calls lt.
    assert (H : tool_first_is_end lt)
      by apply tool_first_is_end_run, tool_first_is_end_init.
    assert (Hall : forall t, (exists r, t = heap lt r) ->
              first_result_time (tool t) = end_time (tool t) /\
              time_to_first_result (tool t) = total_duration (tool t)).
    { intros t [r ->]. split; [apply H | apply first_is_end_metrics, H]. }
    constructor.
    + apply Hall. now exists (_current_turn lt).
    + unfold history. apply Forall_fmap, Forall_forall.
      intros r _. apply Hall. now exists r.
Qed.

End tool_stage.

(** ** The insertion-ordered dict *)

Section dict_facts.
Import Py.
Context {V : Type}.
Implicit Types (d : dict V) (k : string) (v : V).

Lemma dict_get_cons d k k' v :
  dict_get ((k', v) :: d) k = if String.eqb k' k then Some v else dict_get d k.
Proof. unfold dict_get. simpl. now destruct (String.eqb k' k). Qed.

Lemma dict_get_values d k v : dict_get d k = Some v -> v ∈ dict_values d.
Proof.
  induction d as [|[k' v'] d IH]; [done|].
  rewrite dict_get_cons. unfold dict_values. simpl.
  destruct (String.eqb k' k).
  - intros [= ->]. apply list_elem_of_here.
  - intros H. apply list_elem_of_further, IH, H.
Qed.

(** Setting an absent key appends the entry. *)
Lemma dict_set_absent d k v :
  dict_get d k = None -> dict_set d k v = d ++ [(k, v)].
Proof.
  induction d as [|[k' v'] d IH]; [done|].
  rewrite dict_get_cons. simpl.
  destruct (String.eqb k' k); [done|]. intros H. now rewrite IH.
Qed.

Lemma dict_get_set_eq d k v : dict_get (dict_set d k v) k = Some v.
Proof.
  induction d as [|[k' v'] d IH]; simpl.
  - now rewrite dict_get_cons, String.eqb_refl.
  - destruct (String.eqb k' k) eqn:E; rewrite dict_get_cons, E; [done|apply IH].
Qed.

(** After [pop] the key is gone ... *)
Lemma dict_get_pop_eq d k : dict_get (snd (dict_pop d k)) k = None.
Proof.
  unfold dict_pop. simpl.
  induction d as [|[k' v'] d IH]; [done|]. simpl.
  destruct (String.eqb k' k) eqn:E; simpl; [apply IH|].
  now rewrite dict_get_cons, E.
Qed.

(** ... and a [pop] of an absent key changes nothing. *)
Lemma dict_pop_absent d k : dict_get d k = None -> snd (dict_pop d k) = d.
Proof.
  unfold dict_pop. simpl.
  induction d as [|[k' v'] d IH]; [done|].
  rewrite dict_get_cons. simpl.
  destruct (String.eqb k' k); [done|]. simpl. intros H. now rewrite IH.
Qed.

Lemma Forall_pop (P : string * V -> Prop) d k :
  Forall P d -> Forall P (snd (dict_pop d k)).
Proof.
  unfold dict_pop. simpl. induction 1 as [|kv d HP _ IH]; simpl; [done|].
  destruct (negb _); [now constructor | done].
Qed.

Lemma dict_values_pop_subset d k v :
  v ∈ dict_values (snd (dict_pop d k)) -> v ∈ dict_values d.
Proof.
  unfold dict_pop, dict_values. simpl.
  induction d as [|[k' v'] d IH]; [done|]. simpl.
  destruct (negb _); simpl.
  - intros [->|H]%elem_of_cons;
      [apply list_elem_of_here | apply list_elem_of_further, IH, H].
  - intros H. apply list_elem_of_further, IH, H.
Qed.

Lemma NoDup_values_pop d k :
  NoDup (dict_values d) -> NoDup (dict_values (snd (dict_pop d k))).
Proof.
  induction d as [|[k' v'] d IH]; [done|].
  unfold dict_values in *. simpl. intros [Hnotin Hnd]%list.NoDup_cons.
  unfold dict_pop in *. simpl in *.
  destruct (negb _); simpl; [|now apply IH].
  apply list.NoDup_cons. split; [|now apply IH].
  intros Hin. apply Hnotin. now apply (dict_values_pop_subset d k).
Qed.

(** With pairwise distinct values, the entries that survive [pop] hold
    values other than the popped one. *)
Lemma values_pop_ne d k v :
  NoDup (dict_values d) -> dict_get d k = Some v ->
  Forall (fun kv => snd kv <> v) (snd (dict_pop d k)).
Proof.
  induction d as [|[k' v'] d IH]; [done|].
  unfold dict_values. simpl. intros [Hnotin Hnd]%list.NoDup_cons.
  rewrite dict_get_cons. unfold dict_pop in *. simpl in *.
  destruct (String.eqb k' k); simpl.
  - intros [= ->]. clear IH Hnd.
    induction d as [|[k2 v2] d IH]; simpl; [done|].
    simpl in Hnotin. apply not_elem_of_cons in Hnotin as [Hne Hnotin].
    destruct (negb _); [constructor; [simpl; congruence|] |]; now apply IH.
  - intros Hget. constructor; [|now apply IH].
    simpl. intros ->. apply Hnotin. now apply (dict_get_values d k).
Qed.

End dict_facts.

(** ** The session registry *)

Section registry.
Import Py session_manager manager_calls.

Lemma registry_ok_init : registry_ok init.
Proof. split; [|split]; [constructor | constructor | done]. Qed.

Lemma create_session_present sid md utcnow t_cost t_latency m r :
  dict_get (_sessions m) sid = Some r ->
  create_session sid md utcnow t_cost t_latency m
  = (m, r, [LogRecord "warning" "session_already_exists"
              [("session_id"%string, VStr sid)]]).
Proof. unfold create_session. now intros ->. Qed.

Lemma registry_ok_create sid md utcnow t_cost t_latency m :
  registry_ok m ->
  registry_ok (fst (fst (create_session sid md utcnow t_cost t_latency m))).
Proof.
  intros (Hall & Hnd & Hfree). unfold create_session.
  destruct (dict_get (_sessions m) sid) eqn:Hget; [done|].
  unfold registry_ok, active_at. simpl.
  rewrite (dict_set_absent _ _ _ Hget). split; [|split].
  - apply Forall_app. split.
    + eapply Forall_impl; [|exact Hall].
      intros [k r] [Hlt Hact]. simpl in *.
      split; [lia|]. rewrite fn_lookup_insert_ne by lia. exact Hact.
    + constructor; [|constructor]. simpl. split; [lia|].
      now rewrite fn_lookup_insert.
  - unfold dict_values in *. rewrite fmap_app. simpl.
    apply list.NoDup_app. split; [done|]. split; [|apply NoDup_singleton].
    intros r0 Hin Hr0%list_elem_of_singleton.
    apply list_elem_of_fmap in Hin as ([k r] & Heq & Hin).
    rewrite Forall_forall in Hall. apply list_elem_of_In, Hall in Hin.
    simpl in *. lia.
  - intros r Hr. rewrite fn_lookup_insert_ne by lia. apply Hfree. lia.
Qed.

Lemma registry_ok_remove sid utcnow m :
  registry_ok m -> registry_ok (fst (fst (remove_session sid utcnow m))).
Proof.
  intros (Hall & Hnd & Hfree). unfold remove_session.
  pose proof (Forall_pop _ (_sessions m) sid Hall) as Hall'.
  pose proof (NoDup_values_pop (_sessions m) sid Hnd) as Hnd'.
  unfold dict_pop in *. simpl in *.
  destruct (dict_get (_sessions m) sid) as [r0|] eqn:Hget;
    unfold registry_ok, active_at; simpl; [|done].
  split; [|split; [done|]].
  - pose proof (values_pop_ne (_sessions m) sid r0 Hnd Hget) as Hne.
    unfold dict_pop in Hne. simpl in Hne.
    rewrite Forall_forall in Hall', Hne. apply Forall_forall.
    intros kr Hin. specialize (Hall' kr Hin). specialize (Hne kr Hin).
    simpl in Hall', Hne.
    rewrite fn_lookup_insert_ne by (intros E; now apply Hne).
    exact Hall'.
  - intros r Hr.
    destruct (decide (r0 = r)) as [->|Hne].
    + rewrite fn_lookup_insert, (Hfree r Hr). done.
    + rewrite fn_lookup_insert_ne by done. now apply Hfree.
Qed.

Lemma registry_ok_step m c : registry_ok m -> registry_ok (step m c).
Proof.
  destruct c; simpl; [apply registry_ok_create | apply registry_ok_remove].
Qed.

Lemma registry_ok_run cs m : registry_ok m -> registry_ok (run cs m).
Proof.
  revert m. induction cs as [|c cs IH]; intros m H; [done|].
  apply IH, registry_ok_step, H.
Qed.

Lemma registry_ok_get m sid r :
  registry_ok m -> get_session sid m = Some r -> active_at m r = Some true.
Proof.
  intros (Hall & _) Hget. unfold get_session, dict_get in Hget.
  destruct (List.find _ _) as [[k r']|] eqn:Hfind; [|done].
  simpl in Hget. injection Hget as ->.
  apply List.find_some in Hfind as [Hin _].
  rewrite Forall_forall in Hall. now apply Hall in Hin.
Qed.

(** C8.  After any sequence of [create_session] and [remove_session] calls
    on a new registry, every [Session] the mapping refers to has
    [is_active = True].  [create_session] leaves every existing [Session]
    object as it is: an object differs afterwards only if it is the newly
    constructed, active one.  [remove_session] is the step that
    deactivates: in one step it deletes the mapping entry of the id, sets
    [is_active = False] on the popped object (and changes no other object)
    and returns it; for an absent id it returns [None] and changes
    nothing. *)
Theorem C8_mapped_sessions_are_active :
  (forall calls,
     let m := run calls init in
     Forall (fun r => active_at m r = Some true) (dict_values (_sessions m)))
  /\
  (forall calls sid md utcnow t_cost t_latency r,
     let m := run calls init in
     let res := create_session sid md utcnow t_cost t_latency m in
     let m' := fst (fst res) in
     active_at m' (snd (fst res)) = Some true /\
     (objs m' r = objs m r \/
      (objs m r = None /\ active_at m' r = Some true)))
  /\
  (forall calls sid utcnow,
     let m := run calls init in
     let res := remove_session sid utcnow m in
     let m' := fst (fst res) in
     get_session sid m' = None /\
     snd (fst res) = get_session sid m /\
     match get_session sid m with
     | Some r =>
         active_at m r = Some true /\
         active_at m' r = Some false /\
         objs m' = <[r := set_is_active false <$> objs m r]> (objs m)
     | None => objs m' = objs m /\ _sessions m' = _sessions m
     end).
Proof.
  split; [|split].
  - intros calls m.
    destruct (registry_ok_run calls init registry_ok_init) as (Hall & _).
    fold m in Hall. unfold dict_values. apply Forall_fmap.
    eapply Forall_impl; [|exact Hall]. now intros kr [_ H].
  - intros calls sid md utcnow t_cost t_latency r m res m'.
    pose proof (registry_ok_run calls init registry_ok_init) as Hok.
    fold m in Hok.
    unfold m', res, create_session.
    destruct (dict_get (_sessions m) sid) as [r0|] eqn:Hget; simpl.
    + split; [now apply (registry_ok_get m sid) | now left].
    + unfold active_at. simpl. rewrite fn_lookup_insert. split; [done|].
      destruct (decide (next_ref m = r)) as [<-|Hne].
      * right. rewrite fn_lookup_insert. split; [|done].
        destruct Hok as (_ & _ & Hfree). now apply Hfree.
      * left. now apply fn_lookup_insert_ne.
  - intros calls sid utcnow m res m'.
    pose proof (registry_ok_run calls init registry_ok_init) as Hok.
    fold m in Hok.
    pose proof (dict_get_pop_eq (_sessions m) sid) as Hgone.
    pose proof (dict_pop_absent (_sessions m) sid) as Hsame.
    pose proof (registry_ok_get m sid) as Hact.
    unfold m', res, remove_session, get_session, dict_pop in *.
    simpl in *.
    destruct (dict_get (_sessions m) sid) as [r|] eqn:Hget; simpl.
    + specialize (Hact r Hok eq_refl).
      split; [done|]. split; [done|]. split; [done|]. split; [|done].
      unfold active_at in *. simpl. rewrite fn_lookup_insert.
      destruct (objs m r) as [s|]; [done|discriminate].
    + split; [done|]. split; [done|]. split; [done|]. now apply Hsame.
Qed.

Lemma total_sessions_created_step m c :
  (total_sessions_created m <= total_sessions_created (step m c))%Z.
Proof.
  unfold total_sessions_created.
  destruct c as [sid md utcnow t_cost t_latency | sid utcnow]; simpl.
  - unfold create_session.
    destruct (dict_get (_sessions m) sid); simpl; lia.
  - unfold remove_session, dict_pop.
    destruct (dict_get (_sessions m) sid); simpl; lia.
Qed.

(** C9.  In any state the registry can reach, [create_session] with an id
    that is present returns the reference the mapping holds for it, leaves
    the whole registry (store, mapping and counter) as it was, and the
    session returned is active; no error is raised, the call always returns
    a session.  With an absent id it constructs a new [Session] object at
    a reference that held none, maps the id to it and increments the
    total-created counter by one.  [remove_session] leaves the counter as
    it is, and over any sequence of calls the counter never decreases. *)
Theorem C9_duplicate_create_and_counter :
  (forall calls sid md utcnow t_cost t_latency,
     let m := run calls init in
     let res := create_session sid md utcnow t_cost t_latency m in
     let m' := fst (fst res) in
     let r := snd (fst res) in
     match get_session sid m with
     | Some r0 => m' = m /\ r = r0 /\ active_at m r0 = Some true
     | None =>
         total_sessions_created m' = (total_sessions_created m + 1)%Z /\
         objs m r = None /\
         objs m' r = Some (new_Session sid (metadata_or_empty md) utcnow
                             t_cost t_latency) /\
         get_session sid m' = Some r
     end)
  /\
  (forall sid utcnow m,
     total_sessions_created (fst (fst (remove_session sid utcnow m)))
     = total_sessions_created m)
  /\
  (forall calls m,
     (total_sessions_created m <= total_sessions_created (run calls m))%Z).
Proof.
  split; [|split].
  - intros calls sid md utcnow t_cost t_latency m res m' r.
    pose proof (registry_ok_run calls init registry_ok_init) as Hok.
    fold m in Hok.
    pose proof (registry_ok_get m sid) as Hact.
    unfold r, m', res, create_session, get_session in *.
    destruct (dict_get (_sessions m) sid) as [r0|] eqn:Hget; simpl.
    + split; [done|]. split; [done|]. now apply Hact.
    + destruct Hok as (_ & _ & Hfree).
      split; [done|]. split; [now apply Hfree|].
      split; [apply fn_lookup_insert | apply dict_get_set_eq].
  - intros sid utcnow m. unfold remove_session, dict_pop.
    now destruct (dict_get (_sessions m) sid).
  - intros calls. induction calls as [|c cs IH]; intros m; simpl; [lia|].
    etrans; [apply (total_sessions_created_step m c) | apply IH].
Qed.

(** A run of the registry: a duplicate create, a removal and a re-creation
    of the same id. *)
Example registry_run :
  let m1 := run [Create "a" None 0%Z 0 0; Create "a" None 5%Z 5 5] init in
  let m2 := run [Remove "a" 9%Z; Create "a" None 10%Z 10 10] m1 in
  total_sessions_created m1 = 1%Z /\ get_session "a" m1 = Some 0 /\
  total_sessions_created m2 = 2%Z /\ get_session "a" m2 = Some 1 /\
  active_at m2 0 = Some false /\ active_at m2 1 = Some true /\
  active_session_count m2 = 1%Z.
Proof. vm_compute. repeat split. Qed.

End registry.

(** * Further properties of the trackers *)

Section cost_more.
Import Py cost_tracker cost_calls.

Lemma length_turns_run cs ct :
  length (turns (run cs ct)) = length (turns ct) + count_finish cs.
Proof.
  unfold count_finish.
  revert ct. induction cs as [|c cs IH]; intros ct; simpl; [lia|].
  unfold run in IH. rewrite IH.
  destruct c; simpl; rewrite ?length_app; simpl; lia.
Qed.

(** The snapshot of a finalized turn is read through its reference only. *)
Lemma get_last_turn_update_current f ct :
  refs_ok ct -> get_last_turn (update_current f ct) = get_last_turn ct.
Proof.
  intros [_ Hold]. unfold get_last_turn. simpl.
  destruct (list.last (turns ct)) as [r|] eqn:Hlast; [|done].
  apply last_Some in Hlast as [l' Hl]. rewrite Hl in Hold.
  apply Forall_app in Hold as [_ Hr]. inversion_clear Hr as [|? ? Hlt _].
  rewrite fn_lookup_insert_ne by lia. done.
Qed.

(** X1.  Turn numbers of the cost tracker depend on the number of
    [finish_turn()] calls only: after any sequence of calls on a new tracker,
    [k] of them [finish_turn()], the history holds the turns numbered
    [0 .. k-1] in order, the open turn has number [k], and [turn_count] and
    the [turn_count] field of [get_summary()] are [k]. *)
Theorem cost_turn_numbers_after_any_calls sid t0 calls :
  let ct := run calls (init sid t0) in
  let k := count_finish calls in
  turn_id <$> history ct = Z.of_nat <$> seq 0 k /\
  turn_id (current ct) = Z.of_nat k /\
  turn_count ct = Z.of_nat k /\
  getitem (get_summary ct) "turn_count" = Some (VInt (Z.of_nat k)).
Proof.
  intros ct k.
  destruct (numbered_run calls 0 (init sid t0)) as (Hhist & Hcur & _);
    [apply refs_ok_init | apply numbered_init |].
  assert (Hcount : turn_count ct = Z.of_nat k).
  { unfold turn_count, ct. rewrite length_turns_run. simpl. done. }
  split; [exact Hhist|]. split; [exact Hcur|]. split; [exact Hcount|].
  unfold get_summary, getitem. simpl. now rewrite Hcount.
Qed.

(** X2.  Cost is added to the open turn only.  In every state a tracker can
    reach, [add_stt_cost], [add_llm_cost] and [add_tts_cost] leave the
    finalized turns, their number and [get_last_turn()] as they are, keep
    the open turn's number, and change no cost category of the open turn
    other than their own. *)
Theorem cost_added_to_open_turn_only sid t0 calls :
  let ct := run calls (init sid t0) in
  (forall d,
     let ct' := add_stt_cost d ct in
     history ct' = history ct /\ turns ct' = turns ct /\
     get_last_turn ct' = get_last_turn ct /\
     turn_id (current ct') = turn_id (current ct) /\
     llm_input_cost (current ct') = llm_input_cost (current ct) /\
     llm_output_cost (current ct') = llm_output_cost (current ct) /\
     tts_cost (current ct') = tts_cost (current ct)) /\
  (forall i o,
     let ct' := add_llm_cost i o ct in
     history ct' = history ct /\ turns ct' = turns ct /\
     get_last_turn ct' = get_last_turn ct /\
     turn_id (current ct') = turn_id (current ct) /\
     stt_cost (current ct') = stt_cost (current ct) /\
     tts_cost (current ct') = tts_cost (current ct)) /\
  (forall n,
     let ct' := add_tts_cost n ct in
     history ct' = history ct /\ turns ct' = turns ct /\
     get_last_turn ct' = get_last_turn ct /\
     turn_id (current ct') = turn_id (current ct) /\
     stt_cost (current ct') = stt_cost (current ct) /\
     llm_input_cost (current ct') = llm_input_cost (current ct) /\
     llm_output_cost (current ct') = llm_output_cost (current ct)).
Proof.
  intros ct.
  assert (Hrefs : refs_ok ct) by apply refs_ok_run, refs_ok_init.
  split; [|split].
  - intros d ct'. unfold ct', add_stt_cost.
    rewrite history_update_current, get_last_turn_update_current,
      current_update_current by done.
    done.
  - intros i o ct'. unfold ct', add_llm_cost.
    rewrite !history_update_current, !get_last_turn_update_current,
      !current_update_current by done.
    done.
  - intros n ct'. unfold ct', add_tts_cost.
    rewrite history_update_current, get_last_turn_update_current,
      current_update_current by done.
    done.
Qed.

(** X3.  [get_last_turn()] of the cost tracker reports the turn finalized
    last.  Before the first [finish_turn()] it is [{}]; after [k + 1] of them
    its [turn_id] is [k]; and right after a [finish_turn()] it is the
    snapshot of the turn that was open at that call. *)
Theorem cost_get_last_turn sid t0 calls now :
  let ct := run calls (init sid t0) in
  match count_finish calls with
  | 0 => get_last_turn ct = VDict []
  | S k => getitem (get_last_turn ct) "turn_id" = Some (VInt (Z.of_nat k))
  end /\
  get_last_turn (fst (finish_turn now ct)) = to_dict (current ct).
Proof.
  intros ct.
  assert (Hrefs : refs_ok ct) by apply refs_ok_run, refs_ok_init.
  destruct (numbered_run calls 0 (init sid t0)) as (Hhist & _);
    [apply refs_ok_init | apply numbered_init |].
  pose proof (length_turns_run calls (init sid t0)) as Hlen.
  fold ct in Hhist, Hlen. simpl in Hhist, Hlen. split.
  - unfold get_last_turn.
    destruct (count_finish calls) as [|k].
    + destruct (turns ct); [done | discriminate].
    + unfold history in Hhist. rewrite seq_S, fmap_app in Hhist. simpl in Hhist.
      destruct (list.last (turns ct)) as [r|] eqn:Hlast.
      * apply last_Some in Hlast as [l' Hl]. rewrite Hl, !fmap_app in Hhist.
        simpl in Hhist. apply app_inj_tail in Hhist as [_ Hid].
        unfold to_dict, getitem. simpl. now rewrite Hid.
      * apply last_None in Hlast. rewrite Hlast in Hlen. discriminate.
  - destruct Hrefs as [Hcur _]. unfold get_last_turn. simpl.
    rewrite last_snoc. unfold current.
    rewrite fn_lookup_insert_ne by lia. done.
Qed.

End cost_more.

Section latency_more.
Import Py latency_tracker latency_calls.

Lemma lat_length_turns_run cs lt :
  length (turns (run cs lt)) = length (turns lt) + count_finish cs.
Proof.
  unfold count_finish.
  revert lt. induction cs as [|c cs IH]; intros lt; simpl; [lia|].
  unfold run in IH. rewrite IH.
  destruct c; simpl; rewrite ?length_app; simpl; lia.
Qed.

(** X4.  Turn numbers of the latency tracker depend on the number of
    [finish_turn()] calls only: after any sequence of stage and
    [finish_turn()] calls on a new tracker, [k] of them [finish_turn()], the
    history holds the turns numbered [0 .. k-1] in order, the open turn has
    number [k], and [turn_count] and the [turn_count] field of
    [get_summary()] are [k]. *)
Theorem latency_turn_numbers_after_any_calls sid t0 calls :
  let lt := run calls (init sid t0) in
  let k := count_finish calls in
  turn_id <$> history lt = Z.of_nat <$> seq 0 k /\
  turn_id (current lt) = Z.of_nat k /\
  turn_count lt = Z.of_nat k /\
  getitem (get_summary lt) "turn_count" = Some (VInt (Z.of_nat k)).
Proof.
  intros lt k.
  destruct (lat_numbered_run calls 0 (init sid t0)) as (Hhist & Hcur & _);
    [apply lat_refs_ok_init | apply lat_numbered_init |].
  assert (Hcount : turn_count lt = Z.of_nat k).
  { unfold turn_count, lt. rewrite lat_length_turns_run. simpl. done. }
  split; [exact Hhist|]. split; [exact Hcur|]. split; [exact Hcount|].
  unfold get_summary, getitem. simpl. now rewrite Hcount.
Qed.

(** X5.  [get_last_turn()] of the latency tracker reports the turn finalized
    last.  Before the first [finish_turn()] it is [{}]; after [k + 1] of them
    its [turn_id] is [k]; and right after a [finish_turn()] it is the
    snapshot of the turn that was open at that call, with the clock reading
    of the call as its [turn_end_time]. *)
Theorem latency_get_last_turn sid t0 calls now_end now_start :
  let lt := run calls (init sid t0) in
  match count_finish calls with
  | 0 => get_last_turn lt = VDict []
  | S k => getitem (get_last_turn lt) "turn_id" = Some (VInt (Z.of_nat k))
  end /\
  get_last_turn (fst (fst (finish_turn now_end now_start lt)))
  = TurnLatency_to_dict (set_turn_end_time (Some now_end) (current lt)).
Proof.
  intros lt.
  assert (Hrefs : refs_ok lt) by apply lat_refs_ok_run, lat_refs_ok_init.
  destruct (lat_numbered_run calls 0 (init sid t0)) as (Hhist & _);
    [apply lat_refs_ok_init | apply lat_numbered_init |].
  pose proof (lat_length_turns_run calls (init sid t0)) as Hlen.
  fold lt in Hhist, Hlen. simpl in Hhist, Hlen. split.
  - unfold get_last_turn.
    destruct (count_finish calls) as [|k].
    + destruct (turns lt); [done | discriminate].
    + unfold history in Hhist. rewrite seq_S, fmap_app in Hhist. simpl in Hhist.
      destruct (list.last (turns lt)) as [r|] eqn:Hlast.
      * apply last_Some in Hlast as [l' Hl]. rewrite Hl, !fmap_app in Hhist.
        simpl in Hhist. apply app_inj_tail in Hhist as [_ Hid].
        unfold TurnLatency_to_dict, getitem. simpl. now rewrite Hid.
      * apply last_None in Hlast. rewrite Hlast in Hlen. discriminate.
  - destruct Hrefs as [Hcur _]. unfold get_last_turn. simpl.
    rewrite last_snoc. unfold current.
    rewrite fn_lookup_insert_ne by lia. now rewrite fn_lookup_insert.
Qed.

Lemma stage_kept_refl s : stage_kept s s.
Proof. repeat split; auto. Qed.

Lemma stage_kept_trans s1 s2 s3 :
  stage_kept s1 s2 -> stage_kept s2 s3 -> stage_kept s1 s3.
Proof. intros (?&?&?) (?&?&?). repeat split; auto. Qed.

Lemma turn_kept_refl t : turn_kept t t.
Proof. repeat split; auto. Qed.

Lemma turn_kept_trans t1 t2 t3 :
  turn_kept t1 t2 -> turn_kept t2 t3 -> turn_kept t1 t3.
Proof.
  intros (?&?&?&?&?&?) (?&?&?&?&?&?).
  split; [congruence|]. split; [congruence|].
  repeat split; eapply stage_kept_trans; eauto.
Qed.

(** A stage call keeps the open turn and clears none of its timestamps. *)
Lemma turn_kept_step lt c :
  is_finish c = false ->
  _current_turn (step lt c) = _current_turn lt /\
  turn_kept (current lt) (current (step lt c)).
Proof.
  intros Hc. destruct c; try discriminate; simpl;
    (split; [reflexivity|]);
    unfold turn_kept, stage_kept, current; simpl;
    rewrite ?fn_lookup_insert; simpl; repeat split; auto;
    first [by eexists | intros; by eexists].
Qed.

(** A stage call leaves the finalized turns alone. *)
Lemma lat_history_step lt c :
  refs_ok lt -> is_finish c = false -> history (step lt c) = history lt.
Proof.
  intros Hrefs Hc. destruct c; try discriminate; simpl;
    repeat (rewrite lat_history_update_current; [|exact Hrefs]);
    reflexivity.
Qed.

Lemma stage_calls_keep lt calls :
  refs_ok lt ->
  Forall (fun c => is_finish c = false) calls ->
  _current_turn (run calls lt) = _current_turn lt /\
  turns (run calls lt) = turns lt /\
  history (run calls lt) = history lt /\
  turn_kept (current lt) (current (run calls lt)).
Proof.
  revert lt. induction calls as [|c cs IH]; intros lt Hrefs Hall.
  - split; [done|]. split; [done|]. split; [done|]. apply turn_kept_refl.
  - inversion_clear Hall as [|? ? Hc Hcs].
    destruct (turn_kept_step lt c Hc) as [Href Hkept].
    destruct (IH (step lt c) (lat_refs_ok_step _ _ Hrefs) Hcs)
      as (Href' & Hturns' & Hhist' & Hkept').
    simpl. fold (run cs (step lt c)).
    split; [congruence|]. split; [|split].
    + rewrite Hturns'. now destruct c.
    + rewrite Hhist'. now apply lat_history_step.
    + eapply turn_kept_trans; eauto.
Qed.

(** X6.  Within a turn no timestamp is cleared.  In every state a tracker
    can reach, over any sequence of stage calls (no [finish_turn()] among
    them), in any order and with any clock readings, the open turn stays the
    same object with the same number and start time, every stage timestamp
    of it that was set is still set, and the history is unchanged: the same
    turns, and the same contents of each. *)
Theorem stage_timestamps_are_never_cleared sid t0 before calls :
  Forall (fun c => is_finish c = false) calls ->
  let lt := run before (init sid t0) in
  _current_turn (run calls lt) = _current_turn lt /\
  turns (run calls lt) = turns lt /\
  history (run calls lt) = history lt /\
  turn_kept (current lt) (current (run calls lt)).
Proof.
  intros Hall lt. apply stage_calls_keep; [|exact Hall].
  apply lat_refs_ok_run, lat_refs_ok_init.
Qed.

(** An instance: one finalized turn, [start_stt] at 1, then five more stage
    calls. *)
Lemma stage_timestamps_are_never_cleared_example :
  let lt := run [TtsFirstAudio 0.5; FinishTurn 0.7 0.8; StartStt 1]
              (init "s1" 0) in
  let calls := [EndStt 2; StartLlm 3; StartStt 4; StartTool 5; EndTool 6] in
  _current_turn (run calls lt) = _current_turn lt /\
  turns (run calls lt) = turns lt /\
  history (run calls lt) = history lt /\
  turn_kept (current lt) (current (run calls lt)).
Proof.
  apply (stage_timestamps_are_never_cleared "s1" 0
           [TtsFirstAudio 0.5; FinishTurn 0.7 0.8; StartStt 1]
           [EndStt 2; StartLlm 3; StartStt 4; StartTool 5; EndTool 6]).
  repeat constructor.
Defined.

Lemma no_start_stt_run calls lt :
  Forall (fun c => is_start_stt c = false) calls ->
  (forall r, start_time (stt (heap lt r)) = None) ->
  forall r, start_time (stt (heap (run calls lt) r)) = None.
Proof.
  revert lt. induction calls as [|c cs IH]; intros lt Hall H; [done|].
  inversion_clear Hall as [|? ? Hc Hcs]. simpl. apply IH; [done|].
  intros r. pose proof (H r). pose proof (H (_current_turn lt)).
  destruct c; try discriminate; simpl; unfold insert, fn_insert;
    repeat (destruct (decide _); simpl); auto.
Qed.

Lemma no_tts_first_audio_run calls lt :
  Forall (fun c => is_tts_first_audio c = false) calls ->
  (forall r, first_result_time (tts (heap lt r)) = None) ->
  forall r, first_result_time (tts (heap (run calls lt) r)) = None.
Proof.
  revert lt. induction calls as [|c cs IH]; intros lt Hall H; [done|].
  inversion_clear Hall as [|? ? Hc Hcs]. simpl. apply IH; [done|].
  intros r. pose proof (H r). pose proof (H (_current_turn lt)).
  destruct c; try discriminate; simpl; unfold insert, fn_insert;
    repeat (destruct (decide _); simpl); auto.
Qed.

(** Without a turn that has a latency, there is no average and the target
    is reported as missed. *)
Lemma no_latency_no_average lt :
  (forall r, end_to_end_latency (heap lt r) = None) ->
  end_to_end_latency (current lt) = None /\
  Forall (fun t => end_to_end_latency t = None) (history lt) /\
  average_end_to_end_latency lt = None /\
  getitem (get_summary lt) "average_end_to_end_latency_ms" = Some VNone /\
  getitem (get_summary lt) "target_met" = Some (VBool false).
Proof.
  intros H.
  assert (Hq : qualifying_latencies lt = []).
  { unfold qualifying_latencies, history.
    induction (turns lt) as [|r rs IH]; simpl; [done|]. now rewrite H. }
  assert (Havg : average_end_to_end_latency lt = None).
  { unfold average_end_to_end_latency. now rewrite Hq. }
  split; [apply H|]. split.
  - unfold history. apply Forall_fmap, Forall_forall. intros r _. apply H.
  - split; [exact Havg|]. unfold get_summary, getitem. simpl.
    now rewrite Havg.
Qed.

(** X7.  A latency is measured only when both ends were signalled.  If
    [start_stt()] was never called on a tracker, or [tts_first_audio()] never
    was, then whatever else was called, no turn (open or finalized) has an
    [end_to_end_latency], [average_end_to_end_latency] is [None], and
    [get_summary()] reports no average and [target_met = False]. *)
Theorem end_to_end_needs_both_signals sid t0 calls :
  Forall (fun c => is_start_stt c = false) calls \/
  Forall (fun c => is_tts_first_audio c = false) calls ->
  let lt := run calls (init sid t0) in
  end_to_end_latency (current lt) = None /\
  Forall (fun t => end_to_end_latency t = None) (history lt) /\
  average_end_to_end_latency lt = None /\
  getitem (get_summary lt) "average_end_to_end_latency_ms" = Some VNone /\
  getitem (get_summary lt) "target_met" = Some (VBool false).
Proof.
  intros Hcalls lt. apply no_latency_no_average. intros r.
  unfold end_to_end_latency. destruct Hcalls as [Hno | Hno].
  - unfold lt. now rewrite (no_start_stt_run calls (init sid t0) Hno).
  - unfold lt.
    rewrite (no_tts_first_audio_run calls (init sid t0) Hno) by done.
    now destruct (start_time _).
Qed.

(** An instance: two turns in which speech recognition is timed but the
    first audio never is. *)
Lemma end_to_end_needs_both_signals_example :
  let lt :=
    run [StartStt 1; EndStt 2; StartTts 3; EndTts 4; FinishTurn 5 5;
         StartStt 6; FinishTurn 7 7] (init "s1" 0) in
  end_to_end_latency (current lt) = None /\
  Forall (fun t => end_to_end_latency t = None) (history lt) /\
  average_end_to_end_latency lt = None /\
  getitem (get_summary lt) "average_end_to_end_latency_ms" = Some VNone /\
  getitem (get_summary lt) "target_met" = Some (VBool false).
Proof.
  apply (end_to_end_needs_both_signals "s1" 0
           [StartStt 1; EndStt 2; StartTts 3; EndTts 4; FinishTurn 5 5;
            StartStt 6; FinishTurn 7 7]).
  right. repeat constructor.
Defined.

End latency_more.

(** * Further properties of the session registry *)

Section dict_more.
Import Py.
Context {V : Type}.
Implicit Types (d : dict V) (k : string) (v : V).

Lemma dict_get_None_keys d k : dict_get d k = None <-> k ∉ dict_keys d.
Proof.
  unfold dict_keys. induction d as [|[k' v'] d IH]; simpl.
  - split; [intros _; apply not_elem_of_nil | done].
  - rewrite dict_get_cons, not_elem_of_cons.
    destruct (String.eqb_spec k' k) as [->|Hne].
    + split; [done | now intros [? _]].
    + rewrite IH. split; [intros ?; split; [congruence | done] | now intros [_ ?]].
Qed.

Lemma dict_get_is_Some_keys d k : is_Some (dict_get d k) <-> k ∈ dict_keys d.
Proof.
  rewrite <- not_eq_None_Some, dict_get_None_keys.
  destruct (decide (k ∈ dict_keys d)); split; try done.
  intros H. now destruct H.
Qed.

(** Lookups of other keys are not affected by an assignment ... *)
Lemma dict_get_set_ne d k k' v :
  k <> k' -> dict_get (dict_set d k v) k' = dict_get d k'.
Proof.
  intros Hne. induction d as [|[k0 v0] d IH]; simpl.
  - rewrite dict_get_cons.
    destruct (String.eqb_spec k k'); [congruence | done].
  - destruct (String.eqb_spec k0 k) as [->|Hne0]; rewrite !dict_get_cons.
    + destruct (String.eqb_spec k k'); [congruence | done].
    + now rewrite IH.
Qed.

(** ... nor by a [pop]. *)
Lemma dict_get_pop_ne d k k' :
  k <> k' -> dict_get (snd (dict_pop d k)) k' = dict_get d k'.
Proof.
  intros Hne. unfold dict_pop. simpl.
  induction d as [|[k0 v0] d IH]; simpl; [done|].
  destruct (String.eqb_spec k0 k) as [->|Hne0]; simpl.
  - rewrite dict_get_cons.
    destruct (String.eqb_spec k k'); [congruence | exact IH].
  - now rewrite !dict_get_cons, IH.
Qed.

Lemma dict_keys_pop_subset d k k' :
  k' ∈ dict_keys (snd (dict_pop d k)) -> k' ∈ dict_keys d.
Proof.
  unfold dict_pop, dict_keys. simpl.
  induction d as [|[k0 v0] d IH]; [done|]. simpl.
  destruct (negb _); simpl.
  - intros [->|H]%elem_of_cons;
      [apply list_elem_of_here | apply list_elem_of_further, IH, H].
  - intros H. apply list_elem_of_further, IH, H.
Qed.

Lemma NoDup_keys_pop d k :
  NoDup (dict_keys d) -> NoDup (dict_keys (snd (dict_pop d k))).
Proof.
  induction d as [|[k0 v0] d IH]; [done|].
  unfold dict_keys in *. simpl. intros [Hnotin Hnd]%list.NoDup_cons.
  unfold dict_pop in *. simpl in *.
  destruct (negb _); simpl; [|now apply IH].
  apply list.NoDup_cons. split; [|now apply IH].
  intros Hin. apply Hnotin. now apply (dict_keys_pop_subset d k).
Qed.

(** Popping an absent key keeps the size. *)
Lemma length_pop_absent d k :
  dict_get d k = None -> length (snd (dict_pop d k)) = length d.
Proof. intros H. now rewrite dict_pop_absent. Qed.

(** Popping a present key of a dict (keys pairwise distinct) removes
    exactly one entry. *)
Lemma length_pop_present d k :
  NoDup (dict_keys d) -> is_Some (dict_get d k) ->
  S (length (snd (dict_pop d k))) = length d.
Proof.
  induction d as [|[k0 v0] d IH]; [now intros _ [? ?]|].
  unfold dict_keys. simpl. intros [Hnotin Hnd]%list.NoDup_cons.
  rewrite dict_get_cons. unfold dict_pop in *. simpl in *.
  destruct (String.eqb_spec k0 k) as [->|Hne]; simpl.
  - intros _. f_equal.
    apply dict_get_None_keys in Hnotin.
    apply (length_pop_absent d k Hnotin).
  - intros H. f_equal. now apply IH.
Qed.

End dict_more.

Section system.
Import Py session_manager system_calls.

Lemma cost_step_session_id ct c :
  cost_tracker.session_id (cost_calls.step ct c) = cost_tracker.session_id ct.
Proof. now destruct c. Qed.

Lemma latency_step_session_id lt c :
  latency_tracker.session_id (latency_calls.step lt c)
  = latency_tracker.session_id lt.
Proof. now destruct c. Qed.

Lemma system_ok_init : system_ok init.
Proof. repeat split; constructor. Qed.

Lemma system_ok_create sid md utcnow t_cost t_latency m :
  system_ok m ->
  system_ok (fst (fst (create_session sid md utcnow t_cost t_latency m))).
Proof.
  intros (Hkeys & Hvals & Hall & Hfree & Hcnt). unfold create_session.
  destruct (dict_get (_sessions m) sid) eqn:Hget; [done|].
  unfold system_ok. simpl.
  rewrite (dict_set_absent _ _ _ Hget).
  unfold dict_keys, dict_values in *. rewrite !fmap_app. simpl.
  split; [|split; [|split; [|split]]].
  - apply list.NoDup_app. split; [done|]. split; [|apply NoDup_singleton].
    intros k Hin Hk%list_elem_of_singleton. subst k.
    now apply dict_get_None_keys in Hget.
  - apply list.NoDup_app. split; [done|]. split; [|apply NoDup_singleton].
    intros r0 Hin Hr0%list_elem_of_singleton.
    apply list_elem_of_fmap in Hin as ([k r] & Heq & Hin).
    rewrite Forall_forall in Hall. apply list_elem_of_In, Hall in Hin.
    simpl in *. lia.
  - apply Forall_app. split.
    + eapply Forall_impl; [|exact Hall].
      intros [k r] [Hlt Hs]. simpl in *.
      split; [lia|]. rewrite fn_lookup_insert_ne by lia. exact Hs.
    + constructor; [|constructor]. simpl. split; [lia|].
      rewrite fn_lookup_insert. eexists. split; [reflexivity|].
      repeat split.
  - intros r Hr. rewrite fn_lookup_insert_ne by lia. apply Hfree. lia.
  - lia.
Qed.

Lemma system_ok_remove sid utcnow m :
  system_ok m -> system_ok (fst (fst (remove_session sid utcnow m))).
Proof.
  intros (Hkeys & Hvals & Hall & Hfree & Hcnt). unfold remove_session.
  pose proof (NoDup_keys_pop (_sessions m) sid Hkeys) as Hkeys'.
  pose proof (NoDup_values_pop (_sessions m) sid Hvals) as Hvals'.
  pose proof (Forall_pop _ (_sessions m) sid Hall) as Hall'.
  unfold dict_pop in *. simpl in *.
  destruct (dict_get (_sessions m) sid) as [r0|] eqn:Hget;
    unfold system_ok; simpl; [|done].
  split; [done|]. split; [done|]. split; [|split; [|done]].
  - pose proof (values_pop_ne (_sessions m) sid r0 Hvals Hget) as Hne.
    unfold dict_pop in Hne. simpl in Hne.
    rewrite Forall_forall in Hall', Hne. apply Forall_forall.
    intros kr Hin. specialize (Hall' kr Hin). specialize (Hne kr Hin).
    simpl in Hall', Hne.
    rewrite fn_lookup_insert_ne by (intros E; now apply Hne).
    exact Hall'.
  - intros r Hr.
    destruct (decide (r0 = r)) as [->|Hne].
    + rewrite fn_lookup_insert, (Hfree r Hr). done.
    + rewrite fn_lookup_insert_ne by done. now apply Hfree.
Qed.

(** A caller that works on the trackers of a [Session] leaves the registry
    in order. *)
Lemma system_ok_update_session r f m :
  (forall sid s, session_of sid s -> session_of sid (f s)) ->
  system_ok m -> system_ok (update_session r f m).
Proof.
  intros Hf (Hkeys & Hvals & Hall & Hfree & Hcnt).
  unfold system_ok, update_session. simpl.
  split; [done|]. split; [done|]. split; [|split; [|done]].
  - eapply Forall_impl; [|exact Hall].
    intros [k r'] [Hlt (s & Hs & Hof)]. simpl in *. split; [done|].
    destruct (decide (r = r')) as [->|Hne].
    + rewrite fn_lookup_insert, Hs. simpl. eauto.
    + rewrite fn_lookup_insert_ne by done. eauto.
  - intros r' Hr'.
    destruct (decide (r = r')) as [->|Hne].
    + rewrite fn_lookup_insert, (Hfree r' Hr'). done.
    + rewrite fn_lookup_insert_ne by done. now apply Hfree.
Qed.

Lemma system_ok_step m c : system_ok m -> system_ok (step m c).
Proof.
  destruct c as [sid md utcnow t_cost t_latency | sid utcnow | r c | r c];
    simpl.
  - apply system_ok_create.
  - apply system_ok_remove.
  - apply system_ok_update_session.
    intros sid s (?&?&?&?). repeat split; simpl; try done.
    now rewrite cost_step_session_id.
  - apply system_ok_update_session.
    intros sid s (?&?&?&?). repeat split; simpl; try done.
    now rewrite latency_step_session_id.
Qed.

Lemma system_ok_run cs m : system_ok m -> system_ok (run cs m).
Proof.
  revert m. induction cs as [|c cs IH]; intros m H; [done|].
  apply IH, system_ok_step, H.
Qed.

(** Pairwise distinct numbers below [n] are at most [n]. *)
Lemma NoDup_below_length (l : list nat) n :
  NoDup l -> Forall (fun x => x < n) l -> length l <= n.
Proof.
  intros Hnd Hall.
  assert (H : length l <= length (seq 0 n)).
  { apply submseteq_length, NoDup_submseteq; [done|].
    intros x Hx. rewrite Forall_forall in Hall.
    apply list_elem_of_In, Hall in Hx. apply list_elem_of_In, in_seq. lia. }
  now rewrite length_seq in H.
Qed.

End system.

Section registry_more.
Import Py session_manager system_calls.

(** X8.  Bookkeeping of the active sessions.  In every state the registry
    can reach (sessions created and removed, trackers of sessions worked on
    in between), [get_active_sessions()] lists pairwise distinct ids, as
    many as [active_session_count], and an id is listed exactly when
    [get_session] finds it.  [create_session] adds one to
    [active_session_count] for a new id and nothing for a present one;
    [remove_session] takes one off for a present id and nothing for an
    absent one. *)
Theorem active_sessions_bookkeeping calls :
  let m := run calls init in
  NoDup (get_active_sessions m) /\
  active_session_count m = Z.of_nat (length (get_active_sessions m)) /\
  (forall sid, sid ∈ get_active_sessions m <-> is_Some (get_session sid m)) /\
  (forall sid md utcnow t_cost t_latency,
     active_session_count
       (fst (fst (create_session sid md utcnow t_cost t_latency m)))
     = (active_session_count m
        + match get_session sid m with Some _ => 0 | None => 1 end)%Z) /\
  (forall sid utcnow,
     active_session_count (fst (fst (remove_session sid utcnow m)))
     = (active_session_count m
        - match get_session sid m with Some _ => 1 | None => 0 end)%Z).
Proof.
  intros m.
  destruct (system_ok_run calls init system_ok_init) as (Hkeys & _).
  fold m in Hkeys.
  split; [exact Hkeys|]. split.
  { unfold active_session_count, get_active_sessions, dict_keys.
    now rewrite length_fmap. }
  split.
  { intros sid. symmetry. apply dict_get_is_Some_keys. }
  split.
  - intros sid md utcnow t_cost t_latency.
    unfold create_session, get_session, active_session_count.
    destruct (dict_get (_sessions m) sid) eqn:Hget; simpl; [lia|].
    rewrite (dict_set_absent _ _ _ Hget), length_app. simpl. lia.
  - intros sid utcnow.
    pose proof (length_pop_present (_sessions m) sid Hkeys) as Hpres.
    pose proof (length_pop_absent (_sessions m) sid) as Habs.
    unfold remove_session, get_session, active_session_count, dict_pop in *.
    simpl in *.
    destruct (dict_get (_sessions m) sid) eqn:Hget; simpl.
    + specialize (Hpres (mk_is_Some _ _ eq_refl)). lia.
    + specialize (Habs eq_refl). lia.
Qed.

(** Every reference handed out holds an object, for good. *)
Lemma allocated_below_next calls r :
  r < next_ref (run calls init) -> is_Some (objs (run calls init) r).
Proof.
  revert r. induction calls as [|c cs IH] using rev_ind; [simpl; lia|].
  unfold run in *. rewrite fold_left_app. simpl.
  set (m := fold_left step cs init) in *.
  intros r Hr.
  destruct c as [sid md utcnow t_cost t_latency | sid utcnow | r' c | r' c];
    simpl in *.
  - unfold create_session in *.
    destruct (dict_get (_sessions m) sid); simpl in *; [now apply IH|].
    destruct (decide (next_ref m = r)) as [<-|Hne].
    + rewrite fn_lookup_insert. by eexists.
    + rewrite fn_lookup_insert_ne by done. apply IH. lia.
  - unfold remove_session, dict_pop in *.
    destruct (dict_get (_sessions m) sid) as [r0|]; simpl in *;
      [|now apply IH].
    destruct (decide (r0 = r)) as [->|Hne].
    + rewrite fn_lookup_insert. destruct (IH r Hr) as [s ->]. by eexists.
    + rewrite fn_lookup_insert_ne by done. now apply IH.
  - destruct (decide (r' = r)) as [->|Hne].
    + rewrite fn_lookup_insert. destruct (IH r Hr) as [s ->]. by eexists.
    + rewrite fn_lookup_insert_ne by done. now apply IH.
  - destruct (decide (r' = r)) as [->|Hne].
    + rewrite fn_lookup_insert. destruct (IH r Hr) as [s ->]. by eexists.
    + rewrite fn_lookup_insert_ne by done. now apply IH.
Qed.

(** X9.  Sessions created versus sessions active.  In every state the
    registry can reach, [total_sessions_created] is the number of [Session]
    objects constructed so far, and [active_session_count] never exceeds
    it. *)
Theorem active_sessions_at_most_created calls :
  let m := run calls init in
  total_sessions_created m = Z.of_nat (next_ref m) /\
  (forall r, is_Some (objs m r) <-> r < next_ref m) /\
  (0 <= active_session_count m <= total_sessions_created m)%Z.
Proof.
  intros m.
  destruct (system_ok_run calls init) as (_ & Hvals & Hall & Hfree & Hcnt);
    [apply system_ok_init|].
  fold m in Hvals, Hall, Hfree, Hcnt.
  pose proof (allocated_below_next calls) as Halloc. fold m in Halloc.
  split; [exact Hcnt|]. split.
  - intros r. split; [|apply Halloc].
    intros [s Hs]. destruct (decide (r < next_ref m)) as [|Hge]; [done|].
    rewrite Hfree in Hs by lia. discriminate.
  - unfold total_sessions_created, active_session_count. rewrite Hcnt.
    split; [lia|]. apply inj_le.
    replace (length (_sessions m)) with (length (dict_values (_sessions m)))
      by (unfold dict_values; apply length_fmap).
    apply NoDup_below_length; [done|].
    unfold dict_values. apply Forall_fmap.
    eapply Forall_impl; [|exact Hall]. now intros kr [? _].
Qed.

(** X10.  Lookup after insertion and removal, in any registry state.
    [get_session] after [create_session(sid)] finds the session the call
    returned; after [remove_session(sid)] it finds nothing; and neither call
    changes what [get_session] finds for any other id. *)
Theorem get_session_after_create_and_remove m sid sid' :
  (forall md utcnow t_cost t_latency,
     let res := create_session sid md utcnow t_cost t_latency m in
     get_session sid (fst (fst res)) = Some (snd (fst res)) /\
     (sid' = sid \/
      get_session sid' (fst (fst res)) = get_session sid' m)) /\
  (forall utcnow,
     let res := remove_session sid utcnow m in
     get_session sid (fst (fst res)) = None /\
     snd (fst res) = get_session sid m /\
     (sid' = sid \/
      get_session sid' (fst (fst res)) = get_session sid' m)).
Proof.
  split.
  - intros md utcnow t_cost t_latency res.
    unfold res, create_session, get_session.
    destruct (dict_get (_sessions m) sid) eqn:Hget; simpl.
    + split; [done | now right].
    + split; [apply dict_get_set_eq|].
      destruct (decide (sid' = sid)) as [|Hne]; [now left | right].
      apply dict_get_set_ne. congruence.
  - intros utcnow res.
    pose proof (dict_get_pop_eq (_sessions m) sid) as Hgone.
    pose proof (dict_get_pop_ne (_sessions m) sid sid') as Hother.
    unfold res, remove_session, get_session, dict_pop in *. simpl in *.
    destruct (dict_get (_sessions m) sid) eqn:Hget; simpl;
      (split; [done|]); (split; [done|]);
      (destruct (decide (sid' = sid)) as [|Hne]; [now left | right]);
      apply Hother; congruence.
Qed.

(** X11.  [get_session_details] in every state the registry can reach: for
    an id that [get_session] does not find it answers [None]; for one it
    finds, it answers a snapshot whose [session_id] is the id asked for,
    whose [is_active] is [True] (a snapshot never shows an inactive
    session), and whose cost and latency summaries belong to that id and
    carry the turn counts of the session's trackers. *)
Theorem get_session_details_of_reachable isoformat calls sid :
  let m := run calls init in
  match get_session sid m ≫= objs m with
  | None =>
      get_session sid m = None /\
      get_session_details isoformat sid m = None
  | Some s =>
      exists d,
        get_session_details isoformat sid m = Some d /\
        getitem d "session_id" = Some (VStr sid) /\
        getitem d "is_active" = Some (VBool true) /\
        (getitem d "cost" ≫= fun c => getitem c "session_id")
          = Some (VStr sid) /\
        (getitem d "latency" ≫= fun c => getitem c "session_id")
          = Some (VStr sid) /\
        (getitem d "cost" ≫= fun c => getitem c "turn_count")
          = Some (VInt (cost_tracker.turn_count (cost_tracker s))) /\
        (getitem d "latency" ≫= fun c => getitem c "turn_count")
          = Some (VInt (latency_tracker.turn_count (latency_tracker s)))
  end.
Proof.
  intros m.
  destruct (system_ok_run calls init system_ok_init) as (_ & _ & Hall & _).
  fold m in Hall.
  unfold get_session_details, get_session.
  destruct (dict_get (_sessions m) sid) as [r|] eqn:Hget; simpl; [|done].
  assert (Hs : exists s, objs m r = Some s /\ session_of sid s).
  { unfold dict_get in Hget.
    destruct (List.find _ _) as [[k r']|] eqn:Hfind; [|done].
    simpl in Hget. injection Hget as ->.
    apply List.find_some in Hfind as [Hin Hk]. simpl in Hk.
    apply String.eqb_eq in Hk. subst k.
    rewrite Forall_forall in Hall. now apply Hall in Hin as [_ ?]. }
  destruct Hs as (s & -> & Hid & Hact & Hcid & Hlid).
  eexists. split; [reflexivity|].
  unfold getitem. simpl. rewrite Hact, Hcid, Hlid. done.
Qed.

End registry_more.

(** * The drivers of the trackers *)

Section agent_events.
Import Py aio tools agent.
Variable str_split : string -> list string.

(** Both trackers start paired and stay paired over call sequences with the
    same number of [finish_turn()] calls. *)
Lemma paired_init sid t_cost t_latency :
  paired 0 (cost_tracker.init sid t_cost) (latency_tracker.init sid t_latency).
Proof.
  repeat split; simpl; try lia; constructor.
Qed.

Lemma paired_run n ct lt ccs lcs :
  cost_calls.count_finish ccs = latency_calls.count_finish lcs ->
  paired n ct lt ->
  paired (n + cost_calls.count_finish ccs)
    (cost_calls.run ccs ct) (latency_calls.run lcs lt).
Proof.
  intros Hcount (Hcr & Hcn & Hlr & Hln). split; [|split; [|split]].
  - now apply refs_ok_run.
  - now apply numbered_run.
  - now apply lat_refs_ok_run.
  - rewrite Hcount. now apply lat_numbered_run.
Qed.

(** What [handle_function_call] does to the agent when nothing else runs
    during its await: there is no callback to await, another function is
    named, or the rest of the program leaves the agent alone. *)
Lemma handle_function_call_quiet name arguments during a w :
  _playback_callback (audio_tool a) = None \/
  String.eqb name "play_audio" = false \/
  (forall a0 w0, during a0 w0 = (a0, w0)) ->
  let '(r, a', w') := handle_function_call name arguments during a w in
  exists t_end,
    latency_tracker a'
    = latency_calls.run
        [latency_calls.StartTool (clock w (ticks w));
         latency_calls.EndTool t_end]
        (latency_tracker a) /\
    cost_tracker a' = cost_tracker a /\
    audio_tool a' = audio_tool a /\
    match r with
    | Ok message =>
        if String.eqb name "play_audio" then True
        else message = ("Unknown function: " +:+ name)%string
    | Raise e => e = CancelledError /\ String.eqb name "play_audio" = true
    end.
Proof.
  intros Hquiet.
  unfold handle_function_call, play_audio_during.
  unfold await_callback, try_finally, try_except, on_latency, bind, get, put,
    emit, ret, time_time.
  simpl.
  destruct (String.eqb name "play_audio") eqn:Hname; simpl;
    [|eexists; repeat split; done].
  destruct (_playback_callback (audio_tool a)) as [cb|]; simpl;
    [|eexists; repeat split; done].
  destruct Hquiet as [Hnone | [Hother | Hduring]]; [done | done |].
  rewrite Hduring.
  match goal with
  | |- context [cb ?url ?w0] =>
      destruct (cb url w0) as [[[|]|[str_e|]] w1]
  end; simpl; eexists; repeat split; done.
Qed.

(** [end_tool()] runs last, whatever ran before it. *)
Lemma handle_function_call_end name arguments during a w :
  let '(r, a', w') := handle_function_call name arguments during a w in
  (exists t_end lt,
     latency_tracker a' = fst (latency_tracker.end_tool t_end lt)) /\
  match r with
  | Ok message =>
      if String.eqb name "play_audio" then True
      else message = ("Unknown function: " +:+ name)%string
  | Raise e => e = CancelledError /\ String.eqb name "play_audio" = true
  end.
Proof.
  unfold handle_function_call, play_audio_during.
  unfold await_callback, try_finally, try_except, on_latency, bind, get, put,
    emit, ret, time_time.
  simpl.
  destruct (String.eqb name "play_audio") eqn:Hname; simpl;
    [|split; [eexists _, _; reflexivity | done]].
  destruct (_playback_callback (audio_tool a)) as [cb|]; simpl;
    [|split; [eexists _, _; reflexivity | done]].
  match goal with
  | |- context [during ?a0 ?w0] => destruct (during a0 w0) as [a1 w1]
  end.
  match goal with
  | |- context [cb ?url ?w0] =>
      destruct (cb url w0) as [[[|]|[str_e|]] w2]
  end; simpl; (split; [eexists _, _; reflexivity | done]).
Qed.

(** With a callback, [play_audio] is awaited between [start_tool()] and
    [end_tool()], and with it whatever runs [during] the await. *)
Lemma handle_function_call_suspended arguments during a w cb :
  _playback_callback (audio_tool a) = Some cb ->
  let '(_, a', _) :=
    handle_function_call "play_audio" arguments during a w in
  exists w1 t_end,
    let a1 :=
      set_latency_tracker
        (fst (latency_tracker.start_tool (clock w (ticks w))
                (latency_tracker a))) a in
    let a2 := fst (during a1 w1) in
    a' = set_latency_tracker
           (fst (latency_tracker.end_tool t_end (latency_tracker a2))) a2.
Proof.
  intros Hcb.
  unfold handle_function_call, play_audio_during.
  unfold await_callback, try_finally, try_except, on_latency, bind, get, put,
    emit, ret, time_time.
  simpl. rewrite Hcb.
  match goal with
  | |- context [during ?a0 ?w0] =>
      assert (Hd : exists w1, during a0 w0 = during a0 w1) by (by eexists);
      destruct (during a0 w0) as [a2 w2]
  end.
  destruct Hd as [w1 Hd].
  match goal with
  | |- context [cb ?url ?w0] =>
      destruct (cb url w0) as [[[|]|[str_e|]] w3]
  end; simpl; exists w1; eexists; rewrite <- Hd; reflexivity.
Qed.

Lemma on_agent_stopped_speaking_effect a w :
  let a' := fst (handle_all str_split [AgentStoppedSpeaking] a w) in
  exists t1 t2 t3 t4,
    latency_tracker a'
    = latency_calls.run
        [latency_calls.EndTts t1; latency_calls.FinishTurn t2 t3]
        (latency_tracker a) /\
    cost_tracker a'
    = cost_calls.run [cost_calls.FinishTurn t4] (cost_tracker a).
Proof. simpl. eexists _, _, _, _. split; reflexivity. Qed.

(** Every handler of an agent without a playback callback acts on the two
    trackers as a sequence of their calls does; only
    [agent_stopped_speaking] finalizes, and it finalizes one turn on
    each. *)
Lemma handle_as_calls e a w :
  _playback_callback (audio_tool a) = None ->
  let '(_, a', _) := handle str_split e a w in
  exists ccs lcs,
    cost_tracker a' = cost_calls.run ccs (cost_tracker a) /\
    latency_tracker a' = latency_calls.run lcs (latency_tracker a) /\
    cost_calls.count_finish ccs
      = (if is_agent_stopped_speaking e then 1 else 0) /\
    latency_calls.count_finish lcs
      = (if is_agent_stopped_speaking e then 1 else 0) /\
    audio_tool a' = audio_tool a.
Proof.
  intros Hnone.
  destruct e as [| |text| | |name arguments during]; simpl.
  - exists [], [latency_calls.StartStt (clock w (ticks w))]. done.
  - exists [], []. done.
  - eexists [cost_calls.AddStt _],
      [latency_calls.EndStt (clock w (ticks w))].
    done.
  - exists [], [latency_calls.TtsFirstAudio (clock w (ticks w))]. done.
  - exists [cost_calls.FinishTurn (clock w (S (S (S (ticks w)))))],
      [latency_calls.EndTts (clock w (ticks w));
       latency_calls.FinishTurn (clock w (S (ticks w)))
         (clock w (S (S (ticks w))))].
    done.
  - pose proof (handle_function_call_quiet name arguments during a w
                  (or_introl Hnone)) as H.
    unfold bind, ret.
    destruct (handle_function_call name arguments during a w)
      as [[[message|e] a'] w'];
      destruct H as (t_end & Hlt & Hct & Htool & _);
      exists [], [latency_calls.StartTool (clock w (ticks w));
                  latency_calls.EndTool t_end]; done.
Qed.

Lemma paired_handle_all events n a w :
  _playback_callback (audio_tool a) = None ->
  paired n (cost_tracker a) (latency_tracker a) ->
  let '(a', _) := handle_all str_split events a w in
  paired (n + length (List.filter is_agent_stopped_speaking events))
    (cost_tracker a') (latency_tracker a').
Proof.
  unfold handle_all.
  revert n a w. induction events as [|e events IH]; intros n a w Hnone Hp;
    simpl.
  - now rewrite Nat.add_0_r.
  - pose proof (handle_as_calls e a w Hnone) as Hcalls.
    destruct (handle str_split e a w) as [[r a1] w1]. simpl.
    destruct Hcalls as (ccs & lcs & Hct & Hlt & Hcc & Hlc & Htool).
    assert (Hp1 : paired (n + (if is_agent_stopped_speaking e then 1 else 0))
                    (cost_tracker a1) (latency_tracker a1)).
    { rewrite Hct, Hlt, <- Hcc. apply paired_run; [congruence | done]. }
    rewrite <- Htool in Hnone.
    specialize (IH _ a1 w1 Hnone Hp1).
    destruct (fold_left _ events (a1, w1)) as [a' w'].
    destruct (is_agent_stopped_speaking e); simpl;
      [rewrite <- Nat.add_assoc in IH | rewrite Nat.add_0_r in IH]; exact IH.
Qed.

(** What two paired trackers show. *)
Lemma paired_turns n ct lt :
  paired n ct lt ->
  cost_tracker.turn_id <$> cost_tracker.history ct = Z.of_nat <$> seq 0 n /\
  latency_tracker.turn_id <$> latency_tracker.history lt
    = Z.of_nat <$> seq 0 n /\
  cost_tracker.turn_id (cost_tracker.current ct) = Z.of_nat n /\
  latency_tracker.turn_id (latency_tracker.current lt) = Z.of_nat n /\
  cost_tracker.turn_count ct = Z.of_nat n /\
  latency_tracker.turn_count lt = Z.of_nat n.
Proof.
  intros (_ & (Hch & Hcc & _) & _ & (Hlh & Hlc & _)).
  repeat split; try done.
  - apply (f_equal length) in Hch.
    unfold cost_tracker.history in Hch.
    rewrite !length_fmap, length_seq in Hch.
    unfold cost_tracker.turn_count. now rewrite Hch.
  - apply (f_equal length) in Hlh.
    unfold latency_tracker.history in Hlh.
    rewrite !length_fmap, length_seq in Hlh.
    unfold latency_tracker.turn_count. now rewrite Hlh.
Qed.

(** X12.  The agent keeps its two trackers in step.  From the state
    [run_agent] sets up, after any sequence of session events and function
    calls, handled in any order and whatever their outcome, the cost tracker
    and the latency tracker have finalized the same turns: with [k] the
    number of [agent_stopped_speaking] events, both histories hold the turns
    numbered [0 .. k-1], both open turns have number [k] and both
    [turn_count]s are [k]. *)
Theorem agent_trackers_in_step room_name events w :
  let '(a0, w0) := run_agent_setup room_name w in
  let '(a, _) := handle_all str_split events a0 w0 in
  let k := length (List.filter is_agent_stopped_speaking events) in
  cost_tracker.turn_id <$> cost_tracker.history (cost_tracker a)
    = Z.of_nat <$> seq 0 k /\
  latency_tracker.turn_id <$> latency_tracker.history (latency_tracker a)
    = Z.of_nat <$> seq 0 k /\
  cost_tracker.turn_id (cost_tracker.current (cost_tracker a)) = Z.of_nat k /\
  latency_tracker.turn_id (latency_tracker.current (latency_tracker a))
    = Z.of_nat k /\
  cost_tracker.turn_count (cost_tracker a) = Z.of_nat k /\
  latency_tracker.turn_count (latency_tracker a) = Z.of_nat k.
Proof.
  unfold run_agent_setup.
  match goal with
  | |- let '(a, _) := handle_all _ _ ?a0 ?w0 in _ =>
      pose proof (paired_handle_all events 0 a0 w0) as H;
      destruct (handle_all str_split events a0 w0) as [a w']
  end.
  simpl in H. apply paired_turns, H; [reflexivity | apply paired_init].
Qed.

(** X13.  Tool timing around a function call.  Whatever function the LLM
    names, with or without a playback callback, whatever the event loop
    runs on the agent while the playback is awaited, and whether the
    playback succeeds, fails, raises or is cancelled:
    [handle_function_call] ends with [end_tool()], so that at its exit the
    open turn's tool stage has its end set, with [first_result_time] equal
    to it; and it never lets an [Exception] escape (a name other than
    [play_audio] is answered with [Unknown function: <name>], only a
    cancellation during playback propagates).  What runs during the await
    matters only when [play_audio] is named and a callback is set.  When
    nothing else runs on the agent during the await, the tool stage's start
    is the clock reading at entry, on the same open turn, no turn is
    finalized and no cost is added.  When [agent_stopped_speaking] is
    handled during the await, the turn that was open at entry is finalized
    in between: the open turn at exit has a tool end and no tool start. *)
Theorem function_call_is_timed name arguments during a w :
  (let '(r, a', _) := handle_function_call name arguments during a w in
   let tool_stage :=
     latency_tracker.tool (latency_tracker.current (latency_tracker a')) in
   is_Some (latency_tracker.end_time tool_stage) /\
   latency_tracker.first_result_time tool_stage
     = latency_tracker.end_time tool_stage /\
   match r with
   | Ok message =>
       if String.eqb name "play_audio" then True
       else message = ("Unknown function: " +:+ name)%string
   | Raise e => e = CancelledError /\ String.eqb name "play_audio" = true
   end) /\
  (_playback_callback (audio_tool a) = None \/
   String.eqb name "play_audio" = false ->
   handle_function_call name arguments during a w
   = handle_function_call name arguments no_interference a w) /\
  (let '(_, a', _) :=
     handle_function_call name arguments no_interference a w in
   let tool_stage :=
     latency_tracker.tool (latency_tracker.current (latency_tracker a')) in
   latency_tracker.start_time tool_stage = Some (clock w (ticks w)) /\
   latency_tracker.turns (latency_tracker a')
     = latency_tracker.turns (latency_tracker a) /\
   latency_tracker._current_turn (latency_tracker a')
     = latency_tracker._current_turn (latency_tracker a) /\
   cost_tracker a' = cost_tracker a) /\
  (forall cb,
     let a0 :=
       new_VoiceAgent (session_id a) (cost_tracker a) (latency_tracker a)
         (Some cb) in
     let '(_, a', _) :=
       handle_function_call "play_audio" arguments
         (handle_all str_split [AgentStoppedSpeaking]) a0 w in
     let tool_stage :=
       latency_tracker.tool (latency_tracker.current (latency_tracker a')) in
     latency_tracker.start_time tool_stage = None /\
     is_Some (latency_tracker.end_time tool_stage) /\
     latency_tracker.turn_count (latency_tracker a')
     = (latency_tracker.turn_count (latency_tracker a) + 1)%Z /\
     cost_tracker.turn_count (cost_tracker a')
     = (cost_tracker.turn_count (cost_tracker a) + 1)%Z).
Proof.
  split; [|split; [|split]].
  - pose proof (handle_function_call_end name arguments during a w) as H.
    destruct (handle_function_call name arguments during a w)
      as [[r a'] w'].
    destruct H as ((t_end & lt & Hlt) & Hr).
    rewrite Hlt. simpl.
    unfold latency_tracker.current. simpl. rewrite !fn_lookup_insert. simpl.
    split; [by eexists|]. split; done.
  - intros Hquiet.
    unfold handle_function_call, play_audio_during.
    unfold await_callback, no_interference, try_finally, try_except,
      on_latency, bind, get, put, emit, ret, time_time.
    simpl.
    destruct (String.eqb name "play_audio"); [|reflexivity].
    destruct Hquiet as [Hnone | Hother]; [|done].
    simpl. rewrite Hnone. reflexivity.
  - pose proof (handle_function_call_quiet name arguments no_interference a w)
      as H.
    destruct (handle_function_call name arguments no_interference a w)
      as [[r a'] w'].
    destruct H as (t_end & Hlt & Hct & _); [right; right; done|].
    rewrite Hlt. simpl.
    unfold latency_tracker.current. simpl. rewrite !fn_lookup_insert. simpl.
    repeat split; done.
  - intros cb a0.
    pose proof (handle_function_call_suspended arguments
                  (handle_all str_split [AgentStoppedSpeaking]) a0 w cb
                  eq_refl) as H.
    destruct (handle_function_call "play_audio" arguments
                (handle_all str_split [AgentStoppedSpeaking]) a0 w)
      as [[r a'] w'].
    destruct H as (w1 & t_end & ->).
    match goal with
    | |- context [handle_all str_split _ ?a1 w1] =>
        destruct (on_agent_stopped_speaking_effect a1 w1)
          as (t1 & t2 & t3 & t4 & Hlt & Hct);
        set (a2 := fst (handle_all str_split [AgentStoppedSpeaking] a1 w1))
          in *
    end.
    clearbody a2. cbn [latency_tracker cost_tracker set_latency_tracker].
    rewrite Hlt, Hct. simpl.
    unfold latency_tracker.current, latency_tracker.turn_count,
      cost_tracker.turn_count.
    simpl. rewrite ?fn_lookup_insert, ?length_app. simpl.
    split; [reflexivity|]. split; [by eexists|]. split; lia.
Qed.

End agent_events.

(** ** The text pipeline of a websocket session *)

Section triples.
Import Py aio tools main.

Lemma triple_bind {A B} (P : connection -> world -> Prop)
    (R : A -> connection -> world -> Prop) (E : connection -> world -> Prop)
    (Q : result B -> connection -> world -> Prop)
    (m : M connection A) (k : A -> M connection B) :
  triple P m (post R E) ->
  (forall e c w, E c w -> Q (Raise e) c w) ->
  (forall a, triple (R a) (k a) Q) ->
  triple P (bind m k) Q.
Proof.
  intros Hm HE Hk c w HP. specialize (Hm c w HP). unfold bind.
  destruct (m c w) as [[[a|e] c1] w1]; simpl in Hm.
  - exact (Hk a c1 w1 Hm).
  - now apply HE.
Qed.

Lemma triple_get {B} (P : connection -> world -> Prop)
    (Q : result B -> connection -> world -> Prop)
    (k : connection -> M connection B) :
  (forall c1, triple (fun c w => c = c1 /\ P c w) (k c1) Q) ->
  triple P (bind get k) Q.
Proof. intros Hk c w HP. exact (Hk c c w (conj eq_refl HP)). Qed.

Lemma triple_ret {A} (P : connection -> world -> Prop) (a : A) E :
  triple P (ret a) (post (fun a' c w => a' = a /\ P c w) E).
Proof. intros c w HP. simpl. done. Qed.

Lemma triple_pre {A} (P P' : connection -> world -> Prop)
    (m : M connection A) Q :
  (forall c w, P c w -> P' c w) -> triple P' m Q -> triple P m Q.
Proof. intros HPP Hm c w HP. apply Hm, HPP, HP. Qed.

Lemma triple_get_in {B} (P : connection -> world -> Prop)
    (Q : result B -> connection -> world -> Prop)
    (k : connection -> M connection B) :
  (forall c1, (exists w1, P c1 w1) -> triple P (k c1) Q) ->
  triple P (bind get k) Q.
Proof. intros Hk c w HP. exact (Hk c (ex_intro _ w HP) c w HP). Qed.

Lemma triple_pure {A} (fact : Prop) (P : connection -> world -> Prop)
    (m : M connection A) Q :
  (fact -> triple P m Q) -> triple (fun c w => fact /\ P c w) m Q.
Proof. intros Hm c w [Hf HP]. now apply Hm. Qed.

Lemma triple_post {A} (P : connection -> world -> Prop)
    (R : A -> connection -> world -> Prop) (E : connection -> world -> Prop)
    (Q : result A -> connection -> world -> Prop) (m : M connection A) :
  triple P m (post R E) ->
  (forall a c w, R a c w -> Q (Ok a) c w) ->
  (forall e c w, E c w -> Q (Raise e) c w) ->
  triple P m Q.
Proof.
  intros Hm HR HE c w HP. specialize (Hm c w HP).
  destruct (m c w) as [[[a|e] c1] w1]; simpl in Hm; [now apply HR | now apply HE].
Qed.

Lemma tracked_refl c : tracked c c 0 0.
Proof. exists [], []. done. Qed.

Lemma tracked_latency c c1 kc kl call :
  tracked c c1 kc kl ->
  tracked c
    (set_latency_tracker (latency_calls.step (latency c1) call) c1)
    kc (kl + if latency_calls.is_finish call then 1 else 0).
Proof.
  intros (ccs & lcs & Hc & Hl & Hkc & Hkl & Hid & Hact).
  exists ccs, (lcs ++ [call]). unfold cost, latency in *. simpl.
  rewrite Hl. unfold latency_calls.run, latency_calls.count_finish in *.
  rewrite fold_left_app, List.filter_app, length_app, Hkl. simpl.
  repeat split; try done. now destruct (latency_calls.is_finish call).
Qed.

Lemma tracked_cost c c1 kc kl call :
  tracked c c1 kc kl ->
  tracked c (set_cost_tracker (cost_calls.step (cost c1) call) c1)
    (kc + if cost_calls.is_finish call then 1 else 0) kl.
Proof.
  intros (ccs & lcs & Hc & Hl & Hkc & Hkl & Hid & Hact).
  exists (ccs ++ [call]), lcs. unfold cost, latency in *. simpl.
  rewrite Hc. unfold cost_calls.run, cost_calls.count_finish in *.
  rewrite fold_left_app, List.filter_app, length_app, Hkc. simpl.
  repeat split; try done. now destruct (cost_calls.is_finish call).
Qed.

Lemma progress_start c w : progress c w 0 0 (conversation_history c) c w.
Proof.
  split; [apply tracked_refl|]. split; [done|].
  exists []. rewrite app_nil_r. split; [done | constructor].
Qed.

(** What is not sent does not count. *)
Lemma progress_world c0 w0 kc kl h c w w' :
  sent w' = sent w ->
  progress c0 w0 kc kl h c w -> progress c0 w0 kc kl h c w'.
Proof. intros Hs (Ht & Hh & Hm). rewrite <- Hs in Hm. done. Qed.

Lemma progress_sent c0 w0 kc kl h c w w' v :
  is_turn_complete v = false ->
  sent w' = sent w ++ [v] ->
  progress c0 w0 kc kl h c w -> progress c0 w0 kc kl h c w'.
Proof.
  intros Hv Hs (Ht & Hh & messages & Hm & Hall).
  split; [done|]. split; [done|].
  exists (messages ++ [v]). rewrite Hs, Hm, app_assoc. split; [done|].
  apply Forall_app. split; [done|]. constructor; [done | constructor].
Qed.

Lemma triple_on_latency c0 w0 kc kl h method mk :
  (forall now lt, fst (method now lt) = latency_calls.step lt (mk now)) ->
  (forall now, latency_calls.is_finish (mk now) = false) ->
  triple (progress c0 w0 kc kl h) (on_latency method)
    (post (fun _ => progress c0 w0 kc kl h) (fun _ _ => False)).
Proof.
  intros Hstep Hfin c w (Ht & Hh & Hm).
  specialize (Hstep (clock w (ticks w)) (latency c)).
  specialize (Hfin (clock w (ticks w))).
  unfold on_latency. unfold bind, time_time, get, put, emit. cbn beta iota.
  destruct (method (clock w (ticks w)) (latency c)) as [lt records].
  simpl in Hstep. subst lt. simpl.
  split; [|done].
  apply (tracked_latency _ _ _ _ (mk (clock w (ticks w)))) in Ht.
  rewrite Hfin, Nat.add_0_r in Ht. exact Ht.
Qed.

Lemma triple_on_cost c0 w0 kc kl h method call :
  (forall ct, method ct = cost_calls.step ct call) ->
  cost_calls.is_finish call = false ->
  triple (progress c0 w0 kc kl h) (on_cost method)
    (post (fun _ => progress c0 w0 kc kl h) (fun _ _ => False)).
Proof.
  intros Hstep Hfin c w (Ht & Hh & Hm).
  unfold on_cost. unfold bind, get, put. simpl. rewrite Hstep.
  split; [|done].
  apply (tracked_cost _ _ _ _ call) in Ht.
  rewrite Hfin, Nat.add_0_r in Ht. exact Ht.
Qed.

Lemma triple_history_append c0 w0 kc kl h entry :
  triple (progress c0 w0 kc kl h) (history_append entry)
    (post (fun _ => progress c0 w0 kc kl (h ++ [entry])) (fun _ _ => False)).
Proof.
  intros c w (Ht & Hh & Hm). simpl. split; [exact Ht|]. now rewrite Hh.
Qed.

Lemma triple_send_json c0 w0 kc kl h v :
  is_turn_complete v = false ->
  triple (progress c0 w0 kc kl h) (send_json v)
    (post (fun _ => progress c0 w0 kc kl h) (progress c0 w0 kc kl h)).
Proof.
  intros Hv c w Hp. unfold send_json, send_json_world.
  destruct (net w (awaited w)); simpl.
  - now apply (progress_sent _ _ _ _ _ _ w _ v).
  - now apply (progress_world _ _ _ _ _ _ w).
  - now apply (progress_world _ _ _ _ _ _ w).
Qed.

Lemma triple_sleep c0 w0 kc kl h :
  triple (progress c0 w0 kc kl h) sleep
    (post (fun _ => progress c0 w0 kc kl h) (progress c0 w0 kc kl h)).
Proof.
  intros c w Hp. unfold sleep.
  destruct (net w (awaited w)); simpl; now apply (progress_world _ _ _ _ _ _ w).
Qed.

(** [play_audio] through [play_audio_callback]: the state is left alone, at
    most the [play_audio] command is sent, a failed send is answered like a
    refusal, and only a cancellation raises. *)
Lemma play_audio_through_callback {St} url description (s : St) w :
  let '(r, s', w') := play_audio audio_tool url description s w in
  s' = s /\ clock w' = clock w /\ ticks w' = ticks w /\ net w' = net w /\
  awaited w' = S (awaited w) /\
  match net w (awaited w) with
  | Delivered =>
      r = Ok ("Successfully started playing audio: "
              +:+ description_or description url)%string /\
      sent w' = sent w ++ [VDict [("type", VStr "play_audio");
                                  ("url", VStr url)]%string]
  | Failed _ =>
      r = Ok ("Failed to play audio: " +:+ url)%string /\ sent w' = sent w
  | Cancelled => r = Raise CancelledError /\ sent w' = sent w
  end.
Proof.
  unfold play_audio, play_audio_during, audio_tool, play_audio_callback,
    send_json_world.
  unfold await_callback, no_interference, try_except, bind, emit, ret. simpl.
  destruct (net w (awaited w)); simpl; repeat split; done.
Qed.

Lemma triple_play_audio c0 w0 kc kl h url description :
  triple (progress c0 w0 kc kl h) (play_audio audio_tool url description)
    (post (fun _ => progress c0 w0 kc kl h) (progress c0 w0 kc kl h)).
Proof.
  intros c w Hp.
  pose proof (play_audio_through_callback url description c w) as H.
  destruct (play_audio audio_tool url description c w) as [[r c1] w1].
  destruct H as (-> & _ & _ & _ & _ & H).
  destruct (net w (awaited w)); destruct H as [-> Hs]; simpl.
  - eapply progress_sent; [|exact Hs|exact Hp]. reflexivity.
  - now apply (progress_world _ _ _ _ _ _ w).
  - now apply (progress_world _ _ _ _ _ _ w).
Qed.

End triples.

Section text_pipeline_outcome.
Import Py aio tools main.
Variable str_lower : string -> string.
Variable str_strip : string -> string.
Variable str_split : string -> list string.

Lemma triple_finish_and_report c0 w0 h :
  triple (progress c0 w0 0 0 h)
    (let* turn_latency := latency_finish_turn in
     let* turn_cost := cost_finish_turn in
     send_json
       (VDict [("type", VStr "turn_complete");
               ("latency", latency_tracker.TurnLatency_to_dict turn_latency);
               ("cost", cost_tracker.to_dict turn_cost)]%string))
    (post
       (fun _ c w =>
          tracked c0 c 1 1 /\
          conversation_history c = h /\
          exists messages,
            sent w = sent w0 ++ messages ++ [turn_complete_of c] /\
            Forall (fun m => is_turn_complete m = false) messages)
       (progress c0 w0 1 1 h)).
Proof.
  intros c w (Ht & Hh & messages & Hm & Hall).
  apply (tracked_latency _ _ _ _
           (latency_calls.FinishTurn (clock w (ticks w))
              (clock w (S (ticks w))))) in Ht.
  match type of Ht with
  | tracked _ ?c1 _ _ =>
      apply (tracked_cost _ c1 _ _
               (cost_calls.FinishTurn (clock w (S (S (ticks w)))))) in Ht
  end.
  simpl in Ht.
  unfold latency_finish_turn, cost_finish_turn, send_json, send_json_world.
  unfold bind, time_time, get, put, emit, ret. simpl.
  destruct (net w (awaited w)); simpl.
  - split; [exact Ht|]. split; [exact Hh|].
    exists messages. split; [|exact Hall].
    rewrite Hm, <- app_assoc. do 3 f_equal.
    unfold turn_complete_of, latency_tracker.get_last_turn,
      cost_tracker.get_last_turn, latency, cost.
    simpl. rewrite !last_snoc. reflexivity.
  - split; [exact Ht|]. split; [exact Hh|]. now exists messages.
  - split; [exact Ht|]. split; [exact Hh|]. now exists messages.
Qed.

Ltac on_latency_triple :=
  first
    [ apply (triple_on_latency _ _ _ _ _ latency_tracker.start_stt
               latency_calls.StartStt)
    | apply (triple_on_latency _ _ _ _ _ latency_tracker.stt_first_result
               latency_calls.SttFirstResult)
    | apply (triple_on_latency _ _ _ _ _ latency_tracker.end_stt
               latency_calls.EndStt)
    | apply (triple_on_latency _ _ _ _ _ latency_tracker.start_llm
               latency_calls.StartLlm)
    | apply (triple_on_latency _ _ _ _ _ latency_tracker.llm_first_token
               latency_calls.LlmFirstToken)
    | apply (triple_on_latency _ _ _ _ _ latency_tracker.end_llm
               latency_calls.EndLlm)
    | apply (triple_on_latency _ _ _ _ _ latency_tracker.start_tool
               latency_calls.StartTool)
    | apply (triple_on_latency _ _ _ _ _ latency_tracker.end_tool
               latency_calls.EndTool)
    | apply (triple_on_latency _ _ _ _ _ latency_tracker.start_tts
               latency_calls.StartTts)
    | apply (triple_on_latency _ _ _ _ _ latency_tracker.tts_first_audio
               latency_calls.TtsFirstAudio)
    | apply (triple_on_latency _ _ _ _ _ latency_tracker.end_tts
               latency_calls.EndTts) ];
  intros; reflexivity.

Ltac on_cost_triple :=
  first
    [ eapply (triple_on_cost _ _ _ _ _ _ (cost_calls.AddStt _));
      intros; reflexivity
    | eapply (triple_on_cost _ _ _ _ _ _ (cost_calls.AddLlm _ _));
      intros; reflexivity
    | eapply (triple_on_cost _ _ _ _ _ _ (cost_calls.AddTts _));
      intros; reflexivity ].

Ltac primitive_triple :=
  first
    [ on_latency_triple
    | on_cost_triple
    | apply triple_history_append
    | apply triple_send_json; reflexivity
    | apply triple_sleep
    | apply triple_play_audio ].

(** One statement of the pipeline: its triple, what an exception it raises
    leaves, and the statements after it. *)
Ltac pipeline_step :=
  eapply triple_bind;
  [ primitive_triple
  | let H := fresh "Hraised" in
    intros ? ? ? H; simpl in H |- *;
    first [ contradiction
          | exists 0; eexists; split; [lia | exact H] ]
  | intros ?; cbv beta ].

Lemma triple_process_text_input text s0 rest c0 w0 :
  str_strip text = String s0 rest ->
  triple (progress c0 w0 0 0 (conversation_history c0))
    (process_text_input str_lower str_strip str_split text)
    (post
       (fun _ c w =>
          tracked c0 c 1 1 /\
          conversation_history c
          = (conversation_history c0 ++ [history_entry "user" text])
            ++ [history_entry "assistant"
                  (if asks_for_sound str_lower text
                   then "I've played a notification sound for you!"%string
                   else simulate_llm_response str_lower text
                          (conversation_history c0
                           ++ [history_entry "user" text]))] /\
          exists messages,
            sent w = sent w0 ++ messages ++ [turn_complete_of c] /\
            Forall (fun m => is_turn_complete m = false) messages)
       (fun c w => exists k h, k <= 1 /\ progress c0 w0 k k h c w)).
Proof.
  intros Hs. unfold process_text_input. rewrite Hs. cbv beta iota zeta.
  do 7 pipeline_step.
  apply triple_get_in. intros c1 (w1 & _ & Hh1 & _). rewrite Hh1.
  pipeline_step.
  eapply (triple_bind _
            (fun response c w =>
               response
               = (if asks_for_sound str_lower text
                  then "I've played a notification sound for you!"%string
                  else simulate_llm_response str_lower text
                         (conversation_history c0
                          ++ [history_entry "user" text])) /\
               progress c0 w0 0 0
                 (conversation_history c0 ++ [history_entry "user" text])
                 c w)
            (progress c0 w0 0 0
               (conversation_history c0 ++ [history_entry "user" text]))).
  - destruct (asks_for_sound str_lower text).
    + do 3 (eapply triple_bind;
            [ primitive_triple
            | intros ? ? ? Hraised; cbv beta in Hraised;
              first [ contradiction | exact Hraised ]
            | intros ?; cbv beta ]).
      apply triple_ret.
    + apply triple_ret.
  - intros e c w Hraised. exists 0. eexists. split; [lia | exact Hraised].
  - intros response. apply triple_pure. intros ->.
    do 9 pipeline_step.
    eapply triple_post; [apply triple_finish_and_report | |].
    + intros ? c w H. exact H.
    + intros e c w H. exists 1. eexists. split; [lia | exact H].
Qed.

Lemma process_text_input_blank text c w :
  str_strip text = EmptyString ->
  process_text_input str_lower str_strip str_split text c w = (Ok tt, c, w).
Proof. intros Hs. unfold process_text_input. now rewrite Hs. Qed.

Lemma tracked_turn_counts c c' kc kl :
  tracked c c' kc kl ->
  cost_tracker.turn_count (cost c')
  = (cost_tracker.turn_count (cost c) + Z.of_nat kc)%Z /\
  latency_tracker.turn_count (latency c')
  = (latency_tracker.turn_count (latency c) + Z.of_nat kl)%Z /\
  session_manager.session_id (session c')
  = session_manager.session_id (session c) /\
  session_manager.is_active (session c')
  = session_manager.is_active (session c).
Proof.
  intros (ccs & lcs & Hc & Hl & Hkc & Hkl & Hid & Hact).
  unfold cost_tracker.turn_count, latency_tracker.turn_count.
  rewrite Hc, Hl, length_turns_run, lat_length_turns_run, Hkc, Hkl.
  repeat split; try done; lia.
Qed.

Lemma tracked_paired n c c' k :
  tracked c c' k k ->
  paired n (cost c) (latency c) -> paired (n + k) (cost c') (latency c').
Proof.
  intros (ccs & lcs & Hc & Hl & Hkc & Hkl & _) Hp.
  rewrite Hc, Hl, <- Hkc. apply paired_run; [congruence | exact Hp].
Qed.

Lemma cost_last_turn_id n ct :
  cost_calls.numbered (S n) ct ->
  getitem (cost_tracker.get_last_turn ct) "turn_id"
  = Some (VInt (Z.of_nat n)).
Proof.
  intros (Hh & _). unfold cost_tracker.history in Hh.
  apply (f_equal list.last) in Hh.
  rewrite seq_S, !fmap_last, last_snoc in Hh.
  unfold cost_tracker.get_last_turn.
  destruct (list.last (cost_tracker.turns ct)) as [r|]; [|done].
  simpl in Hh. injection Hh as Hh. unfold getitem. simpl. now rewrite Hh.
Qed.

Lemma latency_last_turn_id n lt :
  latency_calls.numbered (S n) lt ->
  getitem (latency_tracker.get_last_turn lt) "turn_id"
  = Some (VInt (Z.of_nat n)).
Proof.
  intros (Hh & _). unfold latency_tracker.history in Hh.
  apply (f_equal list.last) in Hh.
  rewrite seq_S, !fmap_last, last_snoc in Hh.
  unfold latency_tracker.get_last_turn.
  destruct (list.last (latency_tracker.turns lt)) as [r|]; [|done].
  simpl in Hh. injection Hh as Hh. unfold getitem. simpl. now rewrite Hh.
Qed.

Lemma turn_complete_of_paired n c :
  paired (S n) (cost c) (latency c) ->
  is_turn_complete (turn_complete_of c) = true /\
  turn_id_under "latency" (turn_complete_of c) = Some (VInt (Z.of_nat n)) /\
  turn_id_under "cost" (turn_complete_of c) = Some (VInt (Z.of_nat n)).
Proof.
  intros (_ & Hc & _ & Hl). split; [reflexivity|].
  split; [now apply latency_last_turn_id | now apply cost_last_turn_id].
Qed.

Lemma filter_no_turn_complete messages :
  Forall (fun m => is_turn_complete m = false) messages ->
  List.filter is_turn_complete messages = [].
Proof.
  induction 1 as [|m messages Hm _ IH]; simpl; [done|]. now rewrite Hm.
Qed.

(** The inputs of a session, from any state in which the trackers are
    paired. *)
Lemma process_text_inputs_paired texts n0 c0 w0 :
  paired n0 (cost c0) (latency c0) ->
  let '(r, c, w) :=
    process_text_inputs str_lower str_strip str_split texts c0 w0 in
  exists m k messages,
    paired (n0 + k) (cost c) (latency c) /\
    sent w = sent w0 ++ messages /\
    turn_id_under "latency" <$> List.filter is_turn_complete messages
    = turn_ids n0 m /\
    turn_id_under "cost" <$> List.filter is_turn_complete messages
    = turn_ids n0 m /\
    m <= k <= m + 1 /\
    k <= length (List.filter (fun t => negb (is_blank str_strip t)) texts) /\
    (r = Ok tt ->
     m = k /\
     k = length (List.filter (fun t => negb (is_blank str_strip t)) texts)).
Proof.
  revert n0 c0 w0.
  induction texts as [|text texts IH]; intros n0 c0 w0 Hp; simpl.
  - exists 0, 0, []. rewrite Nat.add_0_r, app_nil_r.
    split; [exact Hp|]. repeat split; try done; lia.
  - unfold bind.
    destruct (str_strip text) as [|s0 rest] eqn:Hs.
    + assert (Hb : is_blank str_strip text = true)
        by (unfold is_blank; now rewrite Hs).
      rewrite (process_text_input_blank _ _ _ Hs), Hb. simpl.
      exact (IH n0 c0 w0 Hp).
    + assert (Hb : is_blank str_strip text = false)
        by (unfold is_blank; now rewrite Hs).
      rewrite Hb. simpl.
      pose proof (triple_process_text_input text s0 rest c0 w0 Hs c0 w0
                    (progress_start c0 w0)) as H1.
      destruct (process_text_input str_lower str_strip str_split text c0 w0)
        as [[[[]|e] c1] w1]; simpl in H1.
      * destruct H1 as (Ht & _ & messages & Hsent & Hall).
        pose proof (tracked_paired n0 _ _ _ Ht Hp) as Hp1.
        rewrite Nat.add_1_r in Hp1.
        destruct (turn_complete_of_paired _ _ Hp1) as (Htc & Hidl & Hidc).
        specialize (IH (S n0) c1 w1 Hp1).
        destruct (process_text_inputs str_lower str_strip str_split texts
                    c1 w1) as [[r c] w].
        destruct IH as (m & k & messages' & Hpk & Hs' & Hl & Hc & Hmk & Hk
                        & Hok).
        exists (S m), (S k), (messages ++ [turn_complete_of c1] ++ messages').
        rewrite !List.filter_app, (filter_no_turn_complete _ Hall).
        cbn [List.filter app]. rewrite Htc.
        rewrite !fmap_app, Hl, Hc, !list_fmap_singleton, Hidl, Hidc.
        replace (n0 + S k) with (S n0 + k) by lia.
        split; [exact Hpk|]. split.
        { rewrite Hs', Hsent, <- !app_assoc. reflexivity. }
        split; [reflexivity|]. split; [reflexivity|].
        split; [lia|]. split; [lia|].
        intros Hr. specialize (Hok Hr). lia.
      * destruct H1 as (k & h & Hk & Ht & _ & messages & Hsent & Hall).
        exists 0, k, messages.
        rewrite (filter_no_turn_complete _ Hall). simpl.
        split; [exact (tracked_paired n0 _ _ _ Ht Hp)|].
        repeat split; try done; lia.
Qed.

(** X14.  One text input, whatever the network does.  A blank text (one
    that [strip()] empties) returns at once and changes nothing: no tracker
    call, no history entry, no message.  Any other text either returns,
    and then both trackers have finalized exactly one more turn, the
    history has gained the user's entry and the assistant's (the fixed
    notification reply when the text asks for a sound, whatever
    [play_audio] answered, the simulated reply otherwise), and the last
    message sent is the one [turn_complete], carrying what
    [get_last_turn()] of each tracker answers afterwards; or it raises,
    and then no [turn_complete] was sent and the two trackers have
    finalized the same number of turns, none or one (the last send can fail
    after both [finish_turn()] calls).  The session's id and [is_active]
    are never touched. *)
Theorem text_input_outcome text c w :
  let '(r, c', w') :=
    process_text_input str_lower str_strip str_split text c w in
  let finalized (k : nat) :=
    cost_tracker.turn_count (cost c')
    = (cost_tracker.turn_count (cost c) + Z.of_nat k)%Z /\
    latency_tracker.turn_count (latency c')
    = (latency_tracker.turn_count (latency c) + Z.of_nat k)%Z /\
    session_manager.session_id (session c')
    = session_manager.session_id (session c) /\
    session_manager.is_active (session c')
    = session_manager.is_active (session c) in
  if is_blank str_strip text then r = Ok tt /\ c' = c /\ w' = w
  else
    match r with
    | Ok _ =>
        finalized 1 /\
        conversation_history c'
        = conversation_history c
          ++ [history_entry "user" text;
              history_entry "assistant"
                (if asks_for_sound str_lower text
                 then "I've played a notification sound for you!"%string
                 else simulate_llm_response str_lower text
                        (conversation_history c
                         ++ [history_entry "user" text]))] /\
        exists messages,
          sent w' = sent w ++ messages ++ [turn_complete_of c'] /\
          Forall (fun m => is_turn_complete m = false) messages
    | Raise _ =>
        exists k messages,
          k <= 1 /\ finalized k /\
          sent w' = sent w ++ messages /\
          Forall (fun m => is_turn_complete m = false) messages
    end.
Proof.
  unfold is_blank.
  destruct (str_strip text) as [|s0 rest] eqn:Hs.
  - now rewrite (process_text_input_blank _ _ _ Hs).
  - pose proof (triple_process_text_input text s0 rest c w Hs c w
                  (progress_start c w)) as H.
    destruct (process_text_input str_lower str_strip str_split text c w)
      as [[[[]|e] c'] w']; simpl in H; cbv zeta.
    + destruct H as (Ht & Hh & Hm).
      split; [exact (tracked_turn_counts _ _ _ _ Ht)|].
      split; [|exact Hm]. now rewrite Hh, <- app_assoc.
    + destruct H as (k & h & Hk & Ht & _ & messages & Hsent & Hall).
      exists k, messages. split; [exact Hk|].
      split; [exact (tracked_turn_counts _ _ _ _ Ht)|]. done.
Qed.

(** X15.  The turns a websocket session reports.  From a new session's
    state, after any list of text inputs (processed until one raises),
    whatever the network does: the [turn_complete] messages sent carry, in
    order, the turn ids 0, 1, 2, ..., and each carries the same id under
    [latency] and under [cost]; the two trackers have finalized the same
    turns ([k] on each, numbered from 0), which is the number [m] of
    [turn_complete] messages, or one more when the last send failed.  If
    every input returned, there is one [turn_complete] per non-blank
    input. *)
Theorem session_turns_are_reported_in_order texts sid utcnow t_cost
    t_latency w0 :
  let '(r, c, w) :=
    process_text_inputs str_lower str_strip str_split texts
      (new_connection sid utcnow t_cost t_latency) w0 in
  exists m k messages,
    sent w = sent w0 ++ messages /\
    turn_id_under "latency" <$> List.filter is_turn_complete messages
    = turn_ids 0 m /\
    turn_id_under "cost" <$> List.filter is_turn_complete messages
    = turn_ids 0 m /\
    cost_tracker.turn_id <$> cost_tracker.history (cost c)
    = Z.of_nat <$> seq 0 k /\
    latency_tracker.turn_id <$> latency_tracker.history (latency c)
    = Z.of_nat <$> seq 0 k /\
    m <= k <= m + 1 /\
    k <= length (List.filter (fun t => negb (is_blank str_strip t)) texts) /\
    (r = Ok tt ->
     m = k /\
     k = length (List.filter (fun t => negb (is_blank str_strip t)) texts)).
Proof.
  pose proof (process_text_inputs_paired texts 0
                (new_connection sid utcnow t_cost t_latency) w0
                (paired_init sid t_cost t_latency)) as H.
  destruct (process_text_inputs str_lower str_strip str_split texts
              (new_connection sid utcnow t_cost t_latency) w0)
    as [[r c] w].
  destruct H as (m & k & messages & Hp & Hs & Hl & Hc & Hmk & Hk & Hok).
  simpl in Hp. destruct (paired_turns _ _ _ Hp) as (Hch & Hlh & _).
  exists m, k, messages. done.
Qed.

End text_pipeline_outcome.

(** ** The playback tool and the metrics endpoint *)

Section endpoints.
Import Py aio tools main.

(** X16.  What [play_audio] can answer.  With any callback or none, it
    leaves the caller's state alone and never lets an [Exception] out: only
    a cancellation propagates.  Without a callback it answers that no
    handler is configured, awaits nothing and sends nothing.  With the callback of a websocket session, the answer
    follows the one send: delivered, [Successfully started playing audio:]
    with the description, or the URL when the description is empty, and the
    [play_audio] command is the one message sent; failed, [Failed to play
    audio: <url>] (the session's callback swallows the exception, so the
    [Error playing audio] answer never occurs) and nothing is sent;
    cancelled, the cancellation is raised. *)
Theorem play_audio_answers {St} self url description (s : St) w :
  (let '(r, s', w') := play_audio self url description s w in
   s' = s /\
   (forall str_e, r <> Raise (Exception str_e)) /\
   (_playback_callback self = None ->
    r = Ok "Audio playback requested but no playback handler is configured."%string
    /\ sent w' = sent w /\ awaited w' = awaited w)) /\
  (let '(r, _, w') := play_audio audio_tool url description s w in
   awaited w' = S (awaited w) /\
   match net w (awaited w) with
   | Delivered =>
       r = Ok ("Successfully started playing audio: "
               +:+ description_or description url)%string /\
       sent w' = sent w ++ [VDict [("type", VStr "play_audio");
                                   ("url", VStr url)]%string]
   | Failed _ =>
       r = Ok ("Failed to play audio: " +:+ url)%string /\ sent w' = sent w
   | Cancelled => r = Raise CancelledError /\ sent w' = sent w
   end).
Proof.
  split.
  - unfold play_audio, play_audio_during.
    unfold await_callback, no_interference, try_except, bind, emit, ret.
    simpl.
    destruct (_playback_callback self) as [cb|]; simpl; [|done].
    match goal with
    | |- context [cb ?u ?w0] => destruct (cb u w0) as [[[|]|[str_e|]] w1]
    end; simpl; repeat split; done.
  - pose proof (play_audio_through_callback url description s w) as H.
    destruct (play_audio audio_tool url description s w) as [[r s'] w'].
    destruct H as (_ & _ & _ & _ & Haw & H). done.
Qed.

(** A registered id leads to an allocated [Session] object of that id. *)
Lemma registered_session m sid r :
  system_calls.system_ok m ->
  dict_get (session_manager._sessions m) sid = Some r ->
  exists s,
    session_manager.objs m r = Some s /\ system_calls.session_of sid s.
Proof.
  intros (_ & _ & Hall & _) Hget.
  unfold dict_get in Hget.
  destruct (List.find _ _) as [[k r']|] eqn:Hfind; [|done].
  simpl in Hget. injection Hget as ->.
  apply List.find_some in Hfind as [Hin Hk]. simpl in Hk.
  apply String.eqb_eq in Hk. subst k.
  rewrite Forall_forall in Hall. now apply Hall in Hin as [_ ?].
Qed.

(** X17.  [GET /metrics/{session_id}] in every state the registry can
    reach: the request is refused with status 404 exactly when
    [get_session] finds no session of that id; for a registered id it
    answers the details [get_session_details] builds, for that id.  The
    truthiness test [if not details] never refuses a session that
    exists. *)
Theorem session_metrics_404_iff_absent isoformat calls sid :
  let m := system_calls.run calls session_manager.init in
  match session_manager.get_session sid m with
  | None =>
      get_session_metrics isoformat sid m
      = inr (mkHTTPException 404 "Session not found")
  | Some _ =>
      exists details,
        get_session_metrics isoformat sid m = inl details /\
        session_manager.get_session_details isoformat sid m = Some details /\
        getitem details "session_id" = Some (VStr sid)
  end.
Proof.
  intros m.
  pose proof (system_ok_run calls session_manager.init system_ok_init) as Hok.
  fold m in Hok.
  unfold get_session_metrics, session_manager.get_session_details,
    session_manager.get_session.
  destruct (dict_get (session_manager._sessions m) sid) as [r|] eqn:Hget;
    simpl; [|done].
  destruct (registered_session m sid r Hok Hget) as (s & -> & _).
  simpl. eexists. repeat split; reflexivity.
Qed.

End endpoints.
